(** * AI negotiation simulator: the round protocol of
    [negotiation_agent_ultron.py]

  A shallow embedding of the buyer strategy ([MockBuyerAgent]), the seller
  strategy ([MockSellerAgent]) and the orchestrator
  ([run_negotiation_test]), followed by the properties of the protocol.

  Prices are Python [int]s (unbounded, hence [Z]).  Every product with a
  literal such as [0.85] is computed by Python in IEEE 754 binary64: the
  integer is converted to a double, multiplied, and the result is either
  truncated by [int(...)] or compared with an integer.  These steps are
  taken from the standard library's [SpecFloat] with [prec = 53] and
  [emax = 1024].  Exceptions the arithmetic can raise are results of the
  model ([Raise]).  Console output ([print]) is not modelled. *)

From Stdlib Require Import ZArith List Sorted String Bool Lia DecimalString.
From Stdlib Require Import QArith Qpower Qround Lqa.
From Stdlib Require Import Floats.SpecFloat.
Import ListNotations.
Local Open Scope Z_scope.

(** ** Exceptions *)

Inductive py_exn : Set :=
| OverflowError      (* int too large for a float, or int(inf) *)
| ValueError         (* int(nan) *)
| ZeroDivisionError  (* true division by zero *)
| IndexError         (* [-1] on an empty list *)
| TypeError.         (* arithmetic on [None] *)

Inductive result (A : Type) : Type :=
| Ok (a : A)
| Raise (e : py_exn).
Arguments Ok {A} a.
Arguments Raise {A} e.

Definition bind {A B : Type} (c : result A) (k : A -> result B) : result B :=
match c with
| Ok a => k a
| Raise e => Raise e
end.

Declare Scope py_scope.
Delimit Scope py_scope with py.
Notation "x <- c ;; k" := (bind c (fun x => k))
(at level 61, c at next level, right associativity) : py_scope.
Notation "' p <- c ;; k" := (bind c (fun x => let p := x in k))
(at level 61, p pattern, c at next level, right associativity) : py_scope.
Local Open Scope py_scope.

(** ** Python numbers *)

Module Py.

Definition prec : Z := 53.
Definition emax : Z := 1024.

(** A Python [float]. *)
Definition float : Set := spec_float.

(** [float(z)] as the interpreter does it before an [int * float]
    product: the nearest double, ties to even; an [int] beyond the range
    of doubles raises [OverflowError]. *)
Definition float_of_int (z : Z) : result float :=
  match binary_normalize prec emax z 0 false with
  | S754_infinity _ => Raise OverflowError
  | S754_nan => Raise OverflowError
  | f => Ok f
  end.

(** [x * y] on floats; an overflow gives an infinity, not an exception. *)
Definition fmul (x y : float) : float := SFmul prec emax x y.

(** [z * c] for an [int] [z] and a [float] [c]. *)
Definition int_mul_float (z : Z) (c : float) : result float :=
  f <- float_of_int z ;; Ok (fmul f c).

(** The integer part of the magnitude [m * 2^e]. *)
Definition magnitude_trunc (m : positive) (e : Z) : Z :=
  match e with
  | Zneg k => Z.shiftr (Zpos m) (Zpos k)
  | _ => Z.shiftl (Zpos m) e
  end.

(** [int(f)]: truncation toward zero. *)
Definition int_of_float (f : float) : result Z :=
  match f with
  | S754_zero _ => Ok 0
  | S754_infinity _ => Raise OverflowError
  | S754_nan => Raise ValueError
  | S754_finite s m e =>
      Ok (if s then - magnitude_trunc m e else magnitude_trunc m e)
  end.

(** The mathematical floor of a float, the rounding the specification
    names; it is not what [int] computes on negative values. *)
Definition floor_of_float (f : float) : result Z :=
  match f with
  | S754_zero _ => Ok 0
  | S754_infinity _ => Raise OverflowError
  | S754_nan => Raise ValueError
  | S754_finite s m e =>
      Ok (match e with
          | Zneg k => (if s then Zneg m else Zpos m) / 2 ^ Zpos k
          | _ => (if s then Zneg m else Zpos m) * 2 ^ e
          end)
  end.

(** Comparison of an [int] with a [float].  Python compares the two
    values exactly (the integer is not rounded to a double first); a NaN
    compares false with everything. *)
Definition int_compare_float (z : Z) (f : float) : option comparison :=
  match f with
  | S754_nan => None
  | S754_zero _ => Some (z ?= 0)
  | S754_infinity s => Some (if s then Gt else Lt)
  | S754_finite s m e =>
      let sm := if s then Zneg m else Zpos m in
      Some (match e with
            | Zneg k => (z * 2 ^ Zpos k ?= sm)
            | _ => (z ?= sm * 2 ^ e)
            end)
  end.

Definition int_lt_float (z : Z) (f : float) : bool :=
  match int_compare_float z f with Some Lt => true | _ => false end.

Definition int_gt_float (z : Z) (f : float) : bool :=
  match int_compare_float z f with Some Gt => true | _ => false end.

Definition int_ge_float (z : Z) (f : float) : bool :=
  match int_compare_float z f with
  | Some Gt => true
  | Some Eq => true
  | _ => false
  end.

(** [int(z * c)]. *)
Definition int_of_product (z : Z) (c : float) : result Z :=
  x <- int_mul_float z c ;; int_of_float x.

(** [math.floor(z * c)]: the floor of the binary64 product, which can lie
    one below the floor of the exact product (see [markup_exact]). *)
Definition floor_of_product (z : Z) (c : float) : result Z :=
  x <- int_mul_float z c ;; floor_of_float x.

(** [z < a * c], [z > a * c] and [z >= a * c]. *)
Definition lt_product (z a : Z) (c : float) : result bool :=
  t <- int_mul_float a c ;; Ok (int_lt_float z t).

Definition gt_product (z a : Z) (c : float) : result bool :=
  t <- int_mul_float a c ;; Ok (int_gt_float z t).

Definition ge_product (z a : Z) (c : float) : result bool :=
  t <- int_mul_float a c ;; Ok (int_ge_float z t).

(** [a / b] on two [int]s: the correctly rounded quotient. *)
Definition true_div (a b : Z) : result float :=
  match b with
  | Z0 => Raise ZeroDivisionError
  | _ =>
      match a with
      | Z0 => Ok (S754_zero (b <? 0))
      | _ =>
          match SFdiv prec emax
                  (S754_finite (a <? 0) (Z.to_pos (Z.abs a)) 0)
                  (S754_finite (b <? 0) (Z.to_pos (Z.abs b)) 0) with
          | S754_infinity _ => Raise OverflowError
          | S754_nan => Raise OverflowError
          | q => Ok q
          end
      end
  end.

(** A decimal literal [n/d] of the source: the double nearest to it. *)
Definition literal (n d : Z) : float :=
  SFdiv prec emax (binary_normalize prec emax n 0 false)
                  (binary_normalize prec emax d 0 false).

(** [f * z] for a [float] [f] and an [int] [z]. *)
Definition float_mul_int (f : float) (z : Z) : result float :=
  g <- float_of_int z ;; Ok (fmul f g).

(** A value that is an [int] on one path and a [float] on another. *)
Inductive number : Set :=
| Int (z : Z)
| Float (f : float).

(** [str(z)]. *)
Definition str (z : Z) : string := NilZero.string_of_int (Z.to_int z).

(** [l[-1]]. *)
Definition last_item {A : Type} (l : list A) : result A :=
  match rev l with
  | [] => Raise IndexError
  | x :: _ => Ok x
  end.

(** [range(n)]. *)
Definition range (n : nat) : list Z := map Z.of_nat (seq 0 n).

End Py.

(** The float literals of the source. *)
Definition f0_6  : Py.float := Eval vm_compute in Py.literal 6 10.
Definition f0_85 : Py.float := Eval vm_compute in Py.literal 85 100.
Definition f0_95 : Py.float := Eval vm_compute in Py.literal 95 100.
Definition f1_05 : Py.float := Eval vm_compute in Py.literal 105 100.
Definition f1_1  : Py.float := Eval vm_compute in Py.literal 11 10.
Definition f1_15 : Py.float := Eval vm_compute in Py.literal 115 100.
Definition f1_5  : Py.float := Eval vm_compute in Py.literal 15 10.

(** ** Data model *)

Record Product : Type := {
  name : string;
  category : string;
  quantity : Z;
  quality_grade : string;
  origin : string;
  base_market_price : Z;
  attributes : list (string * string)
}.

(** One entry of the chat history: [{"role": ..., "message": ...}]. *)
Record Message : Type := {
  role : string;
  message : string
}.

Record NegotiationContext : Type := {
  product : Product;
  your_budget : Z;
  current_round : Z;
  seller_offers : list Z;
  your_offers : list Z;
  messages : list Message
}.

Inductive DealStatus : Set := ONGOING | ACCEPTED | REJECTED | TIMEOUT.

Definition DealStatus_eqb (a b : DealStatus) : bool :=
  match a, b with
  | ONGOING, ONGOING => true
  | ACCEPTED, ACCEPTED => true
  | REJECTED, REJECTED => true
  | TIMEOUT, TIMEOUT => true
  | _, _ => false
  end.

(** [str(status)] of the plain [Enum]. *)
Definition DealStatus_str (s : DealStatus) : string :=
  match s with
  | ONGOING => "DealStatus.ONGOING"
  | ACCEPTED => "DealStatus.ACCEPTED"
  | REJECTED => "DealStatus.REJECTED"
  | TIMEOUT => "DealStatus.TIMEOUT"
  end.

(** ** The text generator

    [NegotiationLLM().call(template, **kwargs)] fills the agent's prompt
    with the keyword arguments and returns the model's answer.  The prompt
    template and the personality block are constants of the calling agent,
    so a request is the agent's side together with the varying arguments. *)

Inductive Side : Set := BuyerSide | SellerSide.

Record LLMRequest : Type := {
  req_side : Side;
  req_message : string;         (* seller_message / buyer_message *)
  req_buyer_offer : option Z;   (* buyer_offer, seller prompt only *)
  req_deal_status : string;
  req_price : Z
}.

Definition NegotiationLLM : Type := LLMRequest -> string.

Definition rupee : string := "₹".

(** ** The buyer *)

(** The abstract methods of [BaseBuyerAgent] that the orchestrator calls. *)
Class BaseBuyerAgent : Type := {
  generate_opening_offer : NegotiationContext -> result (Z * string);
  respond_to_seller_offer :
    NegotiationContext -> Z -> string -> result (DealStatus * Z * string)
}.

Module MockBuyerAgent.
Section Agent.
Variable llm : NegotiationLLM.

Definition generate_opening_offer (context : NegotiationContext)
  : result (Z * string) :=
  initial_offer <-
    Py.int_of_product (base_market_price (product context)) f0_6 ;;
  let initial_offer := Z.min initial_offer (your_budget context) in
  Ok (initial_offer,
      ("I'm interested, but " ++ rupee ++ Py.str initial_offer
       ++ " is what I can offer. Let me think about that...")%string).

(** The acceptance test of [respond_to_seller_offer]; [and] evaluates its
    right operand only when the left one holds. *)
Definition accept_test (context : NegotiationContext) (seller_price : Z)
  : result bool :=
  if seller_price <? your_budget context then
    Py.lt_product seller_price (base_market_price (product context)) f0_85
  else Ok false.

Definition respond_to_seller_offer (context : NegotiationContext)
    (seller_price : Z) (seller_message : string)
  : result (DealStatus * Z * string) :=
  accept <- accept_test context seller_price ;;
  if accept then
    let message := llm {| req_side := BuyerSide;
                          req_message := seller_message;
                          req_buyer_offer := None;
                          req_deal_status := DealStatus_str ACCEPTED;
                          req_price := seller_price |} in
    Ok (ACCEPTED, seller_price, message)
  else
    last_offer <- Py.last_item (your_offers context) ;;
    i <- Py.int_of_product last_offer f1_1 ;;
    let little_incremented_price := Z.min i (your_budget context) in
    near <- Py.gt_product little_incremented_price seller_price f0_95 ;;
    let '(little_incremented_price, deal_status_message) :=
      if (near : bool) then
        (Z.min (seller_price - 1000) (your_budget context),
         (DealStatus_str ONGOING
          ++ "deal is close to agree, the deal will close soon.")%string)
      else (little_incremented_price, DealStatus_str ONGOING) in
    let message := llm {| req_side := BuyerSide;
                          req_message := seller_message;
                          req_buyer_offer := None;
                          req_deal_status := deal_status_message;
                          req_price := little_incremented_price |} in
    Ok (ONGOING, little_incremented_price, message).

Definition agent : BaseBuyerAgent :=
  Build_BaseBuyerAgent generate_opening_offer respond_to_seller_offer.

End Agent.
End MockBuyerAgent.

(** ** The seller *)

Record MockSellerAgent : Type := {
  min_price : Z;
  personality : string
}.

Module Seller.
Section Agent.
Variable llm : NegotiationLLM.

(** [MockSellerAgent(min_price=seller_min)]. *)
Definition init (min_price : Z) : MockSellerAgent :=
  {| min_price := min_price; personality := "standard" |}.

Definition get_opening_price (self : MockSellerAgent) (product : Product)
  : result (Z * string) :=
  price <- Py.int_of_product (base_market_price product) f1_5 ;;
  Ok (price,
      ("These are premium " ++ quality_grade product ++ " grade "
       ++ name product ++ ". I'm asking " ++ rupee ++ Py.str price
       ++ ".")%string).

Definition accept_test (self : MockSellerAgent) (buyer_offer : Z)
  : result bool :=
  Py.ge_product buyer_offer (min_price self) f1_1.

Definition respond_to_buyer_offer (self : MockSellerAgent)
    (buyer_offer round_num : Z) (buyer_message : string)
  : result (Z * string * bool) :=
  accept <- accept_test self buyer_offer ;;
  if accept then
    let message := llm {| req_side := SellerSide;
                          req_message := buyer_message;
                          req_buyer_offer := Some buyer_offer;
                          req_deal_status :=
                            (DealStatus_str ACCEPTED
                             ++ ", you accepting the deal with buyer price itself.")%string;
                          req_price := buyer_offer |} in
    Ok (buyer_offer, message, true)
  else
    '(counter, deal_status_message) <-
      (if round_num >=? 8 then
         i <- Py.int_of_product buyer_offer f1_05 ;;
         Ok (Z.max (min_price self) i,
             (DealStatus_str TIMEOUT
              ++ ", running out of time, need to close the deal soon.")%string)
       else
         i <- Py.int_of_product buyer_offer f1_15 ;;
         let counter := Z.max (min_price self) i in
         Ok (counter,
             (DealStatus_str ONGOING ++ ", I can come down to " ++ rupee
              ++ Py.str counter ++ ".")%string)) ;;
    let message := llm {| req_side := SellerSide;
                          req_message := buyer_message;
                          req_buyer_offer := Some buyer_offer;
                          req_deal_status := deal_status_message;
                          req_price := counter |} in
    Ok (counter, message, false).

End Agent.
End Seller.

(** ** The orchestrator *)

(** The dictionary [run_negotiation_test] returns. *)
Record NegotiationOutcome : Type := {
  deal_made : bool;
  final_price : option Z;
  rounds : Z;
  savings : Z;
  savings_pct : Py.number;
  below_market_pct : Py.number;
  conversation : list Message
}.

(** The in-place updates of the context. *)
Definition set_current_round (r : Z) (c : NegotiationContext)
  : NegotiationContext :=
  {| product := product c; your_budget := your_budget c;
     current_round := r;
     seller_offers := seller_offers c; your_offers := your_offers c;
     messages := messages c |}.

Definition append_seller_offer (p : Z) (c : NegotiationContext)
  : NegotiationContext :=
  {| product := product c; your_budget := your_budget c;
     current_round := current_round c;
     seller_offers := seller_offers c ++ [p]; your_offers := your_offers c;
     messages := messages c |}.

Definition append_your_offer (p : Z) (c : NegotiationContext)
  : NegotiationContext :=
  {| product := product c; your_budget := your_budget c;
     current_round := current_round c;
     seller_offers := seller_offers c; your_offers := your_offers c ++ [p];
     messages := messages c |}.

Definition append_message (who text : string) (c : NegotiationContext)
  : NegotiationContext :=
  {| product := product c; your_budget := your_budget c;
     current_round := current_round c;
     seller_offers := seller_offers c; your_offers := your_offers c;
     messages := messages c ++ [ {| role := who; message := text |} ] |}.

(** The variables that live across iterations of the round loop. *)
Record LoopState : Type := {
  context : NegotiationContext;
  seller_price : Z;
  seller_msg : string
}.

(** The variables the code after the loop reads. *)
Record LoopExit : Type := {
  exit_context : NegotiationContext;
  exit_deal_made : bool;
  exit_final_price : option Z
}.

Inductive Control : Type :=
| Break (e : LoopExit)
| Next (s : LoopState).

Section Orchestrator.
Variable llm : NegotiationLLM.
Context (buyer_agent : BaseBuyerAgent).
Variable seller : MockSellerAgent.

(** The buyer's half of an iteration: the offer, recorded in the context. *)
Definition buyer_turn (round : Z) (s : LoopState)
  : result (DealStatus * Z * string * NegotiationContext) :=
  let context := set_current_round (round + 1) (context s) in
  '(status, buyer_offer, buyer_msg) <-
    (if round =? 0 then
       '(buyer_offer, buyer_msg) <- generate_opening_offer context ;;
       Ok (ONGOING, buyer_offer, buyer_msg)
     else
       respond_to_seller_offer context (seller_price s) (seller_msg s)) ;;
  let context := append_your_offer buyer_offer context in
  let context := append_message "buyer" buyer_msg context in
  Ok (status, buyer_offer, buyer_msg, context).

(** One iteration of [for round in range(10)]. *)
Definition round_body (round : Z) (s : LoopState) : result Control :=
  '(status, buyer_offer, buyer_msg, context) <- buyer_turn round s ;;
  if DealStatus_eqb status ACCEPTED then
    Ok (Break {| exit_context := context;
                 exit_deal_made := true;
                 exit_final_price := Some (seller_price s) |})
  else
    '(seller_price, seller_msg, seller_accepts) <-
      Seller.respond_to_buyer_offer llm seller buyer_offer round buyer_msg ;;
    if (seller_accepts : bool) then
      Ok (Break {| exit_context := append_message "seller" seller_msg context;
                   exit_deal_made := true;
                   exit_final_price := Some buyer_offer |})
    else
      let context := append_seller_offer seller_price context in
      let context := append_message "seller" seller_msg context in
      Ok (Next {| context := context;
                  seller_price := seller_price;
                  seller_msg := seller_msg |}).

(** The iterations for the given values of [round], in order, up to the
    first [break]. *)
Fixpoint for_rounds (rounds : list Z) (s : LoopState) : result Control :=
  match rounds with
  | [] => Ok (Next s)
  | round :: rest =>
      c <- round_body round s ;;
      match c with
      | Break e => Ok (Break e)
      | Next s' => for_rounds rest s'
      end
  end.

(** The state after the loop: [deal_made] and [final_price] keep their
    initial values when no iteration breaks. *)
Definition after_loop (c : Control) : LoopExit :=
  match c with
  | Break e => e
  | Next s => {| exit_context := context s;
                 exit_deal_made := false;
                 exit_final_price := None |}
  end.

End Orchestrator.

(** The percentage [(a - final_price) / a * 100]. *)
Definition percent_below (a final_price : Z) : result Py.float :=
  q <- Py.true_div (a - final_price) a ;;
  Py.float_mul_int q 100.

(** The returned dictionary, its values computed in the order written. *)
Definition outcome (product : Product) (buyer_budget : Z) (e : LoopExit)
  : result NegotiationOutcome :=
  if exit_deal_made e then
    match exit_final_price e with
    | None => Raise TypeError
    | Some price =>
        sp <- percent_below buyer_budget price ;;
        bp <- percent_below (base_market_price product) price ;;
        Ok {| deal_made := true;
              final_price := Some price;
              rounds := current_round (exit_context e);
              savings := buyer_budget - price;
              savings_pct := Py.Float sp;
              below_market_pct := Py.Float bp;
              conversation := messages (exit_context e) |}
    end
  else
    Ok {| deal_made := false;
          final_price := exit_final_price e;
          rounds := current_round (exit_context e);
          savings := 0;
          savings_pct := Py.Int 0;
          below_market_pct := Py.Int 0;
          conversation := messages (exit_context e) |}.

(** The state in which the loop is entered: the seller has opened. *)
Definition opening (product : Product) (buyer_budget seller_min : Z)
  : result LoopState :=
  let seller := Seller.init seller_min in
  let context := {| product := product; your_budget := buyer_budget;
                    current_round := 0; seller_offers := [];
                    your_offers := []; messages := [] |} in
  '(seller_price, seller_msg) <- Seller.get_opening_price seller product ;;
  let context := append_seller_offer seller_price context in
  let context := append_message "seller" seller_msg context in
  Ok {| context := context;
        seller_price := seller_price;
        seller_msg := seller_msg |}.

(** The loop of [run_negotiation_test], from the opening to its exit. *)
Definition negotiation (llm : NegotiationLLM) (buyer_agent : BaseBuyerAgent)
    (product : Product) (buyer_budget seller_min : Z) : result LoopExit :=
  s <- opening product buyer_budget seller_min ;;
  c <- for_rounds llm buyer_agent (Seller.init seller_min) (Py.range 10) s ;;
  Ok (after_loop c).

Definition run_negotiation_test (llm : NegotiationLLM)
    (buyer_agent : BaseBuyerAgent) (product : Product)
    (buyer_budget seller_min : Z) : result NegotiationOutcome :=
  e <- negotiation llm buyer_agent product buyer_budget seller_min ;;
  outcome product buyer_budget e.

(** ** The value of a float

    Doubles are read as rationals to state how far a computed product is
    from the exact one. *)

Definition pow2 (e : Z) : Q := (2 ^ e)%Q.

Definition magnitude (m : positive) (e : Z) : Q :=
  (inject_Z (Zpos m) * pow2 e)%Q.

Definition signed (s : bool) (m : positive) : Z :=
  if s then Zneg m else Zpos m.

Definition F2Q (f : Py.float) : Q :=
  match f with
  | S754_finite s m e => if s then (- magnitude m e)%Q else magnitude m e
  | _ => 0%Q
  end.

(** Zeros and finite floats: the values [int] accepts. *)
Definition is_number (f : Py.float) : Prop :=
  match f with
  | S754_zero _ => True
  | S754_finite _ _ _ => True
  | _ => False
  end.

(** The relative error of one rounding, and of two in a row. *)
Definition eps : Q := (1 # 2251799813685248)%Q.
Definition delta : Q := (1 # 562949953421312)%Q.

(** How far [binary_round_aux] shifts a mantissa, and what it returns. *)
Definition shift_amount (m e : Z) : Z :=
  Z.max 0 (fexp Py.prec Py.emax (Zdigits2 m + e) - e).

Definition classify (s : bool) (mf ef : Z) : spec_float :=
  match mf with
  | Z0 => S754_zero s
  | Zpos p => if ef <=? 971 then S754_finite s p ef else S754_infinity s
  | Zneg _ => S754_nan
  end.

(** A positive literal below two, as all of [0.6] ... [1.5] are. *)
Definition literal_ok (c : Py.float) : bool :=
  match c with
  | S754_finite false m e =>
      (-1000 <=? e) && (e <=? 0) && (Zpos m <? 2 ^ (1 - e))
  | _ => false
  end.

(** [f] is a number within two roundings of the exact product [z * c]. *)
Definition product_value (z : Z) (c f : Py.float) : Prop :=
  is_number f /\
  (0 <= z -> ((1 - delta) * (inject_Z z * F2Q c) <= F2Q f /\
              F2Q f <= (1 + delta) * (inject_Z z * F2Q c))%Q) /\
  (z <= 0 -> ((1 + delta) * (inject_Z z * F2Q c) <= F2Q f /\
              F2Q f <= (1 - delta) * (inject_Z z * F2Q c))%Q).

(** ** Runs *)

(** The control state after the first [k] iterations of a run. *)
Definition state_at (llm : NegotiationLLM) (buyer_agent : BaseBuyerAgent)
    (product : Product) (buyer_budget seller_min : Z) (k : nat)
  : result Control :=
  s <- opening product buyer_budget seller_min ;;
  for_rounds llm buyer_agent (Seller.init seller_min) (Py.range k) s.

(** Iteration [k] of the loop, which is round [k + 1], starts in state [s]. *)
Definition enters (llm : NegotiationLLM) (buyer_agent : BaseBuyerAgent)
    (product : Product) (buyer_budget seller_min : Z) (k : nat)
    (s : LoopState) : Prop :=
  state_at llm buyer_agent product buyer_budget seller_min k = Ok (Next s).

(** The rest of a loop after one iteration returned [c]. *)
Definition continue_with (llm : NegotiationLLM) (buyer_agent : BaseBuyerAgent)
    (seller : MockSellerAgent) (rest : list Z) (c : Control) : result Control :=
  match c with
  | Break e => Ok (Break e)
  | Next s => for_rounds llm buyer_agent seller rest s
  end.

(** What holds of the loop state when iteration [k] starts. *)
Definition run_inv (p : Product) (buyer_budget seller_min : Z) (k : nat)
    (s : LoopState) : Prop :=
  product (context s) = p /\
  your_budget (context s) = buyer_budget /\
  current_round (context s) = Z.of_nat k /\
  List.length (your_offers (context s)) = k /\
  Forall (fun o => o <= buyer_budget) (your_offers (context s)) /\
  Py.last_item (seller_offers (context s)) = Ok (seller_price s) /\
  exists opening_price counters,
    seller_offers (context s) = opening_price :: counters /\
    List.length counters = k /\
    Forall (fun c => seller_min <= c) counters.

(** What holds of the context the loop leaves behind. *)
Definition exit_inv (p : Product) (buyer_budget seller_min : Z)
    (e : LoopExit) : Prop :=
  product (exit_context e) = p /\
  your_budget (exit_context e) = buyer_budget /\
  1 <= current_round (exit_context e) <= 10 /\
  Z.of_nat (List.length (your_offers (exit_context e)))
    = current_round (exit_context e) /\
  Forall (fun o => o <= buyer_budget) (your_offers (exit_context e)) /\
  exists opening_price counters,
    seller_offers (exit_context e) = opening_price :: counters /\
    Forall (fun c => seller_min <= c) counters.

(** The seller's price and the buyer's last offer are at most [m] in size. *)
Definition bounded (m : Z) (s : LoopState) : Prop :=
  Z.abs (seller_price s) <= m /\
  forall o, Py.last_item (your_offers (context s)) = Ok o -> Z.abs o <= m.

Definition control_bounded (m : Z) (c : Control) : Prop :=
  match c with
  | Next s => bounded m s
  | Break e => exists p, exit_final_price e = Some p /\ Z.abs p <= m
  end.

(** ** Decisions without their text *)

(** A context with another chat history. *)
Definition with_messages (ms : list Message) (c : NegotiationContext)
  : NegotiationContext :=
  {| product := product c; your_budget := your_budget c;
     current_round := current_round c;
     seller_offers := seller_offers c; your_offers := your_offers c;
     messages := ms |}.

(** The numeric part of what a strategy returns. *)
Definition buyer_decision (r : result (DealStatus * Z * string))
  : result (DealStatus * Z) :=
  '(status, price, _) <- r ;; Ok (status, price).

Definition seller_decision (r : result (Z * string * bool))
  : result (Z * bool) :=
  '(price, _, accepted) <- r ;; Ok (price, accepted).

(** ** The specification's counter-offer

    Section 4.1 of the specification, steps 2 and 3, in its own words: the
    candidate is [min(floor(last_own_offer * 1.1), budget)], replaced by
    [min(seller_price - 1000, budget)] when it exceeds
    [0.95 * seller_price]. *)
Definition spec_counter_offer (context : NegotiationContext) (seller_price : Z)
  : result Z :=
  last_own_offer <- Py.last_item (your_offers context) ;;
  f <- Py.floor_of_product last_own_offer f1_1 ;;
  let candidate := Z.min f (your_budget context) in
  near <- Py.gt_product candidate seller_price f0_95 ;;
  Ok (if (near : bool)
      then Z.min (seller_price - 1000) (your_budget context)
      else candidate).

(** ** Test data *)

(** The products of [test_agent]. *)
Definition alphonso : Product :=
  {| name := "Alphonso Mangoes"; category := "Mangoes"; quantity := 100;
     quality_grade := "A"; origin := "Ratnagiri";
     base_market_price := 180000;
     attributes := [("ripeness", "optimal"); ("export_grade", "True")]%string |}.

Definition kesar : Product :=
  {| name := "Kesar Mangoes"; category := "Mangoes"; quantity := 150;
     quality_grade := "B"; origin := "Gujarat";
     base_market_price := 150000;
     attributes := [("ripeness", "semi-ripe"); ("export_grade", "False")]%string |}.

Definition test_products : list Product := [alphonso; kesar].

(** A product at another base market price. *)
Definition priced (price : Z) (p : Product) : Product :=
  {| name := name p; category := category p; quantity := quantity p;
     quality_grade := quality_grade p; origin := origin p;
     base_market_price := price; attributes := attributes p |}.

(** A product with nothing to sell. *)
Definition empty_crate : Product :=
  {| name := "Alphonso Mangoes"; category := "Mangoes"; quantity := 0;
     quality_grade := "A"; origin := "Ratnagiri";
     base_market_price := 100; attributes := [] |}.

(** A text generator with one answer. *)
Definition canned_llm : NegotiationLLM := fun _ => "ok"%string.

(** The scenarios of [test_agent]: the budget and the seller's floor as
    fractions of the base market price. *)
Inductive Scenario : Set := easy | medium | hard.

Definition f1_2  : Py.float := Eval vm_compute in Py.literal 12 10.
Definition f0_8  : Py.float := Eval vm_compute in Py.literal 8 10.
Definition f1_0  : Py.float := Eval vm_compute in Py.literal 10 10.
Definition f0_9  : Py.float := Eval vm_compute in Py.literal 9 10.
Definition f0_82 : Py.float := Eval vm_compute in Py.literal 82 100.

Definition scenario_inputs (scenario : Scenario) (p : Product)
  : result (Z * Z) :=
  match scenario with
  | easy =>
      buyer_budget <- Py.int_of_product (base_market_price p) f1_2 ;;
      seller_min <- Py.int_of_product (base_market_price p) f0_8 ;;
      Ok (buyer_budget, seller_min)
  | medium =>
      buyer_budget <- Py.int_of_product (base_market_price p) f1_0 ;;
      seller_min <- Py.int_of_product (base_market_price p) f0_85 ;;
      Ok (buyer_budget, seller_min)
  | hard =>
      buyer_budget <- Py.int_of_product (base_market_price p) f0_9 ;;
      seller_min <- Py.int_of_product (base_market_price p) f0_82 ;;
      Ok (buyer_budget, seller_min)
  end.

(** Who closed, at what price, after how many rounds. *)
Definition summary (r : result LoopExit) : result (bool * option Z * Z) :=
  e <- r ;;
  Ok (exit_deal_made e, exit_final_price e, current_round (exit_context e)).

Definition run_scenario (llm : NegotiationLLM) (scenario : Scenario)
    (p : Product) : result (bool * option Z * Z) :=
  '(buyer_budget, seller_min) <- scenario_inputs scenario p ;;
  summary (negotiation llm (MockBuyerAgent.agent llm) p buyer_budget
             seller_min).

(** ** [test_agent]

    The two loops of [test_agent] over the products and the scenarios,
    with the totals they accumulate; what is printed is not modelled. *)

Definition scenarios : list Scenario := [easy; medium; hard].

(** [for x in l: body], the loop variables threaded through. *)
Fixpoint for_each {A S : Type} (body : A -> S -> result S) (l : list A)
    (s : S) : result S :=
  match l with
  | [] => Ok s
  | x :: rest => s' <- body x s ;; for_each body rest s'
  end.

(** The totals [(total_savings, deals_made)] after one scenario. *)
Definition test_scenario (llm : NegotiationLLM) (p : Product)
    (scenario : Scenario) (totals : Z * Z) : result (Z * Z) :=
  let '(total_savings, deals_made) := totals in
  '(buyer_budget, seller_min) <- scenario_inputs scenario p ;;
  r <- run_negotiation_test llm (MockBuyerAgent.agent llm) p buyer_budget
         seller_min ;;
  if deal_made r
  then Ok (total_savings + savings r, deals_made + 1)
  else Ok (total_savings, deals_made).

Definition test_agent_on (llm : NegotiationLLM) (products : list Product)
  : result (Z * Z) :=
  for_each (fun p => for_each (test_scenario llm p) scenarios) products (0, 0).

Definition test_agent (llm : NegotiationLLM) : result (Z * Z) :=
  test_agent_on llm test_products.

(** ** Runs without their text *)

Definition fmap {A B : Type} (f : A -> B) (r : result A) : result B :=
  x <- r ;; Ok (f x).

(** The loop variables, the exit and the report with every text removed. *)
Definition no_text_state (s : LoopState) : LoopState :=
  {| context := with_messages [] (context s);
     seller_price := seller_price s;
     seller_msg := "" |}.

Definition no_text_exit (e : LoopExit) : LoopExit :=
  {| exit_context := with_messages [] (exit_context e);
     exit_deal_made := exit_deal_made e;
     exit_final_price := exit_final_price e |}.

Definition no_text_control (c : Control) : Control :=
  match c with
  | Break e => Break (no_text_exit e)
  | Next s => Next (no_text_state s)
  end.

Definition figures (o : NegotiationOutcome) : NegotiationOutcome :=
  {| deal_made := deal_made o; final_price := final_price o;
     rounds := rounds o; savings := savings o;
     savings_pct := savings_pct o; below_market_pct := below_market_pct o;
     conversation := [] |}.

(** ** The chat history *)

(** The roles of [n] exchanges: the seller speaks, the buyer answers. *)
Fixpoint turns (n : nat) : list string :=
  match n with
  | O => []
  | S n => "seller"%string :: "buyer"%string :: turns n
  end.

Definition roles (c : NegotiationContext) : list string :=
  map role (messages c).

(** * Facts about binary64 rounding

    [binary_round_aux] is the rounding step of every operation of
    [SpecFloat].  On an exact input it returns the mantissa shifted right
    and moved by at most one unit, so a result is within [2^-51] of the
    exact value, and it is finite when the exact value is in range. *)

Section Binary64.

Lemma digits2_pos_size (p : positive) : digits2_pos p = Pos.size p.
Proof. induction p; simpl; congruence. Qed.

Lemma Zdigits2_log2 (m : Z) : 0 < m -> Zdigits2 m = Z.log2 m + 1.
Proof.
  destruct m as [|p|p]; try lia. intros _.
  destruct p; simpl; rewrite ?digits2_pos_size; lia.
Qed.

Lemma shr_1_m (x : shr_record) : 0 <= shr_m x -> shr_m (shr_1 x) = shr_m x / 2.
Proof.
  destruct x as [m r s]. simpl. intros Hm.
  destruct m as [|p|p]; try lia; try reflexivity.
  destruct p; simpl shr_m.
  - rewrite Pos2Z.inj_xI. apply Z.div_unique with 1; lia.
  - rewrite Pos2Z.inj_xO. apply Z.div_unique with 0; lia.
  - reflexivity.
Qed.

Lemma iter_shr_1_m (p : positive) : forall x, 0 <= shr_m x ->
  shr_m (iter_pos shr_1 p x) = shr_m x / 2 ^ Zpos p.
Proof.
  induction p as [p IH|p IH|]; intros x Hx; simpl iter_pos.
  - assert (H1 : 0 <= shr_m (shr_1 x))
      by (rewrite shr_1_m by assumption; apply Z.div_pos; lia).
    assert (H2 : 0 <= shr_m (iter_pos shr_1 p (shr_1 x)))
      by (rewrite IH by assumption; apply Z.div_pos; lia).
    rewrite (IH _ H2), (IH _ H1), shr_1_m by assumption.
    rewrite !Z.div_div by lia. f_equal.
    rewrite <- Z.pow_add_r by lia. rewrite <- (Z.pow_succ_r 2) by lia.
    f_equal. lia.
  - assert (H2 : 0 <= shr_m (iter_pos shr_1 p x))
      by (rewrite IH by assumption; apply Z.div_pos; lia).
    rewrite (IH _ H2), (IH _ Hx).
    rewrite !Z.div_div by lia. f_equal.
    rewrite <- Z.pow_add_r by lia. f_equal. lia.
  - rewrite shr_1_m by assumption. reflexivity.
Qed.

Lemma shr_m_spec (x : shr_record) (e n : Z) : 0 <= shr_m x ->
  shr_m (fst (shr x e n)) = shr_m x / 2 ^ Z.max 0 n /\
  snd (shr x e n) = e + Z.max 0 n.
Proof.
  intros Hx. destruct n as [|p|p]; simpl.
  - rewrite Z.div_1_r. split; [reflexivity | lia].
  - split; [apply iter_shr_1_m; assumption | lia].
  - rewrite Z.div_1_r. split; [reflexivity | lia].
Qed.

Lemma shr_record_of_loc_m (m : Z) (l : location) :
  shr_m (shr_record_of_loc m l) = m.
Proof. destruct l as [|[]]; reflexivity. Qed.

Lemma round_nearest_even_bounds (m : Z) (l : location) :
  m <= round_nearest_even m l <= m + 1.
Proof.
  destruct l as [|[]]; simpl; try lia. destruct (Z.even m); lia.
Qed.

Lemma fexp_eq (x : Z) : fexp Py.prec Py.emax x = Z.max (x - 53) (-1074).
Proof. reflexivity. Qed.

Lemma shr_fexp_spec (m e : Z) (l : location) : 0 <= m ->
  let n := Z.max 0 (fexp Py.prec Py.emax (Zdigits2 m + e) - e) in
  shr_m (fst (shr_fexp Py.prec Py.emax m e l)) = m / 2 ^ n /\
  snd (shr_fexp Py.prec Py.emax m e l) = e + n.
Proof.
  intros Hm n. unfold shr_fexp.
  pose proof (shr_m_spec (shr_record_of_loc m l) e
                (fexp Py.prec Py.emax (Zdigits2 m + e) - e)) as H.
  rewrite shr_record_of_loc_m in H. apply H. assumption.
Qed.

Lemma shr_fexp_exact (m e : Z) :
  fexp Py.prec Py.emax (Zdigits2 m + e) - e <= 0 ->
  shr_fexp Py.prec Py.emax m e loc_Exact = (Build_shr_record m false false, e).
Proof.
  intros H. unfold shr_fexp, shr.
  destruct (fexp Py.prec Py.emax (Zdigits2 m + e) - e); try reflexivity; lia.
Qed.

Lemma binary_round_aux_steps (s : bool) (m e : Z) (l : location) : 0 <= m ->
  exists m2, m / 2 ^ shift_amount m e <= m2 <= m / 2 ^ shift_amount m e + 1 /\
    binary_round_aux Py.prec Py.emax s m e l =
      classify s (m2 / 2 ^ shift_amount m2 (e + shift_amount m e))
        (e + shift_amount m e + shift_amount m2 (e + shift_amount m e)).
Proof.
  intros Hm. set (n1 := shift_amount m e). unfold binary_round_aux.
  destruct (shr_fexp_spec m e l Hm) as [H1 H1e].
  destruct (shr_fexp Py.prec Py.emax m e l) as [mrs1 e1]. simpl in H1, H1e.
  fold (shift_amount m e) in H1, H1e. fold n1 in H1, H1e.
  set (m2 := round_nearest_even (shr_m mrs1) (loc_of_shr_record mrs1)).
  pose proof (round_nearest_even_bounds (shr_m mrs1) (loc_of_shr_record mrs1)) as Hr.
  fold m2 in Hr. rewrite H1 in Hr.
  assert (Hp1 : 0 < 2 ^ n1)
    by (apply Z.pow_pos_nonneg; [lia | apply Z.le_max_l]).
  assert (Hm1 : 0 <= m / 2 ^ n1) by (apply Z.div_pos; lia).
  assert (Hm2 : 0 <= m2) by lia.
  destruct (shr_fexp_spec m2 e1 loc_Exact Hm2) as [H2 H2e].
  destruct (shr_fexp Py.prec Py.emax m2 e1 loc_Exact) as [mrs2 e2].
  simpl in H2, H2e. subst e1 e2.
  exists m2. split; [exact Hr|]. rewrite H2. reflexivity.
Qed.

Lemma binary_round_aux_exact (s : bool) (m e : Z) : 0 < m -> -1074 <= e ->
  exists k mf, 0 <= k <= Z.max 0 (Zdigits2 m - 52) /\ 0 < mf /\
    (2 ^ 51 - 1) * m <= 2 ^ 51 * (mf * 2 ^ k) <= (2 ^ 51 + 1) * m /\
    binary_round_aux Py.prec Py.emax s m e loc_Exact =
      if e + k <=? 971 then S754_finite s (Z.to_pos mf) (e + k)
      else S754_infinity s.
Proof.
  intros Hm He.
  pose proof (Zdigits2_log2 m Hm) as Hd.
  pose proof (Z.log2_spec m Hm) as Hl.
  destruct (Z_le_gt_dec (Zdigits2 m) 53) as [Hs|Hb].
  - exists 0, m. split; [lia|]. split; [lia|]. split; [lia|].
    unfold binary_round_aux.
    rewrite shr_fexp_exact by (rewrite fexp_eq; lia). simpl.
    rewrite shr_fexp_exact by (rewrite fexp_eq; lia). simpl.
    rewrite Z.add_0_r. destruct m; try lia. reflexivity.
  - destruct (binary_round_aux_steps s m e loc_Exact) as [m2 [Hr H]]; [lia|].
    set (d := Zdigits2 m) in *.
    assert (Hn1 : shift_amount m e = d - 53)
      by (unfold shift_amount; rewrite fexp_eq; fold d; lia).
    rewrite Hn1 in Hr, H.
    assert (Hp : 2 ^ (d - 1) = 2 ^ 52 * 2 ^ (d - 53))
      by (rewrite <- Z.pow_add_r by lia; f_equal; lia).
    assert (Hp' : 2 ^ d = 2 ^ 53 * 2 ^ (d - 53))
      by (rewrite <- Z.pow_add_r by lia; f_equal; lia).
    assert (Hq : 0 < 2 ^ (d - 53)) by (apply Z.pow_pos_nonneg; lia).
    replace (Z.log2 m) with (d - 1) in Hl by lia.
    replace (Z.succ (d - 1)) with d in Hl by lia.
    assert (H1 : 2 ^ 52 <= m / 2 ^ (d - 53) < 2 ^ 53).
    { split.
      - apply Z.div_le_lower_bound; lia.
      - apply Z.div_lt_upper_bound; lia. }
    pose proof (Z.mul_div_le m (2 ^ (d - 53)) Hq) as Hlo.
    pose proof (Z.mul_succ_div_gt m (2 ^ (d - 53)) Hq) as Hhi.
    assert (Hm2 : 0 < m2) by lia.
    assert (Hd2 : Zdigits2 m2 = 53 \/ m2 = 2 ^ 53).
    { destruct (Z.eq_dec m2 (2 ^ 53)) as [->|Hne]; [right; reflexivity|left].
      rewrite Zdigits2_log2 by assumption.
      assert (Z.log2 m2 = 52); [|lia].
      apply Z.log2_unique; [lia|]. change (52 + 1) with 53. lia. }
    destruct Hd2 as [Hd2|Hd2].
    + exists (d - 53), m2.
      assert (Hn2 : shift_amount m2 (e + (d - 53)) = 0)
        by (unfold shift_amount; rewrite fexp_eq, Hd2; lia).
      rewrite Hn2, Z.pow_0_r, Z.div_1_r, Z.add_0_r in H.
      split; [lia|]. split; [lia|]. split; [nia|].
      rewrite H. unfold classify. destruct m2; try lia. reflexivity.
    + exists (d - 52), (2 ^ 52). subst m2.
      assert (Hn2 : shift_amount (2 ^ 53) (e + (d - 53)) = 1).
      { unfold shift_amount. rewrite fexp_eq.
        replace (Zdigits2 (2 ^ 53)) with 54 by reflexivity. lia. }
      rewrite Hn2 in H.
      replace (e + (d - 53) + 1) with (e + (d - 52)) in H by lia.
      assert (Hp2 : 2 ^ (d - 52) = 2 * 2 ^ (d - 53)).
      { replace (d - 52) with (Z.succ (d - 53)) by lia.
        apply Z.pow_succ_r. lia. }
      split; [lia|]. split; [lia|]. split; [rewrite Hp2; nia|].
      rewrite H. reflexivity.
Qed.

Local Open Scope Q_scope.

Lemma pow2_pos (e : Z) : 0 < pow2 e.
Proof. apply Qpower_0_lt. reflexivity. Qed.

Lemma pow2_add (a b : Z) : pow2 (a + b)%Z == pow2 a * pow2 b.
Proof. apply Qpower_plus. discriminate. Qed.

Lemma pow2_inject (k : Z) : (0 <= k)%Z -> inject_Z (2 ^ k)%Z == pow2 k.
Proof. intros Hk. apply Zpower_Qpower. assumption. Qed.

Lemma binary_round_aux_exact_Q (s : bool) (m e : Z) :
  (0 < m)%Z -> (-1074 <= e)%Z ->
  ((Zdigits2 m + e <= 1023)%Z -> (e <= 971)%Z ->
   binary_round_aux Py.prec Py.emax s m e loc_Exact <> S754_infinity s) /\
  (binary_round_aux Py.prec Py.emax s m e loc_Exact = S754_infinity s \/
   exists mf ef,
     binary_round_aux Py.prec Py.emax s m e loc_Exact = S754_finite s mf ef /\
     (e <= ef)%Z /\
     (1 - eps) * (inject_Z m * pow2 e) <= magnitude mf ef /\
     magnitude mf ef <= (1 + eps) * (inject_Z m * pow2 e)).
Proof.
  intros Hm He.
  destruct (binary_round_aux_exact s m e Hm He)
    as (k & mf & Hk & Hmf & [Hlo Hhi] & Hr).
  rewrite Hr. destruct (Z.leb_spec (e + k)%Z 971%Z) as [Hfin|Hinf].
  - split; [discriminate|]. right. exists (Z.to_pos mf), (e + k)%Z.
    split; [reflexivity|]. split; [lia|].
    unfold magnitude. rewrite Z2Pos.id by assumption.
    assert (HX : inject_Z mf * pow2 (e + k)%Z == inject_Z (mf * 2 ^ k)%Z * pow2 e).
    { rewrite pow2_add, inject_Z_mult, pow2_inject by lia. ring. }
    rewrite HX.
    rewrite Zle_Qle in Hlo, Hhi.
    rewrite !inject_Z_mult in Hlo, Hhi.
    change (inject_Z (2 ^ 51 - 1)) with (2251799813685247 # 1) in Hlo.
    change (inject_Z (2 ^ 51 + 1)) with (2251799813685249 # 1) in Hhi.
    change (inject_Z (2 ^ 51)) with (2251799813685248 # 1) in Hlo, Hhi.
    rewrite <- inject_Z_mult in Hlo, Hhi.
    set (X := inject_Z (mf * 2 ^ k)%Z) in *. set (M := inject_Z m) in *.
    pose proof (pow2_pos e) as HP. set (P := pow2 e) in *.
    unfold eps. split.
    + assert (H : (1 - (1 # 2251799813685248)) * M <= X) by lra.
      rewrite Qmult_assoc. apply Qmult_le_compat_r; lra.
    + assert (H : X <= (1 + (1 # 2251799813685248)) * M) by lra.
      rewrite Qmult_assoc. apply Qmult_le_compat_r; lra.
  - split; [|left; reflexivity]. intros Hd He'. lia.
Qed.

Lemma magnitude_pos (m : positive) (e : Z) : 0 < magnitude m e.
Proof.
  unfold magnitude. pose proof (pow2_pos e).
  apply Qmult_lt_0_compat; [reflexivity | assumption].
Qed.

Lemma pow2_neg_inv (k : positive) : pow2 (Zneg k) * inject_Z (2 ^ Zpos k)%Z == 1.
Proof.
  rewrite pow2_inject by lia. rewrite <- pow2_add.
  replace (Z.neg k + Z.pos k)%Z with 0%Z by lia. reflexivity.
Qed.

Lemma magnitude_trunc_spec (m : positive) (e : Z) :
  inject_Z (Py.magnitude_trunc m e) <= magnitude m e /\
  magnitude m e < inject_Z (Py.magnitude_trunc m e + 1).
Proof.
  unfold Py.magnitude_trunc, magnitude. destruct e as [|k|k].
  - rewrite Z.shiftl_0_r. change (pow2 0) with 1. rewrite inject_Z_plus.
    change (inject_Z 1) with 1. lra.
  - rewrite Z.shiftl_mul_pow2 by lia. rewrite inject_Z_plus, inject_Z_mult.
    rewrite pow2_inject by lia. change (inject_Z 1) with 1. lra.
  - rewrite Z.shiftr_div_pow2 by lia.
    assert (Hp : (0 < 2 ^ Zpos k)%Z) by (apply Z.pow_pos_nonneg; lia).
    pose proof (Z.mul_div_le (Zpos m) (2 ^ Zpos k) Hp) as Hlo.
    pose proof (Z.mul_succ_div_gt (Zpos m) (2 ^ Zpos k) Hp) as Hhi.
    rewrite Zle_Qle, inject_Z_mult in Hlo.
    rewrite Zlt_Qlt, inject_Z_mult in Hhi. unfold Z.succ in Hhi.
    pose proof (pow2_neg_inv k) as Hinv.
    pose proof (pow2_pos (Zneg k)) as Hpos.
    set (P := pow2 (Zneg k)) in *. set (T := inject_Z (2 ^ Zpos k)%Z) in *.
    set (M := inject_Z (Zpos m)) in *.
    set (D := (Zpos m / 2 ^ Zpos k)%Z) in *.
    assert (HT : 0 < T)
      by (unfold T; change 0 with (inject_Z 0); rewrite <- Zlt_Qlt; exact Hp).
    split.
    + assert (H : inject_Z D * (P * T) <= M * P).
      { rewrite (Qmult_comm P T), Qmult_assoc.
        apply Qmult_le_compat_r; [|lra].
        rewrite (Qmult_comm (inject_Z D) T). exact Hlo. }
      rewrite Hinv in H. lra.
    + assert (H : M * P < inject_Z (D + 1) * (P * T)).
      { rewrite (Qmult_comm P T), Qmult_assoc.
        apply Qmult_lt_compat_r; [lra|].
        rewrite (Qmult_comm (inject_Z (D + 1)) T). exact Hhi. }
      rewrite Hinv in H. lra.
Qed.

Lemma int_of_float_spec (f : Py.float) (i : Z) :
  Py.int_of_float f = Ok i ->
  (0 <= F2Q f -> inject_Z i <= F2Q f /\ F2Q f < inject_Z i + 1) /\
  (F2Q f <= 0 -> F2Q f <= inject_Z i /\ inject_Z i - 1 < F2Q f).
Proof.
  destruct f as [s|s| |s m e]; simpl; intros H; inversion H; subst; clear H.
  - simpl. change (inject_Z 0) with 0. lra.
  - pose proof (magnitude_trunc_spec m e) as [Hlo Hhi].
    pose proof (magnitude_pos m e) as Hpos.
    rewrite inject_Z_plus in Hhi. change (inject_Z 1) with 1 in Hhi.
    destruct s; [rewrite inject_Z_opp|]; lra.
Qed.

Lemma F2Q_signed (s : bool) (m : positive) (e : Z) :
  F2Q (S754_finite s m e) == inject_Z (signed s m) * pow2 e.
Proof.
  unfold F2Q, magnitude, signed. destruct s; [|reflexivity].
  change (Zneg m) with (- Zpos m)%Z. rewrite inject_Z_opp. ring.
Qed.

Lemma scaled_nonneg (a e : Z) : (0 <= e)%Z ->
  inject_Z a * pow2 e == inject_Z (a * 2 ^ e).
Proof. intros He. rewrite inject_Z_mult, pow2_inject by assumption. reflexivity. Qed.

Lemma scaled_neg (a b : Z) (k : positive) :
  (inject_Z a * inject_Z (2 ^ Zpos k)%Z <= inject_Z b <->
   inject_Z a <= inject_Z b * pow2 (Zneg k)) /\
  (inject_Z a * inject_Z (2 ^ Zpos k)%Z < inject_Z b <->
   inject_Z a < inject_Z b * pow2 (Zneg k)) /\
  (inject_Z b <= inject_Z a * inject_Z (2 ^ Zpos k)%Z <->
   inject_Z b * pow2 (Zneg k) <= inject_Z a) /\
  (inject_Z b < inject_Z a * inject_Z (2 ^ Zpos k)%Z <->
   inject_Z b * pow2 (Zneg k) < inject_Z a).
Proof.
  pose proof (pow2_neg_inv k) as Hinv.
  pose proof (pow2_pos (Zneg k)) as HP.
  assert (HT : 0 < inject_Z (2 ^ Zpos k)%Z).
  { change 0 with (inject_Z 0). rewrite <- Zlt_Qlt.
    apply Z.pow_pos_nonneg; lia. }
  set (P := pow2 (Zneg k)) in *. set (T := inject_Z (2 ^ Zpos k)%Z) in *.
  set (A := inject_Z a). set (B := inject_Z b).
  assert (HA : A == A * T * P) by (rewrite <- Qmult_assoc, (Qmult_comm T P), Hinv; ring).
  repeat split; intros H.
  - rewrite HA. apply Qmult_le_compat_r; lra.
  - apply (Qmult_le_compat_r _ _ T) in H; [|lra].
    rewrite <- Qmult_assoc, Hinv in H. lra.
  - rewrite HA. apply Qmult_lt_compat_r; lra.
  - apply (Qmult_lt_compat_r _ _ T) in H; [|lra].
    rewrite <- Qmult_assoc, Hinv in H. lra.
  - rewrite HA. apply Qmult_le_compat_r; lra.
  - apply (Qmult_le_compat_r _ _ T) in H; [|lra].
    rewrite <- Qmult_assoc, Hinv in H. lra.
  - rewrite HA. apply Qmult_lt_compat_r; lra.
  - apply (Qmult_lt_compat_r _ _ T) in H; [|lra].
    rewrite <- Qmult_assoc, Hinv in H. lra.
Qed.

Lemma floor_of_float_spec (f : Py.float) (i : Z) :
  Py.floor_of_float f = Ok i ->
  inject_Z i <= F2Q f /\ F2Q f < inject_Z i + 1.
Proof.
  destruct f as [s|s| |s m e]; simpl Py.floor_of_float;
    intros H; inversion H; subst; clear H.
  - simpl. change (inject_Z 0) with 0. lra.
  - rewrite F2Q_signed. fold (signed s m).
    destruct e as [|k|k].
    + rewrite scaled_nonneg by lia. lra.
    + rewrite scaled_nonneg by lia. lra.
    + assert (Hp : (0 < 2 ^ Zpos k)%Z) by (apply Z.pow_pos_nonneg; lia).
      pose proof (Z.mul_div_le (signed s m) (2 ^ Zpos k) Hp) as Hlo.
      pose proof (Z.mul_succ_div_gt (signed s m) (2 ^ Zpos k) Hp) as Hhi.
      set (D := (signed s m / 2 ^ Zpos k)%Z) in *.
      rewrite Z.mul_comm, Zle_Qle, inject_Z_mult in Hlo.
      rewrite Z.mul_comm, Zlt_Qlt, inject_Z_mult in Hhi.
      unfold Z.succ in Hhi.
      destruct (scaled_neg D (signed s m) k) as (H1 & _ & _ & _).
      destruct (scaled_neg (D + 1) (signed s m) k) as (_ & _ & _ & H4).
      rewrite inject_Z_plus in H4. change (inject_Z 1) with 1 in H4.
      rewrite inject_Z_plus in Hhi. change (inject_Z 1) with 1 in Hhi.
      split; [apply H1; exact Hlo | apply H4; exact Hhi].
Qed.

Lemma int_compare_float_spec (z : Z) (f : Py.float) : is_number f ->
  Py.int_compare_float z f = Some (inject_Z z ?= F2Q f).
Proof.
  destruct f as [s|s| |s m e]; simpl is_number; try tauto; intros _.
  - simpl. f_equal. unfold Qcompare. simpl. rewrite Z.mul_1_r. reflexivity.
  - unfold Py.int_compare_float. fold (signed s m). f_equal.
    rewrite F2Q_signed.
    assert (Hnn : forall a b : Z, (a ?= b)%Z = (inject_Z a ?= inject_Z b)).
    { intros a b. unfold Qcompare. simpl. rewrite !Z.mul_1_r. reflexivity. }
    destruct e as [|k|k].
    + rewrite scaled_nonneg by lia. apply Hnn.
    + rewrite scaled_nonneg by lia. apply Hnn.
    + destruct (scaled_neg z (signed s m) k) as (H1 & H2 & H3 & H4).
      rewrite <- inject_Z_mult in H1, H2, H3, H4.
      rewrite <- Zle_Qle in H1, H3. rewrite <- Zlt_Qlt in H2, H4.
      destruct (Z.compare_spec (z * 2 ^ Zpos k) (signed s m)) as [He|Hl|Hg];
        symmetry.
      * apply Qeq_alt. apply Qle_antisym; [apply H1 | apply H3]; lia.
      * apply Qlt_alt. apply H2. lia.
      * apply Qgt_alt. apply H4. lia.
Qed.

Lemma int_lt_float_spec (z : Z) (f : Py.float) : is_number f ->
  Py.int_lt_float z f = true <-> inject_Z z < F2Q f.
Proof.
  intros Hf. unfold Py.int_lt_float. rewrite int_compare_float_spec by assumption.
  rewrite Qlt_alt. destruct (inject_Z z ?= F2Q f); split; congruence.
Qed.

Lemma int_gt_float_spec (z : Z) (f : Py.float) : is_number f ->
  Py.int_gt_float z f = true <-> F2Q f < inject_Z z.
Proof.
  intros Hf. unfold Py.int_gt_float. rewrite int_compare_float_spec by assumption.
  rewrite Qgt_alt. destruct (inject_Z z ?= F2Q f); split; congruence.
Qed.

Lemma int_ge_float_spec (z : Z) (f : Py.float) : is_number f ->
  Py.int_ge_float z f = true <-> F2Q f <= inject_Z z.
Proof.
  intros Hf. unfold Py.int_ge_float. rewrite int_compare_float_spec by assumption.
  rewrite Qle_alt.
  destruct (inject_Z z ?= F2Q f) eqn:E.
  - rewrite <- Qeq_alt in E. split; [intros _|reflexivity].
    rewrite <- Qgt_alt. lra.
  - rewrite <- Qlt_alt in E. split; [discriminate|].
    intros H. exfalso. apply H. apply Qgt_alt. exact E.
  - split; [intros _|reflexivity]. rewrite <- Qgt_alt in E.
    intros H. rewrite <- Qgt_alt in H. lra.
Qed.

Lemma digits_of_magnitude (m e N : Z) : (0 < m)%Z ->
  inject_Z m * pow2 e < pow2 N -> (Zdigits2 m + e <= N)%Z.
Proof.
  intros Hm H. rewrite Zdigits2_log2 by assumption.
  pose proof (Z.log2_spec m Hm) as [Hl _].
  pose proof (Z.log2_nonneg m) as Hnn.
  rewrite Zle_Qle, pow2_inject in Hl by assumption.
  pose proof (pow2_pos e) as HP.
  assert (H1 : pow2 (Z.log2 m + e) < pow2 N).
  { rewrite pow2_add. apply Qle_lt_trans with (inject_Z m * pow2 e); [|exact H].
    apply Qmult_le_compat_r; lra. }
  apply Qpower_lt_compat_l_inv in H1; [lia | reflexivity].
Qed.

Lemma shl_align_spec (mx : positive) (ex ex' : Z) :
  exists k, (0 <= k)%Z /\
    shl_align mx ex ex' = (Z.to_pos (Zpos mx * 2 ^ k), (ex - k)%Z) /\
    (ex - k = Z.min ex ex')%Z.
Proof.
  unfold shl_align. destruct (ex' - ex)%Z as [|d|d] eqn:E.
  - exists 0%Z. rewrite Z.pow_0_r, Z.mul_1_r, Z.sub_0_r. simpl.
    repeat split; lia.
  - exists 0%Z. rewrite Z.pow_0_r, Z.mul_1_r, Z.sub_0_r. simpl.
    repeat split; lia.
  - exists (Zpos d). split; [lia|]. split; [|lia].
    f_equal; [|lia].
    change (Pos.iter xO mx d) with (Zpower.shift_pos d mx).
    apply Pos2Z.inj. rewrite Zpower.shift_pos_correct.
    rewrite Z2Pos.id by (apply Z.mul_pos_pos; [lia | apply Z.pow_pos_nonneg; lia]).
    rewrite Z.mul_comm. reflexivity.
Qed.

Lemma binary_round_int (s : bool) (p : positive) :
  ((Zpos p < 2 ^ 1023)%Z ->
   binary_round Py.prec Py.emax s p 0 <> S754_infinity s) /\
  (binary_round Py.prec Py.emax s p 0 = S754_infinity s \/
   exists mf ef,
     binary_round Py.prec Py.emax s p 0 = S754_finite s mf ef /\
     (-52 <= ef)%Z /\
     (1 - eps) * inject_Z (Zpos p) <= magnitude mf ef /\
     magnitude mf ef <= (1 + eps) * inject_Z (Zpos p)).
Proof.
  unfold binary_round.
  destruct (shl_align_spec p 0 (fexp Py.prec Py.emax (Zpos (digits2_pos p) + 0)))
    as (k & Hk & -> & Hmin).
  change (Zpos (digits2_pos p)) with (Zdigits2 (Zpos p)) in Hmin.
  rewrite fexp_eq in Hmin.
  pose proof (Zdigits2_log2 (Zpos p) eq_refl) as Hd.
  pose proof (Z.log2_nonneg (Zpos p)) as Hnn.
  assert (Hpk : (0 < 2 ^ k)%Z) by (apply Z.pow_pos_nonneg; lia).
  assert (Hmz : (0 < Zpos p * 2 ^ k)%Z) by (apply Z.mul_pos_pos; lia).
  rewrite Z2Pos.id by assumption.
  destruct (binary_round_aux_exact_Q s (Zpos p * 2 ^ k) (0 - k))
    as [Hfin Hval]; [assumption | lia |].
  assert (HV : inject_Z (Zpos p * 2 ^ k) * pow2 (0 - k) == inject_Z (Zpos p)).
  { rewrite inject_Z_mult, pow2_inject by lia.
    rewrite <- Qmult_assoc, <- pow2_add.
    replace (k + (0 - k))%Z with 0%Z by lia. change (pow2 0) with 1. ring. }
  split.
  - intros Hp. apply Hfin; [|lia].
    rewrite Zdigits2_log2, Z.log2_mul_pow2 by lia.
    assert (Z.log2 (Zpos p) < 1023)%Z by (apply Z.log2_lt_pow2; lia). lia.
  - destruct Hval as [Hinf|(mf & ef & Hr & He & Hlo & Hhi)]; [left; exact Hinf|].
    right. exists mf, ef. rewrite HV in Hlo, Hhi.
    repeat split; try assumption. lia.
Qed.

Lemma float_of_int_zero : Py.float_of_int 0 = Ok (S754_zero false).
Proof. reflexivity. Qed.

Lemma float_of_int_spec (z : Z) : (z <> 0)%Z ->
  ((Z.abs z < 2 ^ 1023)%Z -> exists f, Py.float_of_int z = Ok f) /\
  (forall f, Py.float_of_int z = Ok f ->
     exists mf ef, f = S754_finite (z <? 0)%Z mf ef /\ (-52 <= ef)%Z /\
       (1 - eps) * inject_Z (Z.abs z) <= magnitude mf ef /\
       magnitude mf ef <= (1 + eps) * inject_Z (Z.abs z)).
Proof.
  intros Hz. unfold Py.float_of_int.
  destruct z as [|p|p]; [lia| |]; simpl binary_normalize; simpl Z.abs;
    simpl Z.ltb.
  - destruct (binary_round_int false p) as [Hfin Hval]. split.
    + intros Hp. specialize (Hfin Hp).
      destruct Hval as [Hinf|(mf & ef & -> & _)]; [contradiction|].
      eexists. reflexivity.
    + intros f Hf.
      destruct Hval as [Hinf|(mf & ef & Hr & He & Hlo & Hhi)].
      * rewrite Hinf in Hf. discriminate.
      * rewrite Hr in Hf. inversion Hf; subst. exists mf, ef. auto.
  - destruct (binary_round_int true p) as [Hfin Hval]. split.
    + intros Hp. specialize (Hfin Hp).
      destruct Hval as [Hinf|(mf & ef & -> & _)]; [contradiction|].
      eexists. reflexivity.
    + intros f Hf.
      destruct Hval as [Hinf|(mf & ef & Hr & He & Hlo & Hhi)].
      * rewrite Hinf in Hf. discriminate.
      * rewrite Hr in Hf. inversion Hf; subst. exists mf, ef. auto.
Qed.

Lemma magnitude_mul (m1 m2 : positive) (e1 e2 : Z) :
  inject_Z (Zpos (m1 * m2)) * pow2 (e1 + e2) == magnitude m1 e1 * magnitude m2 e2.
Proof.
  unfold magnitude. rewrite Pos2Z.inj_mul, inject_Z_mult, pow2_add. ring.
Qed.

Lemma fmul_finite_spec (sx sc : bool) (mx mc : positive) (ex ec : Z) :
  (-1074 <= ex + ec)%Z ->
  ((ex + ec <= 971)%Z -> magnitude mx ex * magnitude mc ec < pow2 1023 ->
   Py.fmul (S754_finite sx mx ex) (S754_finite sc mc ec)
     <> S754_infinity (xorb sx sc)) /\
  (Py.fmul (S754_finite sx mx ex) (S754_finite sc mc ec)
     = S754_infinity (xorb sx sc) \/
   exists mf ef,
     Py.fmul (S754_finite sx mx ex) (S754_finite sc mc ec)
       = S754_finite (xorb sx sc) mf ef /\
     (1 - eps) * (magnitude mx ex * magnitude mc ec) <= magnitude mf ef /\
     magnitude mf ef <= (1 + eps) * (magnitude mx ex * magnitude mc ec)).
Proof.
  intros He. unfold Py.fmul, SFmul.
  destruct (binary_round_aux_exact_Q (xorb sx sc) (Zpos (mx * mc)) (ex + ec))
    as [Hfin Hval]; [reflexivity | assumption |].
  pose proof (magnitude_mul mx mc ex ec) as HV. split.
  - intros He' Hm. apply Hfin; [|assumption].
    apply digits_of_magnitude; [reflexivity|]. rewrite HV. exact Hm.
  - destruct Hval as [Hinf|(mf & ef & Hr & _ & Hlo & Hhi)]; [left; exact Hinf|].
    right. exists mf, ef. rewrite HV in Hlo, Hhi. auto.
Qed.

Lemma exponent_of_magnitude (m : positive) (e N : Z) :
  magnitude m e < pow2 N -> (e < N)%Z.
Proof.
  intros H. pose proof (digits_of_magnitude (Zpos m) e N eq_refl H) as Hd.
  rewrite Zdigits2_log2 in Hd by reflexivity.
  pose proof (Z.log2_nonneg (Zpos m)). lia.
Qed.

Lemma int_mul_float_zero (c : Py.float) (mc : positive) (ec : Z) :
  Py.int_mul_float 0 (S754_finite false mc ec) = Ok (S754_zero false).
Proof. reflexivity. Qed.

Lemma int_mul_float_spec (z : Z) (mc : positive) (ec : Z) :
  (-1000 <= ec <= 0)%Z -> magnitude mc ec < 2 -> (z <> 0)%Z ->
  ((Z.abs z < 2 ^ 960)%Z ->
   exists mf ef, Py.int_mul_float z (S754_finite false mc ec)
                 = Ok (S754_finite (z <? 0)%Z mf ef)) /\
  (forall f, Py.int_mul_float z (S754_finite false mc ec) = Ok f ->
     f = S754_infinity (z <? 0)%Z \/
     exists mf ef, f = S754_finite (z <? 0)%Z mf ef /\
       (1 - delta) * (inject_Z (Z.abs z) * magnitude mc ec) <= magnitude mf ef /\
       magnitude mf ef <= (1 + delta) * (inject_Z (Z.abs z) * magnitude mc ec)).
Proof.
  intros Hec HC Hz. unfold Py.int_mul_float.
  destruct (float_of_int_spec z Hz) as [Hex Hval].
  pose proof (magnitude_pos mc ec) as HCpos.
  assert (Hzpos : 0 < inject_Z (Z.abs z)).
  { change 0 with (inject_Z 0). rewrite <- Zlt_Qlt. lia. }
  split.
  - intros Hr. destruct Hex as [f1 Hf1]; [lia|]. rewrite Hf1. simpl bind.
    destruct (Hval f1 Hf1) as (m1 & e1 & -> & He1 & Hlo & Hhi).
    destruct (fmul_finite_spec (z <? 0)%Z false m1 mc e1 ec) as [Hfin Hv];
      [lia|].
    rewrite xorb_false_r in Hfin, Hv.
    rewrite Zlt_Qlt, pow2_inject in Hr by lia.
    assert (H23 : pow2 1023 == pow2 960 * 9223372036854775808).
    { change 1023%Z with (960 + 63)%Z. rewrite pow2_add. reflexivity. }
    assert (H1 : pow2 961 == pow2 960 * 2).
    { change 961%Z with (960 + 1)%Z. rewrite pow2_add. reflexivity. }
    pose proof (pow2_pos 1000) as HA. set (A := pow2 960) in *.
    pose proof (magnitude_pos m1 e1) as Hm1.
    assert (Hb : magnitude m1 e1 < A * 2) by (unfold eps in Hhi; lra).
    assert (He1' : (e1 < 961)%Z).
    { apply (exponent_of_magnitude m1). rewrite H1. exact Hb. }
    destruct Hv as [Hinf|(mf & ef & Hr' & _)].
    + exfalso. apply Hfin; [lia| |exact Hinf].
      rewrite H23.
      apply Qlt_trans with (A * 2 * 2); [|lra].
      apply Qmult_lt_compat_nonneg; lra.
    + exists mf, ef. rewrite Hr'. reflexivity.
  - intros f Hf. destruct (Py.float_of_int z) as [f1|] eqn:Hf1; [|discriminate].
    simpl in Hf. inversion Hf; subst f; clear Hf.
    destruct (Hval f1 eq_refl) as (m1 & e1 & -> & He1 & Hlo & Hhi).
    destruct (fmul_finite_spec (z <? 0)%Z false m1 mc e1 ec) as [_ Hv]; [lia|].
    rewrite xorb_false_r in Hv.
    destruct Hv as [Hinf|(mf & ef & Hr' & Hlo' & Hhi')]; [left; exact Hinf|].
    right. exists mf, ef. split; [exact Hr'|].
    pose proof (magnitude_pos m1 e1) as Hm1.
    set (Zq := inject_Z (Z.abs z)) in *. set (C := magnitude mc ec) in *.
    set (M1 := magnitude m1 e1) in *. set (Mf := magnitude mf ef) in *.
    assert (HloC : (1 - eps) * Zq * C <= M1 * C)
      by (apply Qmult_le_compat_r; lra).
    assert (HhiC : M1 * C <= (1 + eps) * Zq * C)
      by (apply Qmult_le_compat_r; lra).
    assert (HZC : 0 < Zq * C) by (apply Qmult_lt_0_compat; assumption).
    set (ZC := Zq * C) in *.
    assert (E1 : (1 - eps) * Zq * C == (1 - eps) * ZC) by (unfold ZC; ring).
    assert (E2 : (1 + eps) * Zq * C == (1 + eps) * ZC) by (unfold ZC; ring).
    rewrite E1 in HloC. rewrite E2 in HhiC.
    unfold eps, delta in *. split; lra.
Qed.

(** ** Products of an integer and a literal *)

Lemma literal_ok_spec (c : Py.float) : literal_ok c = true ->
  exists m e, c = S754_finite false m e /\ (-1000 <= e <= 0)%Z /\
              magnitude m e < 2.
Proof.
  destruct c as [s|s| |s m e]; cbn [literal_ok]; try discriminate.
  destruct s; [discriminate|]. intros H.
  apply andb_prop in H. destruct H as [H H3]. apply andb_prop in H.
  destruct H as [H1 H2].
  apply Z.leb_le in H1, H2. apply Z.ltb_lt in H3.
  exists m, e. split; [reflexivity|]. split; [lia|].
  unfold magnitude. rewrite Zlt_Qlt in H3. rewrite pow2_inject in H3 by lia.
  pose proof (pow2_pos e) as HP.
  assert (H : inject_Z (Zpos m) * pow2 e < pow2 (1 - e) * pow2 e)
    by (apply Qmult_lt_compat_r; assumption).
  rewrite <- pow2_add in H. replace (1 - e + e)%Z with 1%Z in H by lia.
  exact H.
Qed.

Lemma int_mul_float_value (z : Z) (c f : Py.float) : literal_ok c = true ->
  Py.int_mul_float z c = Ok f ->
  f = S754_infinity (z <? 0)%Z \/
  (product_value z c f /\
   match f with
   | S754_zero s => s = false /\ z = 0%Z
   | S754_finite s _ _ => s = (z <? 0)%Z /\ z <> 0%Z
   | _ => False
   end).
Proof.
  intros Hc Hf. destruct (literal_ok_spec c Hc) as (mc & ec & -> & Hec & HC).
  destruct (Z.eq_dec z 0) as [->|Hz].
  - right. simpl in Hf. inversion Hf; subst f; clear Hf.
    unfold product_value. simpl. change (inject_Z 0) with 0.
    repeat split; try lra; reflexivity.
  - destruct (int_mul_float_spec z mc ec Hec HC Hz) as [_ Hv].
    destruct (Hv f Hf) as [Hinf|(mf & ef & -> & Hlo & Hhi)]; [left; exact Hinf|].
    right. split; [|split; [reflexivity | exact Hz]].
    unfold product_value. split; [exact I|].
    simpl F2Q.
    pose proof (magnitude_pos mc ec) as HCpos.
    set (C := magnitude mc ec) in *. set (M := magnitude mf ef) in *.
    split; intros Hs.
    + assert (Hlt : (z <? 0)%Z = false) by (apply Z.ltb_ge; exact Hs).
      rewrite Hlt. rewrite Z.abs_eq in Hlo, Hhi by assumption. split; assumption.
    + assert (Hlt : (z <? 0)%Z = true) by (apply Z.ltb_lt; lia).
      rewrite Hlt. rewrite Z.abs_neq, inject_Z_opp in Hlo, Hhi by assumption.
      set (Zq := inject_Z z) in *.
      assert (E : - Zq * C == - (Zq * C)) by ring.
      rewrite E in Hlo, Hhi. set (ZC := Zq * C) in *.
      unfold delta in *. split; lra.
Qed.

Lemma int_mul_float_in_range (z : Z) (c : Py.float) : literal_ok c = true ->
  (Z.abs z < 2 ^ 960)%Z ->
  exists f, Py.int_mul_float z c = Ok f /\ is_number f.
Proof.
  intros Hc Hz. destruct (literal_ok_spec c Hc) as (mc & ec & -> & Hec & HC).
  destruct (Z.eq_dec z 0) as [->|Hnz].
  - exists (S754_zero false). split; [reflexivity | exact I].
  - destruct (int_mul_float_spec z mc ec Hec HC Hnz) as [Hex _].
    destruct (Hex Hz) as (mf & ef & Hf). eexists. split; [exact Hf | exact I].
Qed.

Lemma int_of_float_nonneg (m : positive) (e : Z) :
  Py.int_of_float (S754_finite false m e)
  = Py.floor_of_float (S754_finite false m e).
Proof.
  unfold Py.int_of_float, Py.floor_of_float, Py.magnitude_trunc.
  f_equal. destruct e as [|k|k].
  - rewrite Z.shiftl_0_r. simpl. lia.
  - rewrite Z.shiftl_mul_pow2 by lia. reflexivity.
  - rewrite Z.shiftr_div_pow2 by lia. reflexivity.
Qed.

(** On a non-negative integer [int] and [floor] agree. *)
Lemma int_of_product_nonneg (z : Z) (c : Py.float) :
  literal_ok c = true -> (0 <= z)%Z ->
  Py.int_of_product z c = Py.floor_of_product z c.
Proof.
  intros Hc Hz. unfold Py.int_of_product, Py.floor_of_product.
  destruct (Py.int_mul_float z c) as [f|x] eqn:Hf; [|reflexivity]. simpl.
  destruct (int_mul_float_value z c f Hc Hf) as [->|[_ Hs]]; [reflexivity|].
  destruct f as [s|s| |s m e]; try contradiction; [reflexivity|].
  destruct Hs as [-> _].
  assert (Hlt : (z <? 0)%Z = false) by (apply Z.ltb_ge; exact Hz).
  rewrite Hlt. apply int_of_float_nonneg.
Qed.

Lemma int_of_product_value (z : Z) (c : Py.float) (i : Z) :
  literal_ok c = true -> Py.int_of_product z c = Ok i ->
  exists f, Py.int_mul_float z c = Ok f /\ product_value z c f /\
            Py.int_of_float f = Ok i.
Proof.
  intros Hc H. unfold Py.int_of_product in H.
  destruct (Py.int_mul_float z c) as [f|x] eqn:Hf; [|discriminate].
  simpl in H. exists f. split; [reflexivity|]. split; [|exact H].
  destruct (int_mul_float_value z c f Hc Hf) as [->|[Hv _]];
    [discriminate | exact Hv].
Qed.

Lemma floor_of_product_value (z : Z) (c : Py.float) (i : Z) :
  literal_ok c = true -> Py.floor_of_product z c = Ok i ->
  exists f, Py.int_mul_float z c = Ok f /\ product_value z c f /\
            Py.floor_of_float f = Ok i.
Proof.
  intros Hc H. unfold Py.floor_of_product in H.
  destruct (Py.int_mul_float z c) as [f|x] eqn:Hf; [|discriminate].
  simpl in H. exists f. split; [reflexivity|]. split; [|exact H].
  destruct (int_mul_float_value z c f Hc Hf) as [->|[Hv _]];
    [discriminate | exact Hv].
Qed.

(** [int(z * c)] for [z <= 0]: at most one above the scaled value. *)
Lemma int_of_product_nonpos (z : Z) (c : Py.float) (i : Z) :
  literal_ok c = true -> (z <= 0)%Z -> Py.int_of_product z c = Ok i ->
  (1 + delta) * (inject_Z z * F2Q c) <= inject_Z i /\
  inject_Z i - 1 < (1 - delta) * (inject_Z z * F2Q c).
Proof.
  intros Hc Hz H.
  destruct (int_of_product_value z c i Hc H) as (f & _ & (_ & _ & Hv) & Hi).
  destruct (Hv Hz) as [Hlo Hhi].
  destruct (int_of_float_spec f i Hi) as [_ Hneg].
  destruct (literal_ok_spec c Hc) as (mc & ec & -> & _ & _).
  pose proof (magnitude_pos mc ec) as HC. simpl F2Q in *.
  set (C := magnitude mc ec) in *.
  assert (HzC : inject_Z z * C <= 0).
  { assert (Hz' : inject_Z z <= 0)
      by (change 0 with (inject_Z 0); rewrite <- Zle_Qle; exact Hz).
    setoid_replace (inject_Z z * C) with (- ((- inject_Z z) * C)) by ring.
    assert (0 <= (- inject_Z z) * C) by (apply Qmult_le_0_compat; lra). lra. }
  set (ZC := inject_Z z * C) in *.
  assert (Hf0 : F2Q f <= 0) by (unfold delta in *; lra).
  destruct (Hneg Hf0) as [H1 H2]. unfold delta in *. split; lra.
Qed.

Lemma int_of_product_nonneg_bounds (z : Z) (c : Py.float) (i : Z) :
  literal_ok c = true -> (0 <= z)%Z -> Py.int_of_product z c = Ok i ->
  (1 - delta) * (inject_Z z * F2Q c) < inject_Z i + 1 /\
  inject_Z i <= (1 + delta) * (inject_Z z * F2Q c).
Proof.
  intros Hc Hz H.
  destruct (int_of_product_value z c i Hc H) as (f & _ & (_ & Hv & _) & Hi).
  destruct (Hv Hz) as [Hlo Hhi].
  destruct (int_of_float_spec f i Hi) as [Hpos _].
  destruct (literal_ok_spec c Hc) as (mc & ec & -> & _ & _).
  pose proof (magnitude_pos mc ec) as HC. simpl F2Q in *.
  set (C := magnitude mc ec) in *.
  assert (HzC : 0 <= inject_Z z * C).
  { assert (Hz' : 0 <= inject_Z z)
      by (change 0 with (inject_Z 0); rewrite <- Zle_Qle; exact Hz).
    apply Qmult_le_0_compat; lra. }
  set (ZC := inject_Z z * C) in *.
  assert (Hf0 : 0 <= F2Q f) by (unfold delta in *; lra).
  destruct (Hpos Hf0) as [H1 H2]. unfold delta in *. split; lra.
Qed.

Lemma floor_of_product_nonpos (z : Z) (c : Py.float) (j : Z) :
  literal_ok c = true -> (z <= 0)%Z -> Py.floor_of_product z c = Ok j ->
  inject_Z j <= (1 - delta) * (inject_Z z * F2Q c).
Proof.
  intros Hc Hz H.
  destruct (floor_of_product_value z c j Hc H) as (f & _ & (_ & _ & Hv) & Hj).
  destruct (Hv Hz) as [Hlo Hhi].
  destruct (floor_of_float_spec f j Hj) as [H1 H2]. lra.
Qed.

(** A failed [z >= a * c] with [a <= 0] puts [z] below the scaled value. *)
Lemma ge_product_false (z a : Z) (c : Py.float) :
  literal_ok c = true -> (a <= 0)%Z -> Py.ge_product z a c = Ok false ->
  inject_Z z < (1 - delta) * (inject_Z a * F2Q c).
Proof.
  intros Hc Ha H. unfold Py.ge_product in H.
  destruct (Py.int_mul_float a c) as [t|x] eqn:Ht; [|discriminate].
  simpl in H. inversion H as [Hb]; clear H.
  destruct (int_mul_float_value a c t Hc Ht) as [->|[(Hn & _ & Hv) _]].
  - assert (Hs : (a <? 0)%Z = true \/ (a <? 0)%Z = false)
      by (destruct (a <? 0)%Z; auto).
    destruct Hs as [Hs|Hs]; rewrite Hs in Hb.
    + discriminate.
    + apply Z.ltb_ge in Hs. assert (a = 0%Z) by lia. subst a.
      destruct (literal_ok_spec c Hc) as (mc & ec & -> & _ & _).
      simpl in Ht. discriminate.
  - destruct (Hv Ha) as [_ Hhi].
    assert (Hge : ~ F2Q t <= inject_Z z).
    { intros Hle. apply (int_ge_float_spec z t Hn) in Hle. congruence. }
    apply Qnot_le_lt in Hge. lra.
Qed.

Lemma inject_Z_lt_le (a b : Z) : inject_Z a - 1 < inject_Z b -> (a <= b)%Z.
Proof.
  intros H. assert (H' : inject_Z a < inject_Z (b + 1)).
  { rewrite inject_Z_plus. change (inject_Z 1) with 1. lra. }
  rewrite <- Zlt_Qlt in H'. lia.
Qed.

Lemma inject_Z_le_lt (a b : Z) : inject_Z a < inject_Z b -> (a <= b)%Z.
Proof. intros H. rewrite <- Zlt_Qlt in H. lia. Qed.

Lemma f1_1_value : F2Q f1_1 == 2476979795053773 # 2251799813685248.
Proof. vm_compute. reflexivity. Qed.

(** Below the acceptance threshold the seller's counter does not depend on
    how the product is rounded to an integer. *)
Lemma counter_rounding (min offer : Z) (c : Py.float) (i : Z) :
  literal_ok c = true -> 1 <= F2Q c ->
  Py.ge_product offer min f1_1 = Ok false ->
  Py.int_of_product offer c = Ok i ->
  exists j, Py.floor_of_product offer c = Ok j /\ Z.max min i = Z.max min j.
Proof.
  intros Hc HC Hge Hi.
  destruct (Z_le_gt_dec 0 offer) as [Hpos|Hneg].
  - exists i. rewrite <- int_of_product_nonneg by assumption. auto.
  - assert (Ho : (offer <= 0)%Z) by lia.
    destruct (int_of_product_value offer c i Hc Hi) as (f & Hf & [Hn _] & Hfi).
    assert (Hj : exists j, Py.floor_of_product offer c = Ok j).
    { unfold Py.floor_of_product. rewrite Hf. simpl.
      destruct f; try contradiction; eexists; reflexivity. }
    destruct Hj as [j Hj]. exists j. split; [exact Hj|].
    destruct (int_of_product_nonpos offer c i Hc Ho Hi) as [_ Hi'].
    pose proof (floor_of_product_nonpos offer c j Hc Ho Hj) as Hj'.
    assert (HX : inject_Z offer < 0)
      by (change 0 with (inject_Z 0); rewrite <- Zlt_Qlt; lia).
    assert (HXC : inject_Z offer * F2Q c <= inject_Z offer).
    { setoid_replace (inject_Z offer * F2Q c)
        with (inject_Z offer - (- inject_Z offer) * (F2Q c - 1)) by ring.
      assert (0 <= (- inject_Z offer) * (F2Q c - 1))
        by (apply Qmult_le_0_compat; lra).
      lra. }
    set (X := inject_Z offer) in *. set (XC := X * F2Q c) in *.
    assert (Hboth : (i <= min)%Z /\ (j <= min)%Z); [|lia].
    destruct (Z_le_gt_dec 0 min) as [Hm|Hm].
    + assert (Hi0 : inject_Z i - 1 < inject_Z 0)
        by (change (inject_Z 0) with 0; unfold delta in *; lra).
      assert (Hj0 : inject_Z j < inject_Z 0)
        by (change (inject_Z 0) with 0; unfold delta in *; lra).
      apply inject_Z_lt_le in Hi0. apply inject_Z_le_lt in Hj0. lia.
    + pose proof (ge_product_false offer min f1_1 eq_refl ltac:(lia) Hge) as Hlt.
      rewrite f1_1_value in Hlt.
      assert (HM : inject_Z min < 0)
        by (change 0 with (inject_Z 0); rewrite <- Zlt_Qlt; lia).
      fold X in Hlt. set (M := inject_Z min) in *.
      assert (Hi0 : inject_Z i - 1 < M) by (unfold delta in *; lra).
      assert (Hj0 : inject_Z j < M) by (unfold delta in *; lra).
      apply inject_Z_lt_le in Hi0. apply inject_Z_le_lt in Hj0. lia.
Qed.

Lemma int_of_product_in_range (z : Z) (c : Py.float) :
  literal_ok c = true -> F2Q c <= 3 # 2 -> (Z.abs z < 2 ^ 960)%Z ->
  exists i, Py.int_of_product z c = Ok i /\ (Z.abs i <= 2 * Z.abs z)%Z.
Proof.
  intros Hc HC Hz.
  destruct (int_mul_float_in_range z c Hc Hz) as (f & Hf & Hn).
  assert (Hi : exists i, Py.int_of_product z c = Ok i).
  { unfold Py.int_of_product. rewrite Hf. simpl.
    destruct f; try contradiction; eexists; reflexivity. }
  destruct Hi as [i Hi]. exists i. split; [exact Hi|].
  destruct (literal_ok_spec c Hc) as (mc & ec & Ec & _ & _).
  assert (HCpos : 0 < F2Q c) by (rewrite Ec; apply magnitude_pos).
  destruct (Z_le_gt_dec 0 z) as [Hpos|Hneg].
  - destruct (int_of_product_nonneg_bounds z c i Hc Hpos Hi) as [Hlo Hhi].
    assert (Hz' : 0 <= inject_Z z)
      by (change 0 with (inject_Z 0); rewrite <- Zle_Qle; exact Hpos).
    assert (HzC : 0 <= inject_Z z * F2Q c /\ inject_Z z * F2Q c <= (3 # 2) * inject_Z z).
    { split; [apply Qmult_le_0_compat; lra|].
      rewrite (Qmult_comm (inject_Z z)). apply Qmult_le_compat_r; assumption. }
    set (ZC := inject_Z z * F2Q c) in *.
    assert (H1 : inject_Z 0 - 1 < inject_Z i)
      by (change (inject_Z 0) with 0; unfold delta in *; lra).
    assert (H2 : inject_Z i - 1 < inject_Z (2 * z)).
    { rewrite inject_Z_mult. change (inject_Z 2) with 2. unfold delta in *. lra. }
    apply inject_Z_lt_le in H1, H2. lia.
  - assert (Hz0 : (z <= 0)%Z) by lia.
    destruct (int_of_product_nonpos z c i Hc Hz0 Hi) as [Hlo Hhi].
    assert (Hz' : 0 <= - inject_Z z).
    { assert (inject_Z z <= inject_Z 0) by (rewrite <- Zle_Qle; exact Hz0).
      change (inject_Z 0) with 0 in *. lra. }
    assert (HzC : 0 <= (- inject_Z z) * F2Q c /\
                  (- inject_Z z) * F2Q c <= (3 # 2) * (- inject_Z z)).
    { split; [apply Qmult_le_0_compat; lra|].
      rewrite (Qmult_comm (- inject_Z z)). apply Qmult_le_compat_r; assumption. }
    assert (E : inject_Z z * F2Q c == - ((- inject_Z z) * F2Q c)) by ring.
    rewrite E in Hlo, Hhi. set (ZC := (- inject_Z z) * F2Q c) in *.
    assert (H1 : inject_Z i - 1 < inject_Z 0)
      by (change (inject_Z 0) with 0; unfold delta in *; lra).
    assert (H2 : inject_Z (2 * z) - 1 < inject_Z i).
    { rewrite inject_Z_mult. change (inject_Z 2) with 2. unfold delta in *. lra. }
    apply inject_Z_lt_le in H1, H2. lia.
Qed.

Lemma lt_product_in_range (z a : Z) (c : Py.float) :
  literal_ok c = true -> (Z.abs a < 2 ^ 960)%Z ->
  exists b, Py.lt_product z a c = Ok b.
Proof.
  intros Hc Ha. destruct (int_mul_float_in_range a c Hc Ha) as (f & Hf & _).
  unfold Py.lt_product. rewrite Hf. eexists. reflexivity.
Qed.

Lemma gt_product_in_range (z a : Z) (c : Py.float) :
  literal_ok c = true -> (Z.abs a < 2 ^ 960)%Z ->
  exists b, Py.gt_product z a c = Ok b.
Proof.
  intros Hc Ha. destruct (int_mul_float_in_range a c Hc Ha) as (f & Hf & _).
  unfold Py.gt_product. rewrite Hf. eexists. reflexivity.
Qed.

Lemma ge_product_in_range (z a : Z) (c : Py.float) :
  literal_ok c = true -> (Z.abs a < 2 ^ 960)%Z ->
  exists b, Py.ge_product z a c = Ok b.
Proof.
  intros Hc Ha. destruct (int_mul_float_in_range a c Hc Ha) as (f & Hf & _).
  unfold Py.ge_product. rewrite Hf. eexists. reflexivity.
Qed.

(** ** Division *)

Local Close Scope Q_scope.

Lemma Zdigits2_nonneg (m : Z) : 0 <= Zdigits2 m.
Proof. destruct m; simpl; lia. Qed.

Lemma Zdigits2_lt_pow2 (m d : Z) : 0 <= m -> 0 <= d ->
  (m < 2 ^ d <-> Zdigits2 m <= d).
Proof.
  intros Hm Hd. destruct (Z.eq_dec m 0) as [->|Hne].
  - simpl. split; [lia|]. intros _. apply Z.pow_pos_nonneg; lia.
  - rewrite Zdigits2_log2 by lia.
    rewrite (Z.log2_lt_pow2 m d) by lia. lia.
Qed.

Lemma Zdigits2_le_mono (a b : Z) : 0 <= a <= b -> Zdigits2 a <= Zdigits2 b.
Proof.
  intros [Ha Hab]. pose proof (Zdigits2_nonneg b) as Hb.
  apply Zdigits2_lt_pow2; [lia | lia |].
  apply Z.le_lt_trans with b; [exact Hab|].
  apply Zdigits2_lt_pow2; lia.
Qed.

Lemma Zdigits2_succ (a : Z) : 0 <= a -> Zdigits2 (a + 1) <= Zdigits2 a + 1.
Proof.
  intros Ha. pose proof (Zdigits2_nonneg a) as Hd.
  apply Zdigits2_lt_pow2; [lia | lia |].
  assert (H : a < 2 ^ Zdigits2 a) by (apply Zdigits2_lt_pow2; lia).
  rewrite Z.pow_add_r by lia. change (2 ^ 1) with 2.
  assert (0 < 2 ^ Zdigits2 a) by (apply Z.pow_pos_nonneg; lia). lia.
Qed.

Lemma Zdigits2_div_pow2 (a n : Z) : 0 <= a -> 0 <= n ->
  Zdigits2 (a / 2 ^ n) <= Z.max 0 (Zdigits2 a - n).
Proof.
  intros Ha Hn. pose proof (Zdigits2_nonneg a) as Hd.
  assert (Hp : 0 < 2 ^ n) by (apply Z.pow_pos_nonneg; lia).
  assert (Hq : 0 <= a / 2 ^ n) by (apply Z.div_pos; lia).
  apply Zdigits2_lt_pow2; [exact Hq | lia |].
  assert (H : a < 2 ^ Zdigits2 a) by (apply Zdigits2_lt_pow2; lia).
  apply Z.div_lt_upper_bound; [exact Hp|].
  rewrite <- Z.pow_add_r by lia.
  apply Z.lt_le_trans with (2 ^ Zdigits2 a); [exact H|].
  apply Z.pow_le_mono_r; lia.
Qed.

Lemma Zdigits2_mul_pow2 (a s : Z) : 0 <= a -> 0 <= s ->
  Zdigits2 (a * 2 ^ s) <= Zdigits2 a + s.
Proof.
  intros Ha Hs. pose proof (Zdigits2_nonneg a) as Hd.
  assert (Hp : 0 < 2 ^ s) by (apply Z.pow_pos_nonneg; lia).
  apply Zdigits2_lt_pow2; [nia | lia |].
  assert (H : a < 2 ^ Zdigits2 a) by (apply Zdigits2_lt_pow2; lia).
  rewrite Z.pow_add_r by lia. nia.
Qed.

(** Rounding a mantissa with any location information: never a NaN, and
    finite when the exact value is in range. *)
Lemma binary_round_aux_finite (s : bool) (m e : Z) (l : location) :
  0 <= m -> e <= 900 -> Zdigits2 m + e <= 1000 ->
  is_number (binary_round_aux Py.prec Py.emax s m e l).
Proof.
  intros Hm He Hd.
  destruct (binary_round_aux_steps s m e l Hm) as (m2 & Hm2 & ->).
  set (n1 := shift_amount m e) in *.
  assert (Hn1 : 0 <= n1) by apply Z.le_max_l.
  assert (Hp1 : 0 < 2 ^ n1) by (apply Z.pow_pos_nonneg; lia).
  assert (Hq : 0 <= m / 2 ^ n1) by (apply Z.div_pos; lia).
  set (n2 := shift_amount m2 (e + n1)) in *.
  assert (Hn2 : 0 <= n2) by apply Z.le_max_l.
  assert (Hp2 : 0 < 2 ^ n2) by (apply Z.pow_pos_nonneg; lia).
  assert (Hmf : 0 <= m2 / 2 ^ n2) by (apply Z.div_pos; lia).
  assert (Hd2 : Zdigits2 m2 <= Z.max 0 (Zdigits2 m - n1) + 1).
  { apply Z.le_trans with (Zdigits2 (m / 2 ^ n1 + 1)).
    - apply Zdigits2_le_mono. lia.
    - pose proof (Zdigits2_succ (m / 2 ^ n1) Hq).
      pose proof (Zdigits2_div_pow2 m n1 Hm Hn1). lia. }
  pose proof (Zdigits2_nonneg m) as Hdm.
  assert (He1 : e + n1 + n2 <= 971).
  { unfold n2, n1, shift_amount in *. rewrite !fexp_eq in *. lia. }
  unfold classify. destruct (m2 / 2 ^ n2) as [|p|p]; try lia; [exact I|].
  destruct (Z.leb_spec (e + n1 + n2) 971); [exact I | lia].
Qed.

Lemma SFdiv_integers_finite (s1 s2 : bool) (m1 m2 : positive) :
  Zpos m1 < 2 ^ 960 ->
  is_number (SFdiv Py.prec Py.emax (S754_finite s1 m1 0) (S754_finite s2 m2 0)).
Proof.
  intros H1. unfold SFdiv, SFdiv_core_binary.
  set (e' := Z.min (fexp Py.prec Py.emax
                      (Zdigits2 (Zpos m1) + 0 - (Zdigits2 (Zpos m2) + 0)))
                   (0 - 0)).
  assert (He' : -1074 <= e' <= 0) by (unfold e'; rewrite fexp_eq; lia).
  set (m' := match 0 - 0 - e' with
             | Z0 => Zpos m1
             | Zpos _ => Z.shiftl (Zpos m1) (0 - 0 - e')
             | Zneg _ => 0
             end).
  assert (Hm' : m' = Zpos m1 * 2 ^ (- e')).
  { unfold m'. replace (0 - 0 - e') with (- e') by lia.
    destruct (Z.eq_dec (- e') 0) as [E|E].
    - rewrite E. lia.
    - destruct (- e') as [|p|p] eqn:E'; try lia.
      apply Z.shiftl_mul_pow2. lia. }
  destruct (Z.div_eucl m' (Zpos m2)) as [q r] eqn:E.
  assert (Hq : q = m' / Zpos m2) by (unfold Z.div; rewrite E; reflexivity).
  assert (Hp : 0 < 2 ^ (- e')) by (apply Z.pow_pos_nonneg; lia).
  assert (Hm0 : 0 <= m') by nia.
  assert (Hq0 : 0 <= q) by (rewrite Hq; apply Z.div_pos; lia).
  assert (Hqm : q <= m').
  { rewrite Hq. apply Z.div_le_upper_bound; [lia | nia]. }
  apply binary_round_aux_finite; [exact Hq0 | lia |].
  assert (Hd1 : Zdigits2 (Zpos m1) <= 960)
    by (apply Zdigits2_lt_pow2; lia).
  pose proof (Zdigits2_le_mono q m' (conj Hq0 Hqm)) as Hdq.
  pose proof (Zdigits2_mul_pow2 (Zpos m1) (- e') ltac:(lia) ltac:(lia)) as Hdm.
  rewrite <- Hm' in Hdm. lia.
Qed.

Lemma true_div_total (a b : Z) : b <> 0 -> Z.abs a < 2 ^ 960 ->
  exists q, Py.true_div a b = Ok q.
Proof.
  intros Hb Ha. unfold Py.true_div.
  destruct b as [|pb|pb]; [contradiction| |];
    (destruct a as [|pa|pa]; [eexists; reflexivity| |]);
    cbn [Z.abs Z.to_pos Z.ltb Z.compare] in *;
    match goal with
    | |- context [SFdiv _ _ (S754_finite ?s1 ?m1 0) (S754_finite ?s2 ?m2 0)] =>
        pose proof (SFdiv_integers_finite s1 s2 m1 m2 Ha) as Hn;
        destruct (SFdiv Py.prec Py.emax (S754_finite s1 m1 0)
                    (S754_finite s2 m2 0));
        try contradiction; eexists; reflexivity
    end.
Qed.

Lemma percent_below_total (a final_price : Z) :
  a <> 0 -> Z.abs (a - final_price) < 2 ^ 960 ->
  exists p, percent_below a final_price = Ok p.
Proof.
  intros Ha Hd. unfold percent_below.
  destruct (true_div_total (a - final_price) a Ha Hd) as [q ->].
  cbn [bind]. unfold Py.float_mul_int.
  change (Py.float_of_int 100) with
    (Ok (S754_finite false 7036874417766400 (-46)) : result Py.float).
  eexists. reflexivity.
Qed.

End Binary64.

(** * The round loop *)

Lemma bind_Ok {A B : Type} (c : result A) (k : A -> result B) (b : B) :
  bind c k = Ok b -> exists a, c = Ok a /\ k a = Ok b.
Proof. destruct c as [a|e]; simpl; [eauto | discriminate]. Qed.

Section Loop.
Variable llm : NegotiationLLM.
Context (buyer_agent : BaseBuyerAgent).
Variable seller : MockSellerAgent.

Lemma for_rounds_app (l1 l2 : list Z) : forall s,
  for_rounds llm buyer_agent seller (l1 ++ l2) s =
  bind (for_rounds llm buyer_agent seller l1 s) (continue_with llm buyer_agent seller l2).
Proof.
  induction l1 as [|r l1 IH]; intros s; simpl; [reflexivity|].
  destruct (round_body llm buyer_agent seller r s) as [[e|s']|x]; simpl;
    [reflexivity | apply IH | reflexivity].
Qed.

Lemma for_rounds_one (r : Z) (s : LoopState) :
  for_rounds llm buyer_agent seller [r] s = round_body llm buyer_agent seller r s.
Proof.
  simpl. destruct (round_body llm buyer_agent seller r s) as [[e|s']|x];
    reflexivity.
Qed.

End Loop.

Lemma range_succ (k : nat) : Py.range (S k) = Py.range k ++ [Z.of_nat k].
Proof. unfold Py.range. rewrite seq_S, map_app. reflexivity. Qed.

Section Runs.
Variable llm : NegotiationLLM.
Context (buyer_agent : BaseBuyerAgent).
Variables (goods : Product) (buyer_budget seller_min : Z).

Local Abbreviation state_at' := (state_at llm buyer_agent goods buyer_budget seller_min).
Local Abbreviation enters' := (enters llm buyer_agent goods buyer_budget seller_min).
Local Abbreviation round_body' :=
  (round_body llm buyer_agent (Seller.init seller_min)).

Lemma state_at_succ (k : nat) :
  state_at' (S k) =
  bind (state_at' k)
       (fun c => match c with
                 | Break e => Ok (Break e)
                 | Next s => round_body' (Z.of_nat k) s
                 end).
Proof.
  unfold state_at. destruct (opening goods buyer_budget seller_min) as [s0|x];
    [|reflexivity]. cbn [bind].
  rewrite range_succ, for_rounds_app.
  destruct (for_rounds llm buyer_agent (Seller.init seller_min) (Py.range k) s0)
    as [[e|s]|x]; simpl; try reflexivity.
  destruct (round_body' (Z.of_nat k) s) as [[e|s']|x]; reflexivity.
Qed.

Lemma state_at_break (k n : nat) (e : LoopExit) : (k <= n)%nat ->
  state_at' k = Ok (Break e) -> state_at' n = Ok (Break e).
Proof.
  intros Hle H. induction Hle as [|n Hle IH]; [exact H|].
  rewrite state_at_succ, IH. reflexivity.
Qed.

Lemma enters_step (k : nat) (s : LoopState) (c : Control) :
  enters' k s -> round_body' (Z.of_nat k) s = Ok c -> state_at' (S k) = Ok c.
Proof.
  unfold enters. intros Hs Hc. rewrite state_at_succ, Hs. simpl. exact Hc.
Qed.

Lemma enters_succ_inv (k : nat) (s' : LoopState) :
  enters' (S k) s' ->
  exists s, enters' k s /\ round_body' (Z.of_nat k) s = Ok (Next s').
Proof.
  unfold enters. rewrite state_at_succ. intros H.
  apply bind_Ok in H. destruct H as ([e|s] & Hs & H); [discriminate|].
  exists s. auto.
Qed.

Lemma negotiation_state_at :
  negotiation llm buyer_agent goods buyer_budget seller_min =
  bind (state_at' 10) (fun c => Ok (after_loop c)).
Proof.
  unfold negotiation, state_at.
  destruct (opening goods buyer_budget seller_min); reflexivity.
Qed.

Lemma negotiation_break (k : nat) (s : LoopState) (e : LoopExit) :
  (k < 10)%nat -> enters' k s -> round_body' (Z.of_nat k) s = Ok (Break e) ->
  negotiation llm buyer_agent goods buyer_budget seller_min = Ok e.
Proof.
  intros Hk Hs Hb. rewrite negotiation_state_at.
  rewrite (state_at_break (S k) 10 e); [reflexivity | lia |].
  apply (enters_step k s); assumption.
Qed.

Lemma negotiation_timeout (s : LoopState) :
  enters' 10%nat s ->
  negotiation llm buyer_agent goods buyer_budget seller_min =
  Ok {| exit_context := context s;
        exit_deal_made := false;
        exit_final_price := None |}.
Proof.
  unfold enters. intros Hs. rewrite negotiation_state_at, Hs. reflexivity.
Qed.

(** A finished state was produced by some iteration or by ten of them. *)
Lemma state_at_cases (n : nat) (c : Control) : state_at' n = Ok c ->
  match c with
  | Break e => exists k s, (k < n)%nat /\ enters' k s /\
                           round_body' (Z.of_nat k) s = Ok (Break e)
  | Next s => enters' n s
  end.
Proof.
  revert c. induction n as [|n IH]; intros c H.
  - destruct c as [e|s]; [|exact H].
    unfold state_at in H. apply bind_Ok in H. destruct H as (s0 & _ & H).
    simpl in H. discriminate.
  - rewrite state_at_succ in H. apply bind_Ok in H.
    destruct H as ([e'|s'] & Hn & H).
    + inversion H; subst c. destruct (IH _ Hn) as (k & s & Hk & Hs & Hb).
      exists k, s. split; [lia | auto].
    + specialize (IH _ Hn). simpl in IH. destruct c as [e|s].
      * exists n, s'. split; [lia | auto].
      * apply (enters_step n s'); assumption.
Qed.

Lemma negotiation_cases (e : LoopExit) :
  negotiation llm buyer_agent goods buyer_budget seller_min = Ok e ->
  (exists k s, (k < 10)%nat /\ enters' k s /\
               round_body' (Z.of_nat k) s = Ok (Break e)) \/
  (exists s, enters' 10%nat s /\ e = after_loop (Next s)).
Proof.
  rewrite negotiation_state_at. intros H. apply bind_Ok in H.
  destruct H as (c & Hc & H). inversion H; subst e; clear H.
  pose proof (state_at_cases 10 c Hc) as Hcase. destruct c as [e|s].
  - left. exact Hcase.
  - right. exists s. auto.
Qed.

End Runs.

Section Strategies.
Variable llm : NegotiationLLM.

Lemma buyer_accept_test_true (context : NegotiationContext) (seller_price : Z) :
  MockBuyerAgent.accept_test context seller_price = Ok true <->
  seller_price < your_budget context /\
  Py.lt_product seller_price (base_market_price (product context)) f0_85
    = Ok true.
Proof.
  unfold MockBuyerAgent.accept_test.
  destruct (Z.ltb_spec seller_price (your_budget context)) as [Hlt|Hge].
  - tauto.
  - split; [discriminate|]. intros [H _]. lia.
Qed.

Lemma buyer_respond_cases (context : NegotiationContext) (seller_price : Z)
    (seller_message : string) (status : DealStatus) (price : Z) (text : string) :
  MockBuyerAgent.respond_to_seller_offer llm context seller_price seller_message
    = Ok (status, price, text) ->
  (MockBuyerAgent.accept_test context seller_price = Ok true /\
   status = ACCEPTED /\ price = seller_price) \/
  (MockBuyerAgent.accept_test context seller_price = Ok false /\
   status = ONGOING /\
   exists last_offer i near,
     Py.last_item (your_offers context) = Ok last_offer /\
     Py.int_of_product last_offer f1_1 = Ok i /\
     Py.gt_product (Z.min i (your_budget context)) seller_price f0_95
       = Ok near /\
     price = if near then Z.min (seller_price - 1000) (your_budget context)
             else Z.min i (your_budget context)).
Proof.
  unfold MockBuyerAgent.respond_to_seller_offer. intros H.
  apply bind_Ok in H. destruct H as (accept & Hacc & H).
  destruct accept.
  - left. inversion H; subst. auto.
  - right. apply bind_Ok in H. destruct H as (last_offer & Hlast & H).
    apply bind_Ok in H. destruct H as (i & Hi & H).
    apply bind_Ok in H. destruct H as (near & Hnear & H).
    split; [exact Hacc|].
    destruct near; inversion H; subst; (split; [reflexivity|]);
      [exists last_offer, i, true | exists last_offer, i, false]; auto.
Qed.

Lemma buyer_respond_le_budget (context : NegotiationContext) (seller_price : Z)
    (seller_message : string) (status : DealStatus) (price : Z) (text : string) :
  MockBuyerAgent.respond_to_seller_offer llm context seller_price seller_message
    = Ok (status, price, text) ->
  price <= your_budget context.
Proof.
  intros H. apply buyer_respond_cases in H.
  destruct H as [(Hacc & _ & ->)|(_ & _ & l & i & near & _ & _ & _ & ->)].
  - apply buyer_accept_test_true in Hacc. lia.
  - destruct near; lia.
Qed.

Lemma buyer_opening_le_budget (context : NegotiationContext) (offer : Z)
    (text : string) :
  MockBuyerAgent.generate_opening_offer context = Ok (offer, text) ->
  offer <= your_budget context.
Proof.
  unfold MockBuyerAgent.generate_opening_offer. intros H.
  apply bind_Ok in H. destruct H as (i & _ & H). inversion H; subst. lia.
Qed.

Lemma seller_respond_cases (self : MockSellerAgent) (buyer_offer round_num : Z)
    (buyer_message : string) (price : Z) (text : string) (accepted : bool) :
  Seller.respond_to_buyer_offer llm self buyer_offer round_num buyer_message
    = Ok (price, text, accepted) ->
  (Py.ge_product buyer_offer (min_price self) f1_1 = Ok true /\
   accepted = true /\ price = buyer_offer) \/
  (Py.ge_product buyer_offer (min_price self) f1_1 = Ok false /\
   accepted = false /\
   exists i,
     Py.int_of_product buyer_offer (if round_num >=? 8 then f1_05 else f1_15)
       = Ok i /\
     price = Z.max (min_price self) i).
Proof.
  unfold Seller.respond_to_buyer_offer, Seller.accept_test. intros H.
  apply bind_Ok in H. destruct H as (accept & Hacc & H).
  destruct accept.
  - left. inversion H; subst. auto.
  - right. apply bind_Ok in H. destruct H as ([counter status] & Hc & H).
    inversion H; subst. split; [exact Hacc|]. split; [reflexivity|].
    destruct (round_num >=? 8); apply bind_Ok in Hc;
      destruct Hc as (i & Hi & Hc); inversion Hc; subst; eauto.
Qed.

End Strategies.

Lemma last_item_app {A : Type} (l : list A) (x : A) :
  Py.last_item (l ++ [x]) = Ok x.
Proof. unfold Py.last_item. rewrite rev_app_distr. reflexivity. Qed.

Section Rounds.
Variable llm : NegotiationLLM.
Variable seller : MockSellerAgent.

Lemma buyer_turn_cases (round : Z) (s : LoopState) (status : DealStatus)
    (offer : Z) (text : string) (ctx : NegotiationContext) :
  buyer_turn (MockBuyerAgent.agent llm) round s = Ok (status, offer, text, ctx) ->
  ctx = append_message "buyer" text
          (append_your_offer offer (set_current_round (round + 1) (context s)))
  /\
  ((round = 0 /\ status = ONGOING /\
    MockBuyerAgent.generate_opening_offer
      (set_current_round (round + 1) (context s)) = Ok (offer, text)) \/
   (round <> 0 /\
    MockBuyerAgent.respond_to_seller_offer llm
      (set_current_round (round + 1) (context s))
      (seller_price s) (seller_msg s) = Ok (status, offer, text))).
Proof.
  unfold buyer_turn. cbn [generate_opening_offer respond_to_seller_offer
                          MockBuyerAgent.agent].
  intros H. apply bind_Ok in H. destruct H as ([[st o] m] & Hb & H).
  inversion H; subst; clear H. split; [reflexivity|].
  destruct (Z.eqb_spec round 0) as [->|Hne].
  - left. apply bind_Ok in Hb. destruct Hb as ([o' m'] & Ho & Hb).
    inversion Hb; subst. auto.
  - right. auto.
Qed.

Lemma round_body_cases (buyer_agent : BaseBuyerAgent) (round : Z)
    (s : LoopState) (c : Control) :
  round_body llm buyer_agent seller round s = Ok c ->
  exists status offer text ctx,
    buyer_turn buyer_agent round s = Ok (status, offer, text, ctx) /\
    ((status = ACCEPTED /\
      c = Break {| exit_context := ctx;
                   exit_deal_made := true;
                   exit_final_price := Some (seller_price s) |}) \/
     (status <> ACCEPTED /\
      exists price reply accepted,
        Seller.respond_to_buyer_offer llm seller offer round text
          = Ok (price, reply, accepted) /\
        ((accepted = true /\
          c = Break {| exit_context := append_message "seller" reply ctx;
                       exit_deal_made := true;
                       exit_final_price := Some offer |}) \/
         (accepted = false /\
          c = Next {| context := append_message "seller" reply
                                   (append_seller_offer price ctx);
                      seller_price := price;
                      seller_msg := reply |})))).
Proof.
  unfold round_body. intros H.
  apply bind_Ok in H. destruct H as ([[[status offer] text] ctx] & Hb & H).
  exists status, offer, text, ctx. split; [exact Hb|].
  destruct status; cbn [DealStatus_eqb] in H;
    try (right; split; [discriminate|];
         apply bind_Ok in H; destruct H as ([[price reply] accepted] & Hs & H);
         exists price, reply, accepted; split; [exact Hs|];
         destruct accepted; inversion H; subst; auto).
  left. inversion H; subst. auto.
Qed.

End Rounds.

Section Invariant.
Variable llm : NegotiationLLM.
Variables (goods : Product) (buyer_budget seller_min : Z).

Local Abbreviation buyer := (MockBuyerAgent.agent llm).
Local Abbreviation inv := (run_inv goods buyer_budget seller_min).

Lemma opening_inv (s : LoopState) :
  opening goods buyer_budget seller_min = Ok s -> inv 0%nat s.
Proof.
  unfold opening. intros H. apply bind_Ok in H.
  destruct H as ([price text] & _ & H). inversion H; subst; clear H.
  unfold run_inv. cbn. repeat split; auto.
  exists price, []. auto.
Qed.

Lemma buyer_turn_inv (k : nat) (s : LoopState) (status : DealStatus)
    (offer : Z) (text : string) (ctx : NegotiationContext) :
  inv k s ->
  buyer_turn buyer (Z.of_nat k) s = Ok (status, offer, text, ctx) ->
  product ctx = goods /\
  your_budget ctx = buyer_budget /\
  current_round ctx = Z.of_nat (S k) /\
  your_offers ctx = your_offers (context s) ++ [offer] /\
  seller_offers ctx = seller_offers (context s) /\
  offer <= buyer_budget.
Proof.
  intros (Hp & Hb & Hr & Hl & Hle & Hlast & Hs) H.
  apply buyer_turn_cases in H. destruct H as [-> H]. cbn.
  repeat split; auto; [lia|].
  destruct H as [(_ & _ & H)|(_ & H)].
  - apply buyer_opening_le_budget in H. cbn in H. lia.
  - apply buyer_respond_le_budget in H. cbn in H. lia.
Qed.

Lemma round_next_inv (k : nat) (s s' : LoopState) :
  inv k s ->
  round_body llm buyer (Seller.init seller_min) (Z.of_nat k) s = Ok (Next s') ->
  inv (S k) s'.
Proof.
  intros Hinv H. apply round_body_cases in H.
  destruct H as (status & offer & text & ctx & Hb & H).
  destruct (buyer_turn_inv k s _ _ _ _ Hinv Hb) as (Hp & Hbud & Hr & Ho & Hso & Hle).
  destruct Hinv as (_ & _ & _ & Hl & Hall & _ & p0 & counters & Hs & Hcl & Hc).
  destruct H as [[_ H]|(_ & price & reply & accepted & Hsel & H)];
    [discriminate|].
  destruct H as [[_ H]|[-> H]]; [discriminate|].
  inversion H; subst s'; clear H.
  apply seller_respond_cases in Hsel.
  destruct Hsel as [(_ & Hacc & _)|(_ & _ & i & _ & Hprice)]; [discriminate|].
  cbn [min_price Seller.init] in Hprice.
  unfold run_inv. cbn. rewrite Ho, Hso, Hs.
  repeat split; auto.
  - rewrite length_app. simpl. lia.
  - apply Forall_app. auto.
  - apply (last_item_app (p0 :: counters)).
  - exists p0, (counters ++ [price]).
    repeat split; [rewrite length_app; simpl; lia|].
    apply Forall_app. split; [exact Hc|]. constructor; [lia|constructor].
Qed.

Lemma enters_inv (k : nat) : forall s,
  enters llm buyer goods buyer_budget seller_min k s -> inv k s.
Proof.
  induction k as [|k IH]; intros s H.
  - unfold enters, state_at in H. apply bind_Ok in H.
    destruct H as (s0 & Hs0 & H). cbn in H. inversion H; subst.
    apply opening_inv. exact Hs0.
  - apply enters_succ_inv in H. destruct H as (s1 & Hs1 & Hr).
    apply (round_next_inv k s1); auto.
Qed.

Lemma round_break_inv (k : nat) (s : LoopState) (e : LoopExit) :
  (k < 10)%nat -> inv k s ->
  round_body llm buyer (Seller.init seller_min) (Z.of_nat k) s = Ok (Break e) ->
  exit_inv goods buyer_budget seller_min e /\
  current_round (exit_context e) = Z.of_nat k + 1 /\
  exit_deal_made e = true.
Proof.
  intros Hk Hinv H. apply round_body_cases in H.
  destruct H as (status & offer & text & ctx & Hb & H).
  destruct (buyer_turn_inv k s _ _ _ _ Hinv Hb) as (Hp & Hbud & Hr & Ho & Hso & Hle).
  destruct Hinv as (_ & _ & _ & Hl & Hall & _ & p0 & counters & Hs & Hcl & Hc).
  assert (Hfields :
    exit_deal_made e = true /\
    product (exit_context e) = goods /\
    your_budget (exit_context e) = buyer_budget /\
    current_round (exit_context e) = Z.of_nat (S k) /\
    your_offers (exit_context e) = your_offers (context s) ++ [offer] /\
    seller_offers (exit_context e) = seller_offers (context s)).
  { destruct H as [[_ H]|(_ & price & reply & accepted & _ & [[_ H]|[_ H]])];
      [| |discriminate]; inversion H; subst e; cbn; auto 10. }
  destruct Hfields as (Hd & E1 & E2 & E3 & E4 & E5).
  split; [|split; [lia | exact Hd]].
  unfold exit_inv. rewrite E1, E2, E3, E4, E5, Hs.
  repeat split; auto; try lia.
  - rewrite length_app. simpl. lia.
  - apply Forall_app. auto.
  - exists p0, counters. auto.
Qed.

Lemma negotiation_exit_inv (e : LoopExit) :
  negotiation llm buyer goods buyer_budget seller_min = Ok e ->
  exit_inv goods buyer_budget seller_min e.
Proof.
  intros H. apply negotiation_cases in H.
  destruct H as [(k & s & Hk & Hs & Hb)|(s & Hs & ->)].
  - apply enters_inv in Hs. apply (round_break_inv k s e Hk Hs Hb).
  - apply enters_inv in Hs.
    destruct Hs as (Hp & Hb & Hr & Hl & Hall & _ & p0 & counters & Hs & _ & Hc).
    unfold exit_inv. cbn. rewrite Hr, Hl. repeat split; auto; try lia.
    exists p0, counters. auto.
Qed.

End Invariant.

(** * Runs on inputs in range *)

Lemma control_bounded_mono (m m' : Z) (c : Control) :
  m <= m' -> control_bounded m c -> control_bounded m' c.
Proof.
  intros Hm. destruct c as [e|s]; cbn.
  - intros (p & Hp & Hle). exists p. split; [exact Hp | lia].
  - intros [H1 H2]. split; [lia|]. intros o Ho. specialize (H2 o Ho). lia.
Qed.

Lemma literals_ok :
  Forall (fun c => literal_ok c = true /\ (F2Q c <= 3 # 2)%Q)
         [f0_6; f0_85; f0_95; f1_05; f1_1; f1_15; f1_5].
Proof.
  repeat constructor; try reflexivity;
    apply Qle_bool_iff; vm_compute; reflexivity.
Qed.

Lemma one_le_literals : (1 <= F2Q f1_05)%Q /\ (1 <= F2Q f1_15)%Q.
Proof. split; apply Qle_bool_iff; vm_compute; reflexivity. Qed.

Lemma last_item_nonempty {A : Type} (l : list A) :
  l <> [] -> exists x, Py.last_item l = Ok x.
Proof.
  intros H. destruct l as [|a l] using rev_ind; [contradiction|].
  exists a. apply last_item_app.
Qed.

Section Totality.
Variable llm : NegotiationLLM.

Lemma int_of_product_total (z : Z) (c : Py.float) :
  In c [f0_6; f0_85; f0_95; f1_05; f1_1; f1_15; f1_5] ->
  Z.abs z < 2 ^ 960 ->
  exists i, Py.int_of_product z c = Ok i /\ Z.abs i <= 2 * Z.abs z.
Proof.
  intros Hin Hz. pose proof literals_ok as H.
  rewrite Forall_forall in H. destruct (H c Hin) as [Hc HC].
  apply int_of_product_in_range; assumption.
Qed.

Lemma literal_In_ok (c : Py.float) :
  In c [f0_6; f0_85; f0_95; f1_05; f1_1; f1_15; f1_5] -> literal_ok c = true.
Proof.
  intros Hin. pose proof literals_ok as H.
  rewrite Forall_forall in H. apply (H c Hin).
Qed.

Lemma buyer_opening_total (context : NegotiationContext) :
  Z.abs (base_market_price (product context)) < 2 ^ 960 ->
  exists offer text,
    MockBuyerAgent.generate_opening_offer context = Ok (offer, text) /\
    Z.abs offer <= Z.max (2 * Z.abs (base_market_price (product context)))
                         (Z.abs (your_budget context)).
Proof.
  intros Hb. unfold MockBuyerAgent.generate_opening_offer.
  destruct (int_of_product_total (base_market_price (product context)) f0_6)
    as (i & -> & Hi); [simpl; auto 10 | exact Hb |].
  cbn [bind]. do 2 eexists. split; [reflexivity|]. lia.
Qed.

Lemma buyer_respond_total (context : NegotiationContext) (seller_price : Z)
    (seller_message : string) (last_offer m : Z) :
  Z.abs (base_market_price (product context)) < 2 ^ 960 ->
  m < 2 ^ 959 -> 1000 <= m ->
  Z.abs seller_price <= m -> Z.abs (your_budget context) <= m ->
  Py.last_item (your_offers context) = Ok last_offer ->
  Z.abs last_offer <= m ->
  exists status price text,
    MockBuyerAgent.respond_to_seller_offer llm context seller_price
      seller_message = Ok (status, price, text) /\
    Z.abs price <= 2 * m.
Proof.
  intros Hbase Hm Hk Hsp Hbud Hlast Hlo.
  unfold MockBuyerAgent.respond_to_seller_offer, MockBuyerAgent.accept_test.
  assert (Hacc : exists b,
    (if seller_price <? your_budget context
     then Py.lt_product seller_price (base_market_price (product context)) f0_85
     else Ok false) = Ok b).
  { destruct (seller_price <? your_budget context); [|eauto].
    apply lt_product_in_range; [reflexivity | exact Hbase]. }
  destruct Hacc as [b ->]. cbn [bind]. destruct b.
  - do 3 eexists. split; [reflexivity|]. lia.
  - rewrite Hlast. cbn [bind].
    destruct (int_of_product_total last_offer f1_1) as (i & -> & Hi);
      [simpl; auto 10 | lia |]. cbn [bind].
    destruct (gt_product_in_range (Z.min i (your_budget context)) seller_price
                f0_95) as [near ->]; [reflexivity | lia |]. cbn [bind].
    destruct near; do 3 eexists; (split; [reflexivity|]); lia.
Qed.

Lemma seller_respond_total (self : MockSellerAgent) (buyer_offer round_num : Z)
    (buyer_message : string) :
  Z.abs (min_price self) < 2 ^ 960 -> Z.abs buyer_offer < 2 ^ 960 ->
  exists price text accepted,
    Seller.respond_to_buyer_offer llm self buyer_offer round_num buyer_message
      = Ok (price, text, accepted) /\
    Z.abs price <= Z.max (Z.abs (min_price self)) (2 * Z.abs buyer_offer).
Proof.
  intros Hmin Ho. unfold Seller.respond_to_buyer_offer, Seller.accept_test.
  destruct (ge_product_in_range buyer_offer (min_price self) f1_1)
    as [b ->]; [reflexivity | exact Hmin |]. cbn [bind]. destruct b.
  - do 3 eexists. split; [reflexivity|]. lia.
  - destruct (round_num >=? 8).
    + destruct (int_of_product_total buyer_offer f1_05) as (i & -> & Hi);
        [simpl; auto 10 | exact Ho |]. cbn [bind].
      do 3 eexists. split; [reflexivity|]. lia.
    + destruct (int_of_product_total buyer_offer f1_15) as (i & -> & Hi);
        [simpl; auto 10 | exact Ho |]. cbn [bind].
      do 3 eexists. split; [reflexivity|]. lia.
Qed.

Variables (goods : Product) (buyer_budget seller_min : Z).
Hypothesis base_in_range : Z.abs (base_market_price goods) < 2 ^ 900.
Hypothesis budget_in_range : Z.abs buyer_budget < 2 ^ 900.
Hypothesis min_in_range : Z.abs seller_min < 2 ^ 900.

Lemma opening_total :
  exists s, opening goods buyer_budget seller_min = Ok s /\
            bounded (2 ^ 910) s.
Proof.
  unfold opening, Seller.get_opening_price.
  destruct (int_of_product_total (base_market_price goods) f1_5)
    as (i & -> & Hi); [simpl; auto 10 | lia |]. cbn [bind].
  eexists. split; [reflexivity|]. unfold bounded.
  cbn [seller_price context your_offers append_message append_seller_offer].
  split; [lia|]. intros o H. discriminate.
Qed.

Lemma round_total (k : nat) (s : LoopState) (m : Z) :
  run_inv goods buyer_budget seller_min k s -> bounded m s ->
  2 ^ 910 <= m <= 2 ^ 930 ->
  exists c,
    round_body llm (MockBuyerAgent.agent llm) (Seller.init seller_min)
      (Z.of_nat k) s = Ok c /\
    control_bounded (4 * m) c.
Proof.
  intros (Hp & Hb & Hr & Hl & _) [Hsp Hlast] Hm.
  assert (Hturn : exists status offer text,
    buyer_turn (MockBuyerAgent.agent llm) (Z.of_nat k) s
      = Ok (status, offer, text,
            append_message "buyer" text
              (append_your_offer offer
                 (set_current_round (Z.of_nat k + 1) (context s)))) /\
    Z.abs offer <= 2 * m).
  { unfold buyer_turn.
    cbn [generate_opening_offer respond_to_seller_offer MockBuyerAgent.agent].
    destruct (Z.eqb_spec (Z.of_nat k) 0) as [E|E].
    - destruct (buyer_opening_total
                  (set_current_round (Z.of_nat k + 1) (context s)))
        as (offer & text & -> & Ho); [cbn; rewrite Hp; lia|].
      unfold set_current_round in Ho.
      cbn [product your_budget] in Ho.
      rewrite Hp, Hb in Ho. cbn [bind].
      exists ONGOING, offer, text. split; [reflexivity | lia].
    - destruct (last_item_nonempty (your_offers (context s))) as [last Hlo].
      { intros E'. rewrite E' in Hl. simpl in Hl. lia. }
      destruct (buyer_respond_total
                  (set_current_round (Z.of_nat k + 1) (context s))
                  (seller_price s) (seller_msg s) last m)
        as (status & offer & text & -> & Ho);
        [ cbn [product set_current_round]; rewrite Hp; lia
        | lia | lia | exact Hsp
        | cbn [your_budget set_current_round]; rewrite Hb; lia
        | exact Hlo | apply Hlast; exact Hlo | ].
      cbn [bind]. exists status, offer, text. split; [reflexivity | lia]. }
  destruct Hturn as (status & offer & text & Hturn & Ho).
  unfold round_body. rewrite Hturn. cbn [bind].
  destruct (DealStatus_eqb status ACCEPTED).
  - eexists. split; [reflexivity|]. cbn [control_bounded exit_final_price].
    eexists. split; [reflexivity | lia].
  - destruct (seller_respond_total (Seller.init seller_min) offer (Z.of_nat k)
                text) as (price & reply & accepted & -> & Hprice);
      [cbn; lia | lia |]. cbn [bind]. cbn [min_price Seller.init] in Hprice.
    destruct accepted.
    + eexists. split; [reflexivity|]. cbn [control_bounded exit_final_price].
      eexists. split; [reflexivity | lia].
    + eexists. split; [reflexivity|]. unfold control_bounded, bounded.
      cbn [seller_price context your_offers append_message
           append_seller_offer append_your_offer set_current_round].
      split; [lia|].
      intros o Hlo. rewrite last_item_app in Hlo. inversion Hlo; subst. lia.
Qed.

Lemma state_total (k : nat) : (k <= 10)%nat ->
  exists c,
    state_at llm (MockBuyerAgent.agent llm) goods buyer_budget seller_min k
      = Ok c /\
    control_bounded (2 ^ 910 * 4 ^ Z.of_nat k) c.
Proof.
  induction k as [|k IH]; intros Hk.
  - destruct opening_total as (s & Hs & Hbd).
    exists (Next s). unfold state_at. rewrite Hs. split; [reflexivity|].
    exact Hbd.
  - destruct IH as (c & Hc & Hbd); [lia|].
    assert (Hm : 2 ^ 910 <= 2 ^ 910 * 4 ^ Z.of_nat k <= 2 ^ 930).
    { split.
      - assert (0 < 4 ^ Z.of_nat k) by (apply Z.pow_pos_nonneg; lia). nia.
      - change (2 ^ 930) with (2 ^ 910 * 4 ^ 10).
        apply Z.mul_le_mono_nonneg_l; [lia|]. apply Z.pow_le_mono_r; lia. }
    assert (E : 2 ^ 910 * 4 ^ Z.of_nat (S k)
                = 4 * (2 ^ 910 * 4 ^ Z.of_nat k))
      by (rewrite Nat2Z.inj_succ, Z.pow_succ_r by lia; ring).
    rewrite state_at_succ, Hc. cbn [bind]. destruct c as [e|s].
    + eexists. split; [reflexivity|].
      apply (control_bounded_mono (2 ^ 910 * 4 ^ Z.of_nat k)); [lia | exact Hbd].
    + assert (Hinv : run_inv goods buyer_budget seller_min k s)
        by (apply (enters_inv llm); exact Hc).
      destruct (round_total k s _ Hinv Hbd Hm) as (c & Hr & Hc').
      exists c. split; [exact Hr|]. rewrite E. exact Hc'.
Qed.

Lemma negotiation_total :
  exists e,
    negotiation llm (MockBuyerAgent.agent llm) goods buyer_budget seller_min
      = Ok e /\
    (exit_deal_made e = false \/
     exists p, exit_final_price e = Some p /\ Z.abs p <= 2 ^ 930).
Proof.
  destruct (state_total 10) as (c & Hc & Hbd); [lia|].
  rewrite negotiation_state_at, Hc. eexists. split; [reflexivity|].
  destruct c as [e|s]; cbn [after_loop exit_deal_made];
    [right | left; reflexivity].
  cbn [control_bounded] in Hbd. destruct Hbd as (p & Hp & Hle).
  exists p. split; [exact Hp|]. change (4 ^ Z.of_nat 10) with (4 ^ 10) in Hle.
  lia.
Qed.

Lemma run_total :
  buyer_budget <> 0 -> base_market_price goods <> 0 ->
  exists o,
    run_negotiation_test llm (MockBuyerAgent.agent llm) goods buyer_budget
      seller_min = Ok o.
Proof.
  intros Hb Hp. destruct negotiation_total as (e & He & Hcase).
  unfold run_negotiation_test. rewrite He. cbn [bind]. unfold outcome.
  destruct (exit_deal_made e); [|eexists; reflexivity].
  destruct Hcase as [H|(p & -> & Hle)]; [discriminate|].
  destruct (percent_below_total buyer_budget p Hb) as [sp ->]; [lia|].
  destruct (percent_below_total (base_market_price goods) p Hp) as [bp ->];
    [lia|].
  eexists. reflexivity.
Qed.

End Totality.

(** * Rounding and the integers

    A product below [2 ^ 53] is rounded on a grid that contains every
    integer, so rounding never carries it across an integer. *)

Section Grid.

(** The mantissa [binary_round_aux] returns, before renormalisation. *)
Lemma binary_round_aux_grid (s : bool) (m e : Z) :
  0 < m -> -1074 <= e -> e + Z.max 0 (Zdigits2 m - 53) <= 970 ->
  exists m2 mf ef,
    m / 2 ^ Z.max 0 (Zdigits2 m - 53) <= m2
      <= m / 2 ^ Z.max 0 (Zdigits2 m - 53) + 1 /\
    (Zdigits2 m <= 53 -> m2 = m /\ ef = e) /\
    binary_round_aux Py.prec Py.emax s m e loc_Exact = S754_finite s mf ef /\
    e + Z.max 0 (Zdigits2 m - 53) <= ef /\
    Zpos mf * 2 ^ (ef - (e + Z.max 0 (Zdigits2 m - 53))) = m2.
Proof.
  intros Hm He Hfin.
  pose proof (Zdigits2_log2 m Hm) as Hd.
  pose proof (Z.log2_spec m Hm) as Hl.
  destruct (Z_le_gt_dec (Zdigits2 m) 53) as [Hs|Hb].
  - exists m, (Z.to_pos m), e.
    rewrite Z.max_l by lia. rewrite Z.pow_0_r, Z.div_1_r, Z.add_0_r.
    split; [lia|]. split; [auto|]. split.
    + unfold binary_round_aux.
      rewrite shr_fexp_exact by (rewrite fexp_eq; lia). simpl.
      rewrite shr_fexp_exact by (rewrite fexp_eq; lia). simpl.
      destruct m; try lia.
      destruct (Z.leb_spec e 971) as [_|]; [reflexivity | lia].
    + split; [lia|]. rewrite Z.sub_diag, Z.pow_0_r, Z2Pos.id by lia. lia.
  - destruct (binary_round_aux_steps s m e loc_Exact) as [m2 [Hr H]]; [lia|].
    set (d := Zdigits2 m) in *.
    rewrite Z.max_r by lia. rewrite Z.max_r in Hfin by lia.
    assert (Hn1 : shift_amount m e = d - 53)
      by (unfold shift_amount; rewrite fexp_eq; fold d; lia).
    rewrite Hn1 in Hr, H.
    assert (Hp : 2 ^ (d - 1) = 2 ^ 52 * 2 ^ (d - 53))
      by (rewrite <- Z.pow_add_r by lia; f_equal; lia).
    assert (Hp' : 2 ^ d = 2 ^ 53 * 2 ^ (d - 53))
      by (rewrite <- Z.pow_add_r by lia; f_equal; lia).
    assert (Hq : 0 < 2 ^ (d - 53)) by (apply Z.pow_pos_nonneg; lia).
    replace (Z.log2 m) with (d - 1) in Hl by lia.
    replace (Z.succ (d - 1)) with d in Hl by lia.
    assert (H1 : 2 ^ 52 <= m / 2 ^ (d - 53) < 2 ^ 53).
    { split.
      - apply Z.div_le_lower_bound; lia.
      - apply Z.div_lt_upper_bound; lia. }
    assert (Hm2 : 0 < m2) by lia.
    assert (Hd2 : Zdigits2 m2 = 53 \/ m2 = 2 ^ 53).
    { destruct (Z.eq_dec m2 (2 ^ 53)) as [->|Hne]; [right; reflexivity|left].
      rewrite Zdigits2_log2 by assumption.
      assert (Z.log2 m2 = 52); [|lia].
      apply Z.log2_unique; [lia|]. change (52 + 1) with 53. lia. }
    destruct Hd2 as [Hd2|Hd2].
    + exists m2, (Z.to_pos m2), (e + (d - 53)).
      assert (Hn2 : shift_amount m2 (e + (d - 53)) = 0)
        by (unfold shift_amount; rewrite fexp_eq, Hd2; lia).
      rewrite Hn2, Z.pow_0_r, Z.div_1_r, Z.add_0_r in H.
      split; [exact Hr|]. split; [lia|]. split.
      * rewrite H. unfold classify. destruct m2; try lia.
        destruct (Z.leb_spec (e + (d - 53)) 971) as [_|]; [reflexivity | lia].
      * split; [lia|]. rewrite Z.sub_diag, Z.pow_0_r, Z2Pos.id by lia. lia.
    + exists m2, (Z.to_pos (2 ^ 52)), (e + (d - 53) + 1). subst m2.
      assert (Hn2 : shift_amount (2 ^ 53) (e + (d - 53)) = 1).
      { unfold shift_amount. rewrite fexp_eq.
        replace (Zdigits2 (2 ^ 53)) with 54 by reflexivity. lia. }
      rewrite Hn2 in H.
      split; [exact Hr|]. split; [lia|]. split.
      * rewrite H. unfold classify.
        change (2 ^ 53 / 2 ^ 1) with (2 ^ 52).
        destruct (Z.leb_spec (e + (d - 53) + 1) 971) as [_|]; [|lia].
        reflexivity.
      * split; [lia|].
        replace (e + (d - 53) + 1 - (e + (d - 53))) with 1 by lia.
        reflexivity.
Qed.

Local Open Scope Q_scope.

Lemma scaled_le (a b e : Z) : (e <= 0)%Z ->
  (inject_Z a <= inject_Z b * pow2 e <-> (a * 2 ^ (- e) <= b)%Z) /\
  (inject_Z b * pow2 e <= inject_Z a <-> (b <= a * 2 ^ (- e))%Z) /\
  (inject_Z b * pow2 e < inject_Z a <-> (b < a * 2 ^ (- e))%Z).
Proof.
  intros He. destruct e as [|k|k]; [| lia |].
  - change (pow2 0) with 1. rewrite Qmult_1_r.
    change (- 0)%Z with 0%Z. rewrite Z.pow_0_r, Z.mul_1_r.
    rewrite Zle_Qle, Zle_Qle, Zlt_Qlt. tauto.
  - change (- Z.neg k)%Z with (Z.pos k).
    destruct (scaled_neg a b k) as (H1 & _ & H3 & H4).
    rewrite Zle_Qle, Zle_Qle, Zlt_Qlt, !inject_Z_mult. tauto.
Qed.

(** Rounding a value below [2 ^ 53] never crosses an integer. *)
Lemma round_grid (s : bool) (m e : Z) :
  (0 < m)%Z -> (-1074 <= e <= 0)%Z -> (Zdigits2 m + e <= 53)%Z ->
  exists mf ef,
    binary_round_aux Py.prec Py.emax s m e loc_Exact = S754_finite s mf ef /\
    ((Zdigits2 m <= 53)%Z -> Zpos mf = m /\ ef = e) /\
    forall T : Z,
      (inject_Z T <= inject_Z m * pow2 e -> inject_Z T <= magnitude mf ef) /\
      (inject_Z m * pow2 e < inject_Z T -> magnitude mf ef <= inject_Z T).
Proof.
  intros Hm He Hd.
  set (n := Z.max 0 (Zdigits2 m - 53)).
  assert (Hn : (0 <= n)%Z) by (unfold n; lia).
  assert (Hg : (e + n <= 0)%Z) by (unfold n; lia).
  destruct (binary_round_aux_grid s m e Hm (proj1 He))
    as (m2 & mf & ef & Hr & Hex & Hres & Hef & Hm2); [fold n; lia|].
  fold n in Hr, Hef, Hm2.
  exists mf, ef. split; [exact Hres|]. split.
  { intros Hs. destruct (Hex Hs) as [E1 E2]. split; [|exact E2].
    rewrite E1, E2 in Hm2. unfold n in Hm2. rewrite Z.max_l in Hm2 by lia.
    rewrite Z.add_0_r, Z.sub_diag, Z.pow_0_r in Hm2. lia. }
  assert (HV : magnitude mf ef == inject_Z m2 * pow2 (e + n)).
  { unfold magnitude. rewrite <- Hm2, inject_Z_mult, pow2_inject by lia.
    rewrite <- Qmult_assoc, <- pow2_add.
    replace (ef - (e + n) + (e + n))%Z with ef by lia. reflexivity. }
  assert (Hpn : (0 < 2 ^ n)%Z) by (apply Z.pow_pos_nonneg; lia).
  assert (Hpow : (2 ^ (- e) = 2 ^ (- (e + n)) * 2 ^ n)%Z).
  { rewrite <- Z.pow_add_r by lia. f_equal. lia. }
  intros T. rewrite HV.
  destruct (scaled_le T m e (proj2 He)) as (L1 & _ & L3).
  destruct (scaled_le T m2 (e + n) Hg) as (M1 & M2 & _).
  split; intros H.
  - apply M1. apply L1 in H. rewrite Hpow in H.
    assert (T * 2 ^ (- (e + n)) <= m / 2 ^ n)%Z; [|lia].
    apply Z.div_le_lower_bound; [exact Hpn | lia].
  - apply M2. apply L3 in H. rewrite Hpow in H.
    assert (m / 2 ^ n < T * 2 ^ (- (e + n)))%Z; [|lia].
    apply Z.div_lt_upper_bound; [exact Hpn | lia].
Qed.

(** An integer below [2 ^ 53] is a float. *)
Lemma float_of_int_exact (p : positive) :
  (Zpos p < 2 ^ 53)%Z ->
  exists mf ef,
    Py.float_of_int (Zpos p) = Ok (S754_finite false mf ef) /\
    magnitude mf ef == inject_Z (Zpos p) /\ (-52 <= ef <= 0)%Z.
Proof.
  intros Hp. unfold Py.float_of_int. simpl binary_normalize.
  unfold binary_round.
  destruct (shl_align_spec p 0 (fexp Py.prec Py.emax (Zpos (digits2_pos p) + 0)))
    as (k & Hk & -> & Hmin).
  change (Zpos (digits2_pos p)) with (Zdigits2 (Zpos p)) in Hmin.
  rewrite fexp_eq in Hmin.
  pose proof (Zdigits2_log2 (Zpos p) eq_refl) as Hd.
  pose proof (Z.log2_nonneg (Zpos p)) as Hnn.
  assert (Hl : (Z.log2 (Zpos p) < 53)%Z) by (apply Z.log2_lt_pow2; lia).
  assert (Hpk : (0 < 2 ^ k)%Z) by (apply Z.pow_pos_nonneg; lia).
  assert (Hmz : (0 < Zpos p * 2 ^ k)%Z) by (apply Z.mul_pos_pos; lia).
  rewrite Z2Pos.id by assumption.
  assert (Hdig : Zdigits2 (Zpos p * 2 ^ k) = (Zdigits2 (Zpos p) + k)%Z).
  { rewrite Zdigits2_log2, Z.log2_mul_pow2 by lia. lia. }
  destruct (round_grid false (Zpos p * 2 ^ k) (0 - k))
    as (mf & ef & Hr & Hex & _); [assumption | lia | lia |].
  destruct Hex as [E1 E2]; [lia|].
  rewrite Hr. exists mf, ef. split; [reflexivity|]. split; [|lia].
  unfold magnitude. rewrite E1, E2.
  rewrite inject_Z_mult, pow2_inject by lia.
  rewrite <- Qmult_assoc, <- pow2_add.
  replace (k + (0 - k))%Z with 0%Z by lia. change (pow2 0) with 1. ring.
Qed.

(** The product of a price below [2 ^ 50] and a literal is never rounded
    across an integer. *)
Lemma product_grid (z : Z) (c t : Py.float) :
  literal_ok c = true -> (0 < z < 2 ^ 50)%Z ->
  Py.int_mul_float z c = Ok t ->
  is_number t /\
  forall T : Z,
    (inject_Z T <= inject_Z z * F2Q c -> inject_Z T <= F2Q t) /\
    (inject_Z z * F2Q c < inject_Z T -> F2Q t <= inject_Z T).
Proof.
  intros Hc [Hz0 Hz] Ht.
  destruct (literal_ok_spec c Hc) as (mc & ec & -> & Hec & Hmag).
  destruct z as [|p|p]; try lia.
  assert (H53 : (2 ^ 50 < 2 ^ 53)%Z) by (apply Z.pow_lt_mono_r; lia).
  destruct (float_of_int_exact p) as (mx & ex & Hf & Hv & Hex); [lia|].
  unfold Py.int_mul_float in Ht. rewrite Hf in Ht. cbn [bind] in Ht.
  inversion Ht as [Ht']; clear Ht.
  unfold Py.fmul, SFmul. cbn [xorb].
  pose proof (magnitude_mul mx mc ex ec) as HV.
  assert (Hlt : inject_Z (Zpos (mx * mc)) * pow2 (ex + ec) < pow2 53).
  { rewrite HV, Hv.
    assert (Hq : inject_Z (Zpos p) < inject_Z (2 ^ 50)%Z)
      by (rewrite <- Zlt_Qlt; exact Hz).
    rewrite pow2_inject in Hq by lia.
    assert (H3 : pow2 53 == pow2 50 * 8).
    { change 53%Z with (50 + 3)%Z. rewrite pow2_add. reflexivity. }
    rewrite H3. pose proof (pow2_pos 50) as HP.
    pose proof (magnitude_pos mc ec) as HC.
    assert (0 < inject_Z (Zpos p))
      by (change 0 with (inject_Z 0); rewrite <- Zlt_Qlt; lia).
    apply Qlt_trans with (pow2 50 * 2); [|lra].
    apply Qmult_lt_compat_nonneg; lra. }
  destruct (round_grid false (Zpos (mx * mc)) (ex + ec))
    as (mf & ef & Hr & _ & Hgrid);
    [ reflexivity | lia
    | apply digits_of_magnitude; [reflexivity | exact Hlt] | ].
  rewrite Hr. split; [exact I|].
  intros T. cbn [F2Q]. specialize (Hgrid T).
  rewrite HV, Hv in Hgrid. exact Hgrid.
Qed.

End Grid.

(** * Products in exact arithmetic *)

Section Exact.
Local Open Scope Q_scope.

Lemma scale_lo (k d c x y : Q) :
  k <= d * c -> 0 <= x -> d * (x * c) <= y -> k * x <= y.
Proof. intros. nra. Qed.

Lemma scale_hi (k d c x y : Q) :
  d * c <= k -> 0 <= x -> y <= d * (x * c) -> y <= k * x.
Proof. intros. nra. Qed.

Lemma scale_lit_le (c k x : Q) : c <= k -> 0 <= x -> x * c <= x * k.
Proof. intros. nra. Qed.

Lemma scale_lit_lt (c k x : Q) : c < k -> 0 < x -> x * c < x * k.
Proof. intros. nra. Qed.

Lemma inject_nonneg (z : Z) : (0 <= z)%Z -> 0 <= inject_Z z.
Proof. intros H. change 0 with (inject_Z 0). rewrite <- Zle_Qle. exact H. Qed.

Lemma inject_pos (z : Z) : (0 < z)%Z -> 0 < inject_Z z.
Proof. intros H. change 0 with (inject_Z 0). rewrite <- Zlt_Qlt. exact H. Qed.

Lemma inject_below (z : Z) : (z < 2 ^ 40)%Z -> inject_Z z < 1099511627776.
Proof.
  intros H. change 1099511627776 with (inject_Z (2 ^ 40)).
  rewrite <- Zlt_Qlt. exact H.
Qed.

(** The float literals against the decimals they stand for. *)
Lemma literal_decimals :
  F2Q f0_85 < 17 # 20 /\ 21 # 20 <= F2Q f1_05 /\ F2Q f1_15 < 23 # 20 /\
  F2Q f1_5 == 3 # 2 /\ 11 # 10 <= F2Q f1_1.
Proof.
  split; [reflexivity|]. split; [apply Qle_bool_iff; reflexivity|].
  split; [reflexivity|]. split; [reflexivity|].
  apply Qle_bool_iff. reflexivity.
Qed.

(** Two roundings move a product by less than [2 ^ -47] of the price. *)
Lemma literal_margins :
  (17 # 20) - (1 # 140737488355328) <= (1 - delta) * F2Q f0_85 /\
  (1 + delta) * F2Q f1_05 <= (21 # 20) + (1 # 140737488355328) /\
  (23 # 20) - (1 # 140737488355328) <= (1 - delta) * F2Q f1_15 /\
  (1 + delta) * F2Q f1_15 <= (23 # 20) + (1 # 140737488355328) /\
  (1 + delta) * F2Q f1_5 <= (3 # 2) + (1 # 140737488355328) /\
  (11 # 10) - (1 # 140737488355328) <= (1 - delta) * F2Q f1_1 /\
  (1 + delta) * F2Q f1_1 <= (11 # 10) + (1 # 140737488355328).
Proof. repeat split; apply Qle_bool_iff; vm_compute; reflexivity. Qed.

(** The product of a price from 0 to below [2 ^ 40] and a literal. *)
Lemma product_in_range (z : Z) (c : Py.float) :
  literal_ok c = true -> (0 <= z < 2 ^ 40)%Z ->
  exists t,
    Py.int_mul_float z c = Ok t /\ is_number t /\ 0 <= F2Q t /\
    (1 - delta) * (inject_Z z * F2Q c) <= F2Q t /\
    F2Q t <= (1 + delta) * (inject_Z z * F2Q c) /\
    forall T : Z,
      (inject_Z T <= inject_Z z * F2Q c -> inject_Z T <= F2Q t) /\
      (inject_Z z * F2Q c < inject_Z T -> F2Q t <= inject_Z T).
Proof.
  intros Hc [Hz0 Hz].
  assert (H960 : (2 ^ 40 < 2 ^ 50)%Z) by (apply Z.pow_lt_mono_r; lia).
  assert (H50 : (2 ^ 50 < 2 ^ 960)%Z) by (apply Z.pow_lt_mono_r; lia).
  destruct (int_mul_float_in_range z c Hc) as (t & Ht & Hn); [lia|].
  exists t. split; [exact Ht|]. split; [exact Hn|].
  destruct (int_mul_float_value z c t Hc Ht) as [->|[(_ & Hv & _) Hsign]];
    [contradiction|].
  destruct (Hv Hz0) as [Hlo Hhi].
  assert (Hpos : 0 <= F2Q t).
  { destruct (literal_ok_spec c Hc) as (mc & ec & E & _ & _).
    pose proof (inject_nonneg z Hz0) as Hq.
    assert (HC : 0 < F2Q c) by (rewrite E; apply magnitude_pos).
    assert (0 <= (1 - delta) * (inject_Z z * F2Q c)); [|lra].
    apply Qmult_le_0_compat; [unfold delta; lra|].
    apply Qmult_le_0_compat; lra. }
  split; [exact Hpos|]. split; [exact Hlo|]. split; [exact Hhi|].
  destruct (Z.eq_dec z 0) as [->|Hne].
  - destruct t as [s|s| |s m e]; try contradiction.
    + intros T. cbn [F2Q]. change (inject_Z 0) with 0.
      rewrite Qmult_0_l. split; intros H; lra.
    + destruct Hsign as [_ Hs]. contradiction.
  - destruct (product_grid z c t Hc) as [_ Hgrid]; [lia | exact Ht|].
    exact Hgrid.
Qed.

(** [int] of a number that is not negative. *)
Lemma int_of_number (t : Py.float) : is_number t -> 0 <= F2Q t ->
  exists i, Py.int_of_float t = Ok i /\
            inject_Z i <= F2Q t /\ F2Q t < inject_Z i + 1.
Proof.
  intros Hn Hpos. destruct t as [s|s| |s m e]; try contradiction.
  - exists 0%Z. split; [reflexivity|]. cbn [F2Q]. change (inject_Z 0) with 0.
    lra.
  - destruct (Py.int_of_float (S754_finite s m e)) as [i|x] eqn:E;
      [|discriminate].
    exists i. split; [reflexivity|].
    destruct (int_of_float_spec _ _ E) as [H _]. apply H. exact Hpos.
Qed.

Lemma between_integers (i T : Z) (x : Q) :
  inject_Z i <= x -> x < inject_Z i + 1 ->
  inject_Z T <= x -> x < inject_Z T + 1 -> i = T.
Proof.
  intros H1 H2 H3 H4.
  assert (inject_Z i < inject_Z (T + 1))
    by (rewrite inject_Z_plus; change (inject_Z 1) with 1; lra).
  assert (inject_Z T < inject_Z (i + 1))
    by (rewrite inject_Z_plus; change (inject_Z 1) with 1; lra).
  rewrite <- Zlt_Qlt in *. lia.
Qed.

End Exact.

Section ExactProducts.
Local Open Scope Q_scope.

(** [y / 20] in the integers, as rational bounds. *)
Lemma div_bounds (y : Z) :
  20 * inject_Z (y / 20) <= inject_Z y /\
  inject_Z y < 20 * inject_Z (y / 20) + 20.
Proof.
  pose proof (Z.mul_div_le y 20 eq_refl) as Hlo.
  pose proof (Z.mul_succ_div_gt y 20 eq_refl) as Hhi.
  unfold Z.succ in Hhi.
  rewrite Zle_Qle in Hlo. rewrite Zlt_Qlt in Hhi.
  rewrite inject_Z_mult in Hlo. rewrite inject_Z_mult, inject_Z_plus in Hhi.
  change (inject_Z 20) with 20 in *. change (inject_Z 1) with 1 in *.
  split; lra.
Qed.

(** When twenty does not divide [y], [y / 20] is a twentieth away from
    the integers around it. *)
Lemma div_gap (y : Z) : (y mod 20 <> 0)%Z ->
  20 * inject_Z (y / 20) + 1 <= inject_Z y /\
  inject_Z y <= 20 * inject_Z (y / 20) + 19.
Proof.
  intros Hmod.
  pose proof (Z.div_mod y 20) as Hdm.
  pose proof (Z.mod_pos_bound y 20 eq_refl) as Hb.
  assert (H1 : (20 * (y / 20) + 1 <= y)%Z) by lia.
  assert (H2 : (y <= 20 * (y / 20) + 19)%Z) by lia.
  rewrite Zle_Qle in H1, H2.
  rewrite inject_Z_plus, inject_Z_mult in H1, H2.
  change (inject_Z 20) with 20 in *. change (inject_Z 1) with 1 in *.
  change (inject_Z 19) with 19 in *.
  split; lra.
Qed.

Lemma div_exact (y : Z) : (y mod 20 = 0)%Z ->
  inject_Z y == 20 * inject_Z (y / 20).
Proof.
  intros Hmod. pose proof (Z.div_mod y 20) as Hdm.
  assert (H : (y = 20 * (y / 20))%Z) by lia.
  rewrite H at 1. rewrite inject_Z_mult. reflexivity.
Qed.

Lemma div_upper (y : Z) : inject_Z y <= 20 * inject_Z (y / 20) + 19.
Proof.
  pose proof (Z.div_mod y 20) as Hdm.
  pose proof (Z.mod_pos_bound y 20 eq_refl) as Hb.
  assert (H2 : (y <= 20 * (y / 20) + 19)%Z) by lia.
  rewrite Zle_Qle in H2. rewrite inject_Z_plus, inject_Z_mult in H2.
  change (inject_Z 20) with 20 in *. change (inject_Z 19) with 19 in *.
  exact H2.
Qed.

(** [int] of a product that lies between an integer and the next. *)
Lemma int_of_product_between (z : Z) (c : Py.float) (T : Z) :
  literal_ok c = true -> (0 <= z < 2 ^ 40)%Z ->
  inject_Z T <= inject_Z z * F2Q c ->
  (1 + delta) * (inject_Z z * F2Q c) < inject_Z T + 1 ->
  Py.int_of_product z c = Ok T.
Proof.
  intros Hc Hz Hlo Hhi.
  destruct (product_in_range z c Hc Hz)
    as (t & Ht & Hn & Hpos & _ & Hup & Hgrid).
  destruct (Hgrid T) as [HL _]. specialize (HL Hlo).
  destruct (int_of_number t Hn Hpos) as (i & Hi & Hi1 & Hi2).
  unfold Py.int_of_product. rewrite Ht. cbn [bind]. rewrite Hi. f_equal.
  apply (between_integers i T (F2Q t)); try assumption. lra.
Qed.

(** [int(base * 1.5)] is the floor of three halves of the price. *)
Lemma opening_price_exact (b : Z) : (0 <= b < 2 ^ 40)%Z ->
  Py.int_of_product b f1_5 = Ok (3 * b / 2)%Z.
Proof.
  intros Hb.
  replace (3 * b / 2)%Z with (30 * b / 20)%Z.
  2:{ replace (30 * b)%Z with (10 * (3 * b))%Z by lia.
      change 20%Z with (10 * 2)%Z. apply Z.div_mul_cancel_l; lia. }
  destruct literal_decimals as (_ & _ & _ & E & _).
  destruct literal_margins as (_ & _ & _ & _ & U & _).
  pose proof (inject_nonneg b (proj1 Hb)) as Hq.
  pose proof (inject_below b (proj2 Hb)) as Hlt.
  destruct (div_bounds (30 * b)) as [D1 _].
  pose proof (div_upper (30 * b)) as D2.
  rewrite inject_Z_mult in D1, D2. change (inject_Z 30) with 30 in D1, D2.
  apply int_of_product_between; [reflexivity | exact Hb | |].
  - rewrite E. lra.
  - assert (H : (1 + delta) * (inject_Z b * F2Q f1_5)
                <= ((3 # 2) + (1 # 140737488355328)) * inject_Z b).
    { apply (scale_hi _ (1 + delta) (F2Q f1_5)); [exact U | exact Hq | lra]. }
    lra.
Qed.

(** [int(offer * 1.05)] is the floor of the exact product. *)
Lemma pressure_markup_exact (o : Z) : (0 <= o < 2 ^ 40)%Z ->
  Py.int_of_product o f1_05 = Ok (21 * o / 20)%Z.
Proof.
  intros Ho.
  destruct literal_decimals as (_ & L & _).
  destruct literal_margins as (_ & U & _).
  pose proof (inject_nonneg o (proj1 Ho)) as Hq.
  pose proof (inject_below o (proj2 Ho)) as Hlt.
  destruct (div_bounds (21 * o)) as [D1 _].
  pose proof (div_upper (21 * o)) as D2.
  rewrite inject_Z_mult in D1, D2. change (inject_Z 21) with 21 in D1, D2.
  apply int_of_product_between; [reflexivity | exact Ho | |].
  - pose proof (scale_lit_le _ _ _ L Hq). lra.
  - assert (H : (1 + delta) * (inject_Z o * F2Q f1_05)
                <= ((21 # 20) + (1 # 140737488355328)) * inject_Z o).
    { apply (scale_hi _ (1 + delta) (F2Q f1_05)); [exact U | exact Hq | lra]. }
    lra.
Qed.

(** [int(offer * 1.15)] is the floor of the exact product, or one less
    when the exact product is an integer. *)
Lemma markup_exact (o : Z) : (0 <= o < 2 ^ 40)%Z ->
  exists i,
    Py.int_of_product o f1_15 = Ok i /\
    (i = 23 * o / 20 \/
     (i = 23 * o / 20 - 1 /\ (23 * o) mod 20 = 0 /\ 0 < o))%Z.
Proof.
  intros Ho.
  destruct literal_decimals as (_ & _ & L & _).
  destruct literal_margins as (_ & _ & Lo & U & _).
  pose proof (inject_nonneg o (proj1 Ho)) as Hq.
  pose proof (inject_below o (proj2 Ho)) as Hlt.
  destruct (product_in_range o f1_15 eq_refl Ho)
    as (t & Ht & Hn & Hpos & Hlow & Hup & Hgrid).
  destruct (int_of_number t Hn Hpos) as (i & Hi & Hi1 & Hi2).
  exists i. split.
  { unfold Py.int_of_product. rewrite Ht. cbn [bind]. exact Hi. }
  assert (HU : F2Q t <= ((23 # 20) + (1 # 140737488355328)) * inject_Z o).
  { apply (scale_hi _ (1 + delta) (F2Q f1_15)); [exact U | exact Hq | lra]. }
  assert (HL : ((23 # 20) - (1 # 140737488355328)) * inject_Z o <= F2Q t).
  { apply (scale_lo _ (1 - delta) (F2Q f1_15)); [exact Lo | exact Hq | lra]. }
  set (T := (23 * o / 20)%Z).
  destruct (Z.eq_dec ((23 * o) mod 20) 0) as [Hz|Hnz].
  - pose proof (div_exact (23 * o) Hz) as D. fold T in D.
    rewrite inject_Z_mult in D. change (inject_Z 23) with 23 in D.
    destruct (Z.eq_dec o 0) as [->|Hne].
    + left. change (inject_Z 0) with 0 in *.
      apply (between_integers i T (F2Q t)); try assumption; lra.
    + assert (Hop : 0 < inject_Z o) by (apply inject_pos; lia).
      destruct (Hgrid T) as [_ HG].
      assert (Hx : inject_Z o * F2Q f1_15 < inject_Z T).
      { pose proof (scale_lit_lt _ _ _ L Hop). lra. }
      specialize (HG Hx).
      assert (Hcases : (i = T \/ i = T - 1)%Z).
      { assert (inject_Z i < inject_Z (T + 1))
          by (rewrite inject_Z_plus; change (inject_Z 1) with 1; lra).
        assert (inject_Z (T - 2) < inject_Z i).
        { unfold Z.sub. rewrite inject_Z_plus.
          change (inject_Z (- (2))) with (- (2)). lra. }
        rewrite <- Zlt_Qlt in *. lia. }
      destruct Hcases as [E|E]; [left; exact E | right].
      split; [exact E|]. split; [exact Hz | lia].
  - left. destruct (div_gap (23 * o) Hnz) as [D1 D2]. fold T in D1, D2.
    rewrite inject_Z_mult in D1, D2. change (inject_Z 23) with 23 in D1, D2.
    apply (between_integers i T (F2Q t)); try assumption; lra.
Qed.

(** The buyer's test [seller_price < base * 0.85] in the integers. *)
Lemma below_market_exact (seller_price b : Z) : (0 <= b < 2 ^ 40)%Z ->
  Py.lt_product seller_price b f0_85
  = Ok (20 * seller_price <? 17 * b)%Z.
Proof.
  intros Hb.
  destruct literal_decimals as (L & _).
  destruct literal_margins as (Lo & _).
  pose proof (inject_nonneg b (proj1 Hb)) as Hq.
  pose proof (inject_below b (proj2 Hb)) as Hlt.
  destruct (product_in_range b f0_85 eq_refl Hb)
    as (t & Ht & Hn & Hpos & Hlow & Hup & Hgrid).
  unfold Py.lt_product. rewrite Ht. cbn [bind]. f_equal.
  assert (HL : ((17 # 20) - (1 # 140737488355328)) * inject_Z b <= F2Q t).
  { apply (scale_lo _ (1 - delta) (F2Q f0_85)); [exact Lo | exact Hq | lra]. }
  destruct (Z.ltb_spec (20 * seller_price) (17 * b)) as [Hlt'|Hge].
  - apply (int_lt_float_spec seller_price t Hn).
    assert (H : (20 * seller_price + 1 <= 17 * b)%Z) by lia.
    rewrite Zle_Qle in H. rewrite inject_Z_plus, !inject_Z_mult in H.
    change (inject_Z 20) with 20 in H. change (inject_Z 17) with 17 in H.
    change (inject_Z 1) with 1 in H. lra.
  - destruct (Py.int_lt_float seller_price t) eqn:E; [|reflexivity].
    apply (int_lt_float_spec seller_price t Hn) in E.
    rewrite Zle_Qle in Hge. rewrite !inject_Z_mult in Hge.
    change (inject_Z 20) with 20 in Hge. change (inject_Z 17) with 17 in Hge.
    destruct (Z.eq_dec b 0) as [->|Hne].
    + change (inject_Z 0) with 0 in *.
      destruct (Hgrid 0%Z) as [_ HG]. change (inject_Z 0) with 0 in HG.
      assert (F2Q t <= (1 + delta) * 0) by (rewrite Qmult_0_l in Hup; exact Hup).
      lra.
    + assert (Hbp : 0 < inject_Z b) by (apply inject_pos; lia).
      destruct (Hgrid seller_price) as [_ HG].
      assert (Hx : inject_Z b * F2Q f0_85 < inject_Z seller_price).
      { pose proof (scale_lit_lt _ _ _ L Hbp). lra. }
      specialize (HG Hx). lra.
Qed.

(** The seller's test [buyer_offer >= min_price * 1.1] against the exact
    margin: it passes above it and fails below it. *)
Lemma margin_exact (buyer_offer m : Z) : (0 <= m < 2 ^ 40)%Z ->
  exists accept,
    Py.ge_product buyer_offer m f1_1 = Ok accept /\
    ((11 * m < 10 * buyer_offer)%Z -> accept = true) /\
    (accept = true -> (11 * m <= 10 * buyer_offer)%Z).
Proof.
  intros Hm.
  destruct literal_margins as (_ & _ & _ & _ & _ & Lo & U).
  pose proof (inject_nonneg m (proj1 Hm)) as Hq.
  pose proof (inject_below m (proj2 Hm)) as Hlt.
  destruct (product_in_range m f1_1 eq_refl Hm)
    as (t & Ht & Hn & Hpos & Hlow & Hup & _).
  unfold Py.ge_product. rewrite Ht. cbn [bind].
  assert (HU : F2Q t <= ((11 # 10) + (1 # 140737488355328)) * inject_Z m).
  { apply (scale_hi _ (1 + delta) (F2Q f1_1)); [exact U | exact Hq | lra]. }
  assert (HL : ((11 # 10) - (1 # 140737488355328)) * inject_Z m <= F2Q t).
  { apply (scale_lo _ (1 - delta) (F2Q f1_1)); [exact Lo | exact Hq | lra]. }
  eexists. split; [reflexivity|]. split.
  - intros H. apply (int_ge_float_spec buyer_offer t Hn).
    assert (H' : (11 * m + 1 <= 10 * buyer_offer)%Z) by lia.
    rewrite Zle_Qle in H'. rewrite inject_Z_plus, !inject_Z_mult in H'.
    change (inject_Z 11) with 11 in H'. change (inject_Z 10) with 10 in H'.
    change (inject_Z 1) with 1 in H'. lra.
  - intros E. apply (int_ge_float_spec buyer_offer t Hn) in E.
    destruct (Z_le_gt_dec (11 * m) (10 * buyer_offer)) as [Hle|Hgt];
      [exact Hle | exfalso].
    assert (H' : (10 * buyer_offer + 1 <= 11 * m)%Z) by lia.
    rewrite Zle_Qle in H'. rewrite inject_Z_plus, !inject_Z_mult in H'.
    change (inject_Z 11) with 11 in H'. change (inject_Z 10) with 10 in H'.
    change (inject_Z 1) with 1 in H'. lra.
Qed.

(** A negative offer below the acceptance threshold lies below the floor
    price, and so does its marked-up product. *)
Lemma counter_of_negative (min offer : Z) (c : Py.float) (i : Z) :
  literal_ok c = true -> 1 <= F2Q c -> (offer < 0)%Z ->
  Py.ge_product offer min f1_1 = Ok false ->
  Py.int_of_product offer c = Ok i ->
  (i <= min)%Z /\ (offer <= min)%Z.
Proof.
  intros Hc HC Hneg Hge Hi.
  assert (Ho : (offer <= 0)%Z) by lia.
  destruct (int_of_product_nonpos offer c i Hc Ho Hi) as [_ Hi'].
  assert (HX : inject_Z offer <= -1).
  { change (-1) with (inject_Z (-1)). rewrite <- Zle_Qle. lia. }
  assert (HXC : inject_Z offer * F2Q c <= inject_Z offer).
  { setoid_replace (inject_Z offer * F2Q c)
      with (inject_Z offer - (- inject_Z offer) * (F2Q c - 1)) by ring.
    assert (0 <= (- inject_Z offer) * (F2Q c - 1))
      by (apply Qmult_le_0_compat; lra).
    lra. }
  set (X := inject_Z offer) in *. set (XC := X * F2Q c) in *.
  destruct (Z_le_gt_dec 0 min) as [Hm|Hm].
  - assert (Hi0 : inject_Z i - 1 < inject_Z 0)
      by (change (inject_Z 0) with 0; unfold delta in *; lra).
    apply inject_Z_lt_le in Hi0. lia.
  - pose proof (ge_product_false offer min f1_1 eq_refl ltac:(lia) Hge) as Hlt.
    rewrite f1_1_value in Hlt.
    assert (HM : inject_Z min < 0)
      by (change 0 with (inject_Z 0); rewrite <- Zlt_Qlt; lia).
    fold X in Hlt. set (M := inject_Z min) in *.
    assert (Hi0 : inject_Z i - 1 < M) by (unfold delta in *; lra).
    assert (Hx0 : X < M) by (unfold delta in *; lra).
    apply inject_Z_lt_le in Hi0. apply inject_Z_le_lt in Hx0. lia.
Qed.

(** An offer below eleven tenths of the floor fails the seller's test. *)
Lemma below_margin_refused (buyer_offer m : Z) : (0 <= m < 2 ^ 40)%Z ->
  (10 * buyer_offer < 11 * m)%Z ->
  Py.ge_product buyer_offer m f1_1 = Ok false.
Proof.
  intros Hm Hlt.
  destruct (margin_exact buyer_offer m Hm) as (a & Ha & _ & Hdown).
  destruct a; [|exact Ha]. specialize (Hdown eq_refl). lia.
Qed.

End ExactProducts.

(** * The properties of the specification

    The program multiplies an integer price by a decimal literal in
    binary64 and compares or truncates the rounded product.  Where the
    specification speaks of the exact product, the theorems give the
    program's own test and the condition on the integers that it amounts
    to for prices below [2 ^ 40]. *)

Lemma outcome_fields (product : Product) (buyer_budget : Z) (e : LoopExit)
    (o : NegotiationOutcome) :
  outcome product buyer_budget e = Ok o ->
  deal_made o = exit_deal_made e /\
  final_price o = exit_final_price e /\
  rounds o = current_round (exit_context e) /\
  conversation o = messages (exit_context e).
Proof.
  unfold outcome. destruct (exit_deal_made e).
  - destruct (exit_final_price e) as [price|]; [|discriminate].
    intros H. apply bind_Ok in H. destruct H as (sp & _ & H).
    apply bind_Ok in H. destruct H as (bp & _ & H).
    inversion H; subst. auto.
  - intros H. inversion H; subst. auto.
Qed.

(** What a run that broke out of the loop with a deal reports. *)
Lemma deal_report (llm : NegotiationLLM) (product : Product)
    (buyer_budget seller_min : Z) (e : LoopExit) (price : Z) :
  negotiation llm (MockBuyerAgent.agent llm) product buyer_budget seller_min
    = Ok e ->
  exit_deal_made e = true -> exit_final_price e = Some price ->
  (forall o,
     run_negotiation_test llm (MockBuyerAgent.agent llm) product buyer_budget
       seller_min = Ok o ->
     deal_made o = true /\ final_price o = Some price /\
     rounds o = current_round (exit_context e)) /\
  (Z.abs (base_market_price product) < 2 ^ 900 ->
   Z.abs buyer_budget < 2 ^ 900 -> Z.abs seller_min < 2 ^ 900 ->
   buyer_budget <> 0 -> base_market_price product <> 0 ->
   exists o,
     run_negotiation_test llm (MockBuyerAgent.agent llm) product buyer_budget
       seller_min = Ok o).
Proof.
  intros He Hd Hf. split.
  - intros o Ho. unfold run_negotiation_test in Ho. rewrite He in Ho.
    cbn [bind] in Ho. apply outcome_fields in Ho.
    destruct Ho as (H1 & H2 & H3 & _). rewrite H1, H2, H3. auto.
  - intros Hbase Hbud Hmin Hb Hp. apply run_total; assumption.
Qed.

(** ** Acceptance *)



(** C2, as stated, fails: the seller compares the offer with the binary64
    product [min_price * 1.1], which for a floor of 170000 is
    187000.00000000003.  With base price 200000 and budget 187000 the buyer
    offers 187000 = 1.1 * 170000 in round 6; the seller refuses it and
    counters with 215049, and the run ends after ten rounds without a
    deal. *)
Lemma exact_margin_refused :
  exists s status text ctx reply e,
    enters canned_llm (MockBuyerAgent.agent canned_llm)
      (priced 200000 alphonso) 187000 170000 5 s /\
    buyer_turn (MockBuyerAgent.agent canned_llm) 5 s
      = Ok (status, 187000, text, ctx) /\
    status <> ACCEPTED /\
    10 * 187000 >= 11 * 170000 /\
    Seller.respond_to_buyer_offer canned_llm (Seller.init 170000) 187000 5 text
      = Ok (215049, reply, false) /\
    negotiation canned_llm (MockBuyerAgent.agent canned_llm)
      (priced 200000 alphonso) 187000 170000 = Ok e /\
    exit_deal_made e = false /\ exit_final_price e = None /\
    current_round (exit_context e) = 10.
Proof.
  do 6 eexists.
  split; [vm_compute; reflexivity|].
  split; [vm_compute; reflexivity|].
  split; [discriminate|].
  split; [lia|].
  split; [vm_compute; reflexivity|].
  split; [vm_compute; reflexivity|].
  repeat split.
Qed.

(** C2, amended.  In every round in which the seller's strategy is called
    and returns, the seller accepts exactly when the offer is at least the
    binary64 product [min_price * 1.1].  For a floor from 0 to below
    [2 ^ 40] every offer with [10 * offer > 11 * min_price] is accepted and
    every accepted offer has [10 * offer >= 11 * min_price]; an offer of
    exactly 1.1 times the floor can be refused.  On acceptance the loop
    stops in that round with a deal at the buyer's offer of that round. *)
Theorem seller_acceptance (llm : NegotiationLLM) (product : Product)
    (buyer_budget seller_min : Z) (k : nat) (s : LoopState)
    (status : DealStatus) (offer : Z) (text : string)
    (ctx : NegotiationContext) (price : Z) (reply : string) (accepted : bool) :
  (k < 10)%nat ->
  enters llm (MockBuyerAgent.agent llm) product buyer_budget seller_min k s ->
  buyer_turn (MockBuyerAgent.agent llm) (Z.of_nat k) s
    = Ok (status, offer, text, ctx) ->
  status <> ACCEPTED ->
  Seller.respond_to_buyer_offer llm (Seller.init seller_min) offer (Z.of_nat k)
    text = Ok (price, reply, accepted) ->
  (accepted = true <-> Py.ge_product offer seller_min f1_1 = Ok true) /\
  (0 <= seller_min < 2 ^ 40 ->
   (11 * seller_min < 10 * offer -> accepted = true) /\
   (accepted = true -> 11 * seller_min <= 10 * offer)) /\
  (accepted = true ->
   price = offer /\
   Py.last_item (your_offers ctx) = Ok offer /\
   exists e,
     negotiation llm (MockBuyerAgent.agent llm) product buyer_budget seller_min
       = Ok e /\
     exit_deal_made e = true /\
     exit_final_price e = Some offer /\
     current_round (exit_context e) = Z.of_nat k + 1 /\
     (forall o,
        run_negotiation_test llm (MockBuyerAgent.agent llm) product
          buyer_budget seller_min = Ok o ->
        deal_made o = true /\ final_price o = Some offer /\
        rounds o = Z.of_nat k + 1) /\
     (Z.abs (base_market_price product) < 2 ^ 900 ->
      Z.abs buyer_budget < 2 ^ 900 -> Z.abs seller_min < 2 ^ 900 ->
      buyer_budget <> 0 -> base_market_price product <> 0 ->
      exists o,
        run_negotiation_test llm (MockBuyerAgent.agent llm) product
          buyer_budget seller_min = Ok o)).
Proof.
  intros Hk Hs Hb Hst Hr.
  pose proof (seller_respond_cases llm _ _ _ _ _ _ _ Hr) as Hcases.
  cbn [min_price Seller.init] in Hcases.
  assert (Hiff : accepted = true <->
                 Py.ge_product offer seller_min f1_1 = Ok true).
  { destruct Hcases as [(Hge & -> & _)|(Hge & -> & _)]; split; intros H;
      try reflexivity; try assumption; try discriminate; congruence. }
  split; [exact Hiff|]. split.
  { intros Hmin.
    destruct (margin_exact offer seller_min Hmin) as (a & Ha & Hup & Hdown).
    split.
    - intros Hgt. apply Hiff. rewrite Ha, (Hup Hgt). reflexivity.
    - intros Hacc. apply Hdown. apply Hiff in Hacc. congruence. }
  intros ->.
  destruct Hcases as [(_ & _ & ->)|(_ & H & _)]; [|discriminate].
  pose proof (buyer_turn_cases llm _ _ _ _ _ _ Hb) as [Hctx _].
  split; [reflexivity|]. split.
  { rewrite Hctx. cbn [your_offers append_message append_your_offer].
    apply last_item_app. }
  assert (Hround : current_round ctx = Z.of_nat k + 1)
    by (rewrite Hctx; reflexivity).
  set (e := {| exit_context := append_message "seller" reply ctx;
               exit_deal_made := true;
               exit_final_price := Some offer |}).
  assert (Hbody : round_body llm (MockBuyerAgent.agent llm)
                    (Seller.init seller_min) (Z.of_nat k) s = Ok (Break e)).
  { unfold round_body. rewrite Hb. cbn [bind].
    destruct status; try contradiction; cbn [DealStatus_eqb];
      rewrite Hr; reflexivity. }
  assert (Hneg : negotiation llm (MockBuyerAgent.agent llm) product
                   buyer_budget seller_min = Ok e).
  { apply (negotiation_break llm _ product buyer_budget seller_min k s);
      [lia | exact Hs | exact Hbody]. }
  destruct (deal_report llm product buyer_budget seller_min e offer
              Hneg eq_refl eq_refl) as [Hfields Htotal].
  exists e. split; [exact Hneg|]. split; [reflexivity|].
  split; [reflexivity|]. split; [exact Hround|].
  split; [|exact Htotal].
  intros o Ho. destruct (Hfields o Ho) as (H1 & H2 & H3).
  rewrite H3. auto.
Qed.

(** An accepted offer (180000 against a floor of 153000, in round 6) and a
    refused one (the opening offer 108000 against the same floor). *)
Lemma seller_acceptance_witness :
  (exists s status text ctx reply,
     enters canned_llm (MockBuyerAgent.agent canned_llm) alphonso 180000 153000
       5 s /\
     buyer_turn (MockBuyerAgent.agent canned_llm) 5 s
       = Ok (status, 180000, text, ctx) /\
     status <> ACCEPTED /\
     11 * 153000 < 10 * 180000 /\
     Seller.respond_to_buyer_offer canned_llm (Seller.init 153000) 180000 5 text
       = Ok (180000, reply, true) /\
     exists e,
       negotiation canned_llm (MockBuyerAgent.agent canned_llm) alphonso 180000
         153000 = Ok e /\
       exit_deal_made e = true /\ exit_final_price e = Some 180000 /\
       current_round (exit_context e) = 6) /\
  (exists s status text ctx reply price,
     enters canned_llm (MockBuyerAgent.agent canned_llm) alphonso 180000 153000
       0 s /\
     buyer_turn (MockBuyerAgent.agent canned_llm) 0 s
       = Ok (status, 108000, text, ctx) /\
     status <> ACCEPTED /\
     Seller.respond_to_buyer_offer canned_llm (Seller.init 153000) 108000 0 text
       = Ok (price, reply, false) /\
     ~ 11 * 153000 <= 10 * 108000).
Proof.
  split.
  - do 5 eexists.
    split; [vm_compute; reflexivity|].
    split; [vm_compute; reflexivity|].
    split; [discriminate|].
    split; [lia|].
    split; [vm_compute; reflexivity|].
    edestruct (seller_acceptance canned_llm alphonso 180000 153000 5)
      as (_ & _ & H);
      [ lia | vm_compute; reflexivity | vm_compute; reflexivity | discriminate
      | vm_compute; reflexivity | ].
    destruct (H eq_refl) as (_ & _ & e & He & Hd & Hf & Hr & _).
    exists e. auto.
  - do 6 eexists.
    split; [vm_compute; reflexivity|].
    split; [vm_compute; reflexivity|].
    split; [discriminate|].
    split; [vm_compute; reflexivity|].
    edestruct (seller_acceptance canned_llm alphonso 180000 153000 0)
      as (_ & H & _);
      [ lia | vm_compute; reflexivity | vm_compute; reflexivity | discriminate
      | vm_compute; reflexivity | ].
    intros Hle. destruct (H ltac:(lia)) as [_ Hd]. lia.
Defined.
(** ** Bounds on the offers of a run *)

(** Ten per cent on a non-negative offer never lowers it. *)
Lemma increment_not_below (last_offer i : Z) :
  0 <= last_offer -> Py.int_of_product last_offer f1_1 = Ok i ->
  last_offer <= i.
Proof.
  intros Hl Hi.
  destruct (int_of_product_nonneg_bounds last_offer f1_1 i eq_refl Hl Hi)
    as [Hlo _].
  rewrite f1_1_value in Hlo.
  assert (Hq : (0 <= inject_Z last_offer)%Q)
    by (change 0%Q with (inject_Z 0); rewrite <- Zle_Qle; exact Hl).
  apply inject_Z_lt_le. unfold delta in Hlo. lra.
Qed.




(** C4, as stated, fails: the seller's counter follows the buyer's offer
    upwards.  With the Alphonso product, budget 180000 and seller floor
    153000 the quoted prices are 270000, 153000, 153000, 153000, 165310 and
    188956: the last two counters rise. *)
Lemma counters_not_monotone :
  exists e,
    negotiation canned_llm (MockBuyerAgent.agent canned_llm) alphonso 180000
      153000 = Ok e /\
    seller_offers (exit_context e)
      = [270000; 153000; 153000; 153000; 165310; 188956] /\
    ~ Sorted Z.ge (seller_offers (exit_context e)).
Proof.
  eexists. split; [vm_compute; reflexivity|]. split; [reflexivity|].
  cbn [seller_offers exit_context]. intros H.
  repeat match goal with
         | H : Sorted _ (_ :: _) |- _ =>
             let Hs := fresh "Hs" in
             let Hh := fresh "Hh" in
             inversion H as [|? ? Hs Hh]; clear H; subst
         end.
  repeat match goal with
         | H : HdRel _ _ (_ :: _) |- _ => inversion H; clear H; subst
         end.
  lia.
Qed.

(** C4, amended.  In every run the recorded seller prices are the opening
    price followed by one counter per round played, and no counter is below
    [min_price]; this holds at every round and at the end of the run. *)
Theorem counters_above_floor (llm : NegotiationLLM) (product : Product)
    (buyer_budget seller_min : Z) :
  (forall k s,
     enters llm (MockBuyerAgent.agent llm) product buyer_budget seller_min k s ->
     exists opening_price counters,
       seller_offers (context s) = opening_price :: counters /\
       List.length counters = k /\
       Forall (fun p => seller_min <= p) counters) /\
  (forall e,
     negotiation llm (MockBuyerAgent.agent llm) product buyer_budget seller_min
       = Ok e ->
     exists opening_price counters,
       seller_offers (exit_context e) = opening_price :: counters /\
       Forall (fun p => seller_min <= p) counters).
Proof.
  split.
  - intros k s Hs. apply enters_inv in Hs. apply Hs.
  - intros e He. apply negotiation_exit_inv in He. apply He.
Qed.

Lemma counters_above_floor_witness :
  exists s,
    enters canned_llm (MockBuyerAgent.agent canned_llm) alphonso 180000 153000
      4 s /\
    exists opening_price counters,
      seller_offers (context s) = opening_price :: counters /\
      List.length counters = 4%nat /\
      Forall (fun p => 153000 <= p) counters.
Proof.
  eexists. split; [vm_compute; reflexivity|].
  destruct (counters_above_floor canned_llm alphonso 180000 153000) as [H _].
  apply (H 4%nat). vm_compute. reflexivity.
Defined.

(** ** The round ceiling *)

(** C5.  A run plays at most ten rounds: whenever the loop returns, the
    round counter is between 1 and 10 and one buyer offer was recorded per
    round; on inputs below [2 ^ 900] in size the loop does return.  When
    ten rounds complete with neither acceptance test passing (the loop
    enters an eleventh iteration that does not exist), the run reports no
    deal, no final price and 10 rounds; and a run that ends without a deal
    is such a run. *)
Theorem round_ceiling (llm : NegotiationLLM) (product : Product)
    (buyer_budget seller_min : Z) :
  (forall e,
     negotiation llm (MockBuyerAgent.agent llm) product buyer_budget seller_min
       = Ok e ->
     1 <= current_round (exit_context e) <= 10 /\
     Z.of_nat (List.length (your_offers (exit_context e)))
       = current_round (exit_context e) /\
     (exit_deal_made e = false ->
      exit_final_price e = None /\ current_round (exit_context e) = 10 /\
      exists s,
        enters llm (MockBuyerAgent.agent llm) product buyer_budget seller_min
          10 s)) /\
  (forall o,
     run_negotiation_test llm (MockBuyerAgent.agent llm) product buyer_budget
       seller_min = Ok o ->
     1 <= rounds o <= 10) /\
  (forall s,
     enters llm (MockBuyerAgent.agent llm) product buyer_budget seller_min
       10 s ->
     current_round (context s) = 10 /\
     run_negotiation_test llm (MockBuyerAgent.agent llm) product buyer_budget
       seller_min
     = Ok {| deal_made := false;
             final_price := None;
             rounds := 10;
             savings := 0;
             savings_pct := Py.Int 0;
             below_market_pct := Py.Int 0;
             conversation := messages (context s) |}) /\
  (Z.abs (base_market_price product) < 2 ^ 900 ->
   Z.abs buyer_budget < 2 ^ 900 -> Z.abs seller_min < 2 ^ 900 ->
   exists e,
     negotiation llm (MockBuyerAgent.agent llm) product buyer_budget seller_min
       = Ok e).
Proof.
  split; [|split; [|split]].
  - intros e He.
    pose proof (negotiation_exit_inv llm product buyer_budget seller_min e He)
      as (_ & _ & Hr & Hl & _).
    split; [exact Hr|]. split; [exact Hl|]. intros Hd.
    apply negotiation_cases in He.
    destruct He as [(k & s & Hk & Hs & Hb)|(s & Hs & ->)].
    + apply enters_inv in Hs.
      destruct (round_break_inv llm product buyer_budget seller_min k s e
                  Hk Hs Hb) as (_ & _ & Hd').
      congruence.
    + pose proof (enters_inv llm product buyer_budget seller_min 10 s Hs)
        as (_ & _ & Hr10 & _).
      cbn. split; [reflexivity|]. split; [exact Hr10|]. exists s. exact Hs.
  - intros o Ho. unfold run_negotiation_test in Ho. apply bind_Ok in Ho.
    destruct Ho as (e & He & Ho). apply outcome_fields in Ho.
    destruct Ho as (_ & _ & -> & _).
    apply negotiation_exit_inv in He. apply He.
  - intros s Hs.
    pose proof (enters_inv llm product buyer_budget seller_min 10 s Hs)
      as (_ & _ & Hr & _).
    split; [exact Hr|].
    unfold run_negotiation_test.
    rewrite (negotiation_timeout llm _ product buyer_budget seller_min s Hs).
    cbn [bind]. unfold outcome. cbn. rewrite Hr. reflexivity.
  - intros Hbase Hbud Hmin.
    destruct (negotiation_total llm product buyer_budget seller_min
                Hbase Hbud Hmin) as (e & He & _).
    exists e. exact He.
Qed.

Lemma round_ceiling_witness :
  exists s,
    enters canned_llm (MockBuyerAgent.agent canned_llm)
      (priced 100000 alphonso) 60000 65000 10 s /\
    exists o,
      run_negotiation_test canned_llm (MockBuyerAgent.agent canned_llm)
        (priced 100000 alphonso) 60000 65000 = Ok o /\
      deal_made o = false /\ final_price o = None /\ rounds o = 10.
Proof.
  eexists. split; [vm_compute; reflexivity|].
  destruct (round_ceiling canned_llm (priced 100000 alphonso) 60000 65000)
    as (_ & _ & H & _).
  edestruct H as [_ Hrun]; [vm_compute; reflexivity|].
  eexists. split; [exact Hrun|]. auto.
Defined.

(** ** The strategies' formulas *)




(** C7, as stated, fails: the seller truncates the binary64 product, and
    the binary64 value of 1.15 lies below 1.15.  For an offer of 108000
    against a floor of 100000, below the acceptance threshold 110000, the
    exact product 108000 * 1.15 is the integer 124200, the rounded product
    lies just below it, and the seller counters with 124199, not with
    max(100000, floor(108000 * 1.15)) = 124200. *)
Lemma counter_below_exact_floor :
  10 * 108000 < 11 * 100000 /\
  Py.ge_product 108000 100000 f1_1 = Ok false /\
  (exists text,
     Seller.respond_to_buyer_offer canned_llm (Seller.init 100000) 108000 0
       "ok" = Ok (124199, text, false)) /\
  23 * 108000 / 20 = 124200 /\
  (23 * 108000) mod 20 = 0 /\
  124199 <> Z.max 100000 (23 * 108000 / 20).
Proof.
  split; [lia|].
  split; [vm_compute; reflexivity|].
  split; [eexists; vm_compute; reflexivity|].
  split; [reflexivity|]. split; [reflexivity|]. discriminate.
Qed.

(** C7, amended.  For a base price from 1 to below [2 ^ 40] the seller's
    opening price is floor(1.5 * base_market_price), [3 * base / 2] in the
    integers.  For a buyer offer below [2 ^ 40] and below the acceptance
    threshold (the program's test fails, or the floor is from 0 to below
    [2 ^ 40] and [10 * offer < 11 * min_price]) the seller does not accept;
    when round_num >= 8 the counter is max(min_price, floor(buyer_offer *
    1.05)), [21 * offer / 20] in the integers; when round_num < 8 it is
    max(min_price, floor(buyer_offer * 1.15)), [23 * offer / 20] in the
    integers, except that for a positive offer whose exact product
    [offer * 1.15] is an integer the counter can be max(min_price,
    offer * 1.15 - 1).  On inputs below [2 ^ 900] in size the call
    returns. *)
Theorem seller_formulas (llm : NegotiationLLM) (self : MockSellerAgent)
    (product : Product) :
  (0 < base_market_price product < 2 ^ 40 ->
   exists text,
     Seller.get_opening_price self product
       = Ok (3 * base_market_price product / 2, text)) /\
  (forall buyer_offer round_num buyer_message,
     buyer_offer < 2 ^ 40 ->
     Py.ge_product buyer_offer (min_price self) f1_1 = Ok false \/
     (0 <= min_price self < 2 ^ 40 /\
      10 * buyer_offer < 11 * min_price self) ->
     (forall price text accepted,
        Seller.respond_to_buyer_offer llm self buyer_offer round_num
          buyer_message = Ok (price, text, accepted) ->
        accepted = false /\
        (8 <= round_num ->
         price = Z.max (min_price self) (21 * buyer_offer / 20)) /\
        (round_num < 8 ->
         price = Z.max (min_price self) (23 * buyer_offer / 20) \/
         (price = Z.max (min_price self) (23 * buyer_offer / 20 - 1) /\
          (23 * buyer_offer) mod 20 = 0 /\ 0 < buyer_offer))) /\
     (Z.abs (min_price self) < 2 ^ 900 -> Z.abs buyer_offer < 2 ^ 900 ->
      exists price text accepted,
        Seller.respond_to_buyer_offer llm self buyer_offer round_num
          buyer_message = Ok (price, text, accepted))).
Proof.
  assert (H960 : 2 ^ 900 < 2 ^ 960) by (apply Z.pow_lt_mono_r; lia).
  split.
  - intros Hbase. unfold Seller.get_opening_price.
    rewrite (opening_price_exact (base_market_price product)) by lia.
    cbn [bind]. eexists. reflexivity.
  - intros buyer_offer round_num buyer_message Hsize Hbelow.
    assert (Hge : Py.ge_product buyer_offer (min_price self) f1_1 = Ok false).
    { destruct Hbelow as [H|[Hmin Hlt]]; [exact H|].
      apply below_margin_refused; assumption. }
    clear Hbelow. split.
    + intros price text accepted H.
      apply seller_respond_cases in H.
      destruct H as [(Ht & _)|(_ & -> & i & Hi & ->)]; [congruence|].
      split; [reflexivity|].
      destruct one_le_literals as [H105 H115].
      destruct (Z_le_gt_dec 0 buyer_offer) as [Hpos|Hneg].
      * split; intros H8.
        -- destruct (Z.geb_spec round_num 8) as [_|H8']; [|lia].
           rewrite (pressure_markup_exact buyer_offer) in Hi by lia.
           congruence.
        -- destruct (Z.geb_spec round_num 8) as [H8'|_]; [lia|].
           destruct (markup_exact buyer_offer) as (i' & Hi' & Hcases);
             [lia|].
           assert (i' = i) by congruence. subst i'.
           destruct Hcases as [->|(-> & Hmod & Ho)]; [left|right]; auto.
      * assert (Hquot : forall n, 20 <= n -> n * buyer_offer / 20 <= buyer_offer).
        { intros n Hn. apply Z.div_le_upper_bound; [lia|]. nia. }
        split; intros H8.
        -- destruct (Z.geb_spec round_num 8) as [_|H8']; [|lia].
           destruct (counter_of_negative (min_price self) buyer_offer f1_05 i
                       eq_refl H105 ltac:(lia) Hge Hi) as [H1 H2].
           pose proof (Hquot 21 ltac:(lia)). lia.
        -- destruct (Z.geb_spec round_num 8) as [H8'|_]; [lia|].
           destruct (counter_of_negative (min_price self) buyer_offer f1_15 i
                       eq_refl H115 ltac:(lia) Hge Hi) as [H1 H2].
           pose proof (Hquot 23 ltac:(lia)). left. lia.
    + intros Hmin Ho.
      destruct (seller_respond_total llm self buyer_offer round_num
                  buyer_message) as (price & text & accepted & H & _);
        [lia | lia |]. eauto.
Qed.

(** The opening price for a base price of 180000; a counter under time
    pressure (round_num 8) and one without (round_num 3), against a floor
    of 153000. *)
Lemma seller_formulas_witness :
  (0 < base_market_price alphonso < 2 ^ 40 /\
   exists text,
     Seller.get_opening_price (Seller.init 153000) alphonso
       = Ok (270000, text)) /\
  (10 * 143748 < 11 * 153000 /\
   exists text,
     Seller.respond_to_buyer_offer canned_llm (Seller.init 153000) 143748 3
       "ok" = Ok (165310, text, false) /\
     (165310 = Z.max 153000 (23 * 143748 / 20) \/
      165310 = Z.max 153000 (23 * 143748 / 20 - 1) /\
      (23 * 143748) mod 20 = 0 /\ 0 < 143748)) /\
  (Py.ge_product 150000 153000 f1_1 = Ok false /\
   exists text,
     Seller.respond_to_buyer_offer canned_llm (Seller.init 153000) 150000 8
       "ok" = Ok (157500, text, false) /\
     157500 = Z.max 153000 (21 * 150000 / 20)).
Proof.
  destruct (seller_formulas canned_llm (Seller.init 153000) alphonso)
    as [Hopen Hcounter].
  split; [|split].
  - split; [split; reflexivity|]. apply Hopen. split; reflexivity.
  - split; [reflexivity|].
    eexists. split; [vm_compute; reflexivity|].
    destruct (Hcounter 143748 3 "ok"%string) as [H _];
      [reflexivity | right; cbn [min_price Seller.init]; lia |].
    edestruct H as (_ & _ & H3); [vm_compute; reflexivity|].
    apply H3. reflexivity.
  - split; [vm_compute; reflexivity|].
    eexists. split; [vm_compute; reflexivity|].
    destruct (Hcounter 150000 8 "ok"%string) as [H _];
      [reflexivity | left; vm_compute; reflexivity |].
    edestruct H as (_ & H8 & _); [vm_compute; reflexivity|].
    apply H8. discriminate.
Defined.

(** ** The round number the seller sees *)

(** C8, as stated, fails: the orchestrator passes the loop index
    [round = r - 1] to the seller, so in round [r = 8] the seller sees
    [round_num = 7] and takes the 1.15 branch.  With base price 100000,
    budget 60000 and seller floor 65000 the buyer offers 60000 in round 8
    and the seller counters with int(60000 * 1.15) = 69000, and not with
    max(65000, int(60000 * 1.05)) = 65000. *)
Lemma round_8_without_pressure :
  exists s s',
    enters canned_llm (MockBuyerAgent.agent canned_llm)
      (priced 100000 alphonso) 60000 65000 7 s /\
    round_body canned_llm (MockBuyerAgent.agent canned_llm)
      (Seller.init 65000) 7 s = Ok (Next s') /\
    current_round (context s') = 8 /\
    Py.last_item (your_offers (context s')) = Ok 60000 /\
    seller_price s' = 69000 /\
    Py.int_of_product 60000 f1_15 = Ok 69000 /\
    Py.int_of_product 60000 f1_05 = Ok 63000 /\
    seller_price s' <> Z.max 65000 63000.
Proof.
  do 2 eexists.
  split; [vm_compute; reflexivity|].
  split; [vm_compute; reflexivity|].
  repeat split; try (vm_compute; reflexivity). discriminate.
Qed.

(** C8, amended.  With rounds numbered r in 1..10, the orchestrator passes
    the round index r - 1 to the seller strategy, so in every round that
    ends with a seller counter the counter is max(min_price, int(offer *
    1.05)) exactly when r >= 9, and max(min_price, int(offer * 1.15)) in
    rounds 1 to 8, where [offer] is the buyer's offer of that round. *)
Theorem pressure_from_round_9 (llm : NegotiationLLM) (product : Product)
    (buyer_budget seller_min : Z) (k : nat) (s s' : LoopState) :
  enters llm (MockBuyerAgent.agent llm) product buyer_budget seller_min k s ->
  round_body llm (MockBuyerAgent.agent llm) (Seller.init seller_min)
    (Z.of_nat k) s = Ok (Next s') ->
  exists offer text,
    current_round (context s') = Z.of_nat k + 1 /\
    Py.last_item (your_offers (context s')) = Ok offer /\
    Seller.respond_to_buyer_offer llm (Seller.init seller_min) offer
      (current_round (context s') - 1) text
      = Ok (seller_price s', seller_msg s', false) /\
    exists i,
      Py.int_of_product offer
        (if 9 <=? current_round (context s') then f1_05 else f1_15) = Ok i /\
      seller_price s' = Z.max seller_min i.
Proof.
  intros Hs H. apply round_body_cases in H.
  destruct H as (status & offer & text & ctx & Hb & H).
  apply buyer_turn_cases in Hb. destruct Hb as [-> _].
  destruct H as [[_ H]|(_ & price & reply & accepted & Hsel & H)];
    [discriminate|].
  destruct H as [[_ H]|[-> H]]; [discriminate|].
  inversion H; subst s'; clear H.
  exists offer, text. cbn. split; [reflexivity|].
  split; [apply last_item_app|].
  split.
  - replace (Z.of_nat k + 1 - 1) with (Z.of_nat k) by lia. exact Hsel.
  - apply seller_respond_cases in Hsel.
    destruct Hsel as [(_ & Hacc & _)|(_ & _ & i & Hi & Hprice)];
      [discriminate|].
    exists i. split; [|exact Hprice].
    destruct (Z.geb_spec (Z.of_nat k) 8) as [H8|H8];
      destruct (Z.leb_spec 9 (Z.of_nat k + 1)) as [H9|H9];
      try lia; exact Hi.
Qed.

Lemma pressure_from_round_9_witness :
  exists s s',
    enters canned_llm (MockBuyerAgent.agent canned_llm)
      (priced 100000 alphonso) 60000 65000 8 s /\
    round_body canned_llm (MockBuyerAgent.agent canned_llm)
      (Seller.init 65000) 8 s = Ok (Next s') /\
    current_round (context s') = 9 /\
    seller_price s' = 65000 /\
    exists offer text,
      current_round (context s') = 8 + 1 /\
      Py.last_item (your_offers (context s')) = Ok offer /\
      Seller.respond_to_buyer_offer canned_llm (Seller.init 65000) offer
        (current_round (context s') - 1) text
        = Ok (seller_price s', seller_msg s', false) /\
      exists i,
        Py.int_of_product offer
          (if 9 <=? current_round (context s') then f1_05 else f1_15) = Ok i /\
        seller_price s' = Z.max 65000 i.
Proof.
  do 2 eexists.
  split; [vm_compute; reflexivity|].
  split; [vm_compute; reflexivity|].
  split; [reflexivity|]. split; [reflexivity|].
  eapply (pressure_from_round_9 canned_llm (priced 100000 alphonso) 60000
            65000 8); [vm_compute; reflexivity | vm_compute; reflexivity].
Defined.

(** ** Inputs that are not positive *)

(** C9, as stated, fails: nothing is checked before the loop starts.  With
    quantity 0, budget -5 and seller floor 50 the run is played to the
    tenth round, the buyer offering -5 every time, and a no-deal report is
    returned; no error is signalled. *)
Lemma negative_budget_runs :
  quantity empty_crate <= 0 /\ -5 <= 0 /\
  exists e o,
    negotiation canned_llm (MockBuyerAgent.agent canned_llm) empty_crate (-5) 50
      = Ok e /\
    your_offers (exit_context e) = [-5; -5; -5; -5; -5; -5; -5; -5; -5; -5] /\
    run_negotiation_test canned_llm (MockBuyerAgent.agent canned_llm)
      empty_crate (-5) 50 = Ok o /\
    deal_made o = false /\ rounds o = 10.
Proof.
  split; [discriminate|]. split; [discriminate|].
  do 2 eexists. split; [vm_compute; reflexivity|].
  split; [reflexivity|]. split; [vm_compute; reflexivity|].
  split; reflexivity.
Qed.

(** C9, amended.  No input is refused: for every product, budget and seller
    floor below [2 ^ 900] in size, positive or not (the quantity is never
    read), the negotiation loop runs and ends after 1 to 10 rounds with one
    buyer offer per round.  The report is returned whenever no deal was
    made or budget and base price are both non-zero; only when a deal was
    made and the budget or the base price is zero does the run fail, with
    the ZeroDivisionError of the report's percentages. *)
Theorem no_input_validation (llm : NegotiationLLM) (product : Product)
    (buyer_budget seller_min : Z) :
  Z.abs (base_market_price product) < 2 ^ 900 ->
  Z.abs buyer_budget < 2 ^ 900 ->
  Z.abs seller_min < 2 ^ 900 ->
  exists e,
    negotiation llm (MockBuyerAgent.agent llm) product buyer_budget seller_min
      = Ok e /\
    1 <= current_round (exit_context e) <= 10 /\
    Z.of_nat (List.length (your_offers (exit_context e)))
      = current_round (exit_context e) /\
    (exit_deal_made e = false \/
     (buyer_budget <> 0 /\ base_market_price product <> 0) ->
     exists o,
       run_negotiation_test llm (MockBuyerAgent.agent llm) product buyer_budget
         seller_min = Ok o /\
       deal_made o = exit_deal_made e /\
       rounds o = current_round (exit_context e)) /\
    (exit_deal_made e = true ->
     buyer_budget = 0 \/ base_market_price product = 0 ->
     run_negotiation_test llm (MockBuyerAgent.agent llm) product buyer_budget
       seller_min = Raise ZeroDivisionError).
Proof.
  intros Hbase Hbud Hmin.
  destruct (negotiation_total llm product buyer_budget seller_min
              Hbase Hbud Hmin) as (e & He & Hcase).
  exists e. split; [exact He|].
  pose proof (negotiation_exit_inv llm product buyer_budget seller_min e He)
    as (_ & _ & Hr & Hl & _).
  split; [exact Hr|]. split; [exact Hl|].
  assert (Hrun : run_negotiation_test llm (MockBuyerAgent.agent llm) product
                   buyer_budget seller_min = outcome product buyer_budget e)
    by (unfold run_negotiation_test; rewrite He; reflexivity).
  rewrite Hrun. split.
  - intros Hok.
    assert (Hex : exists o, outcome product buyer_budget e = Ok o).
    { unfold outcome. destruct (exit_deal_made e) eqn:Hd;
        [|eexists; reflexivity].
      destruct Hok as [H|[Hb Hp]]; [discriminate|].
      destruct Hcase as [H|(p & -> & Hle)]; [discriminate|].
      destruct (percent_below_total buyer_budget p Hb) as [sp ->]; [lia|].
      destruct (percent_below_total (base_market_price product) p Hp)
        as [bp ->]; [lia|].
      eexists. reflexivity. }
    destruct Hex as [o Ho]. exists o. split; [exact Ho|].
    apply outcome_fields in Ho. tauto.
  - intros Hd Hzero. unfold outcome. rewrite Hd.
    destruct Hcase as [H|(p & -> & Hle)]; [congruence|].
    destruct Hzero as [->|Hz].
    + reflexivity.
    + destruct (Z.eq_dec buyer_budget 0) as [->|Hb]; [reflexivity|].
      destruct (percent_below_total buyer_budget p Hb) as [sp ->]; [lia|].
      cbn [bind]. rewrite Hz. reflexivity.
Qed.

Lemma no_input_validation_witness :
  Z.abs (base_market_price empty_crate) < 2 ^ 900 /\
  Z.abs (-5) < 2 ^ 900 /\ Z.abs 50 < 2 ^ 900 /\
  exists e,
    negotiation canned_llm (MockBuyerAgent.agent canned_llm) empty_crate (-5) 50
      = Ok e /\
    1 <= current_round (exit_context e) <= 10.
Proof.
  split; [reflexivity|]. split; [reflexivity|]. split; [reflexivity|].
  destruct (no_input_validation canned_llm empty_crate (-5) 50)
    as (e & He & Hr & _); [reflexivity | reflexivity | reflexivity |].
  exists e. auto.
Defined.

(** ** Message text *)

(** C10.  Two calls of a strategy decision that differ only in the message
    text passed in (and in the message history of the context) and in the
    text the message generator returns give the same numeric result, or
    raise the same exception: the buyer's (status, price) and the seller's
    (price, accepted) do not depend on any message text. *)
Theorem message_independence (llm1 llm2 : NegotiationLLM)
    (context : NegotiationContext) (history1 history2 : list Message)
    (seller_price : Z) (seller_message1 seller_message2 : string)
    (self : MockSellerAgent) (buyer_offer round_num : Z)
    (buyer_message1 buyer_message2 : string) :
  buyer_decision
    (MockBuyerAgent.respond_to_seller_offer llm1
       (with_messages history1 context) seller_price seller_message1)
  = buyer_decision
      (MockBuyerAgent.respond_to_seller_offer llm2
         (with_messages history2 context) seller_price seller_message2)
  /\
  seller_decision
    (Seller.respond_to_buyer_offer llm1 self buyer_offer round_num
       buyer_message1)
  = seller_decision
      (Seller.respond_to_buyer_offer llm2 self buyer_offer round_num
         buyer_message2).
Proof.
  split.
  - unfold MockBuyerAgent.respond_to_seller_offer, MockBuyerAgent.accept_test.
    cbn [with_messages your_budget product your_offers].
    destruct (if seller_price <? your_budget context
              then Py.lt_product seller_price
                     (base_market_price (product context)) f0_85
              else Ok false) as [[|]|x]; cbn [bind]; try reflexivity.
    destruct (Py.last_item (your_offers context)) as [last|x]; cbn [bind];
      [|reflexivity].
    destruct (Py.int_of_product last f1_1) as [i|x]; cbn [bind];
      [|reflexivity].
    destruct (Py.gt_product (Z.min i (your_budget context)) seller_price f0_95)
      as [[|]|x]; reflexivity.
  - unfold Seller.respond_to_buyer_offer.
    destruct (Seller.accept_test self buyer_offer) as [[|]|x]; cbn [bind];
      try reflexivity.
    destruct (round_num >=? 8).
    + destruct (Py.int_of_product buyer_offer f1_05) as [i|x]; reflexivity.
    + destruct (Py.int_of_product buyer_offer f1_15) as [i|x]; reflexivity.
Qed.

(** * Beyond the specification

    Properties of the same code that the specification does not state. *)

(** * Runs and the text generator *)

Section Texts.
Variables llm1 llm2 : NegotiationLLM.

Lemma buyer_respond_no_text (c1 c2 : NegotiationContext) (price : Z)
    (m1 m2 : string) :
  with_messages [] c1 = with_messages [] c2 ->
  buyer_decision (MockBuyerAgent.respond_to_seller_offer llm1 c1 price m1)
  = buyer_decision (MockBuyerAgent.respond_to_seller_offer llm2 c2 price m2).
Proof.
  intros H. destruct c1 as [p1 b1 r1 so1 yo1 ms1].
  destruct c2 as [p2 b2 r2 so2 yo2 ms2].
  unfold with_messages in H. cbn in H.
  inversion H; subst; clear H.
  unfold MockBuyerAgent.respond_to_seller_offer, MockBuyerAgent.accept_test.
  cbn [your_budget product your_offers].
  destruct (if price <? b2
            then Py.lt_product price (base_market_price p2) f0_85
            else Ok false) as [[|]|x]; cbn [bind]; try reflexivity.
  destruct (Py.last_item yo2) as [last|x]; cbn [bind];
    [|reflexivity].
  destruct (Py.int_of_product last f1_1) as [i|x]; cbn [bind];
    [|reflexivity].
  destruct (Py.gt_product (Z.min i b2) price f0_95)
    as [[|]|x]; reflexivity.
Qed.

Lemma seller_respond_no_text (self : MockSellerAgent) (offer round_num : Z)
    (m1 m2 : string) :
  seller_decision (Seller.respond_to_buyer_offer llm1 self offer round_num m1)
  = seller_decision (Seller.respond_to_buyer_offer llm2 self offer round_num m2).
Proof.
  unfold Seller.respond_to_buyer_offer.
  destruct (Seller.accept_test self offer) as [[|]|x]; cbn [bind];
    try reflexivity.
  destruct (round_num >=? 8).
  - destruct (Py.int_of_product offer f1_05) as [i|x]; reflexivity.
  - destruct (Py.int_of_product offer f1_15) as [i|x]; reflexivity.
Qed.

Lemma round_body_no_text (seller : MockSellerAgent) (round : Z)
    (s1 s2 : LoopState) :
  no_text_state s1 = no_text_state s2 ->
  fmap no_text_control
    (round_body llm1 (MockBuyerAgent.agent llm1) seller round s1)
  = fmap no_text_control
      (round_body llm2 (MockBuyerAgent.agent llm2) seller round s2).
Proof.
  intros H.
  destruct s1 as [[p1 b1 r1 so1 yo1 ms1] sp1 sm1].
  destruct s2 as [[p2 b2 r2 so2 yo2 ms2] sp2 sm2].
  unfold no_text_state, with_messages in H. cbn in H.
  inversion H; subst; clear H.
  unfold round_body, buyer_turn.
  cbn [generate_opening_offer respond_to_seller_offer MockBuyerAgent.agent
       context seller_price seller_msg].
  destruct (round =? 0).
  - unfold MockBuyerAgent.generate_opening_offer, set_current_round.
    cbn [product your_budget].
    destruct (Py.int_of_product (base_market_price p2) f0_6) as [i|x];
      cbn [bind fmap]; [|reflexivity].
    cbn [DealStatus_eqb].
    match goal with
    | |- context [Seller.respond_to_buyer_offer llm1 seller ?o round ?t] =>
        pose proof (seller_respond_no_text seller o round t t) as Hs
    end.
    unfold seller_decision in Hs.
    destruct (Seller.respond_to_buyer_offer llm1 _ _ _ _) as [[[q1 t1] a1]|x1];
      destruct (Seller.respond_to_buyer_offer llm2 _ _ _ _)
        as [[[q2 t2] a2]|x2]; cbn [bind] in Hs |- *; try discriminate;
      try (inversion Hs; subst; reflexivity).
    inversion Hs; subst. destruct a2; reflexivity.
  - match goal with
    | |- context [MockBuyerAgent.respond_to_seller_offer llm1 ?c1 _ _] =>
        match goal with
        | |- context [MockBuyerAgent.respond_to_seller_offer llm2 ?c2 _ _] =>
            pose proof (buyer_respond_no_text c1 c2 sp2 sm1 sm2 eq_refl) as Hb
        end
    end.
    unfold buyer_decision in Hb.
    destruct (MockBuyerAgent.respond_to_seller_offer llm1 _ _ _)
      as [[[st1 o1] t1]|x1];
      destruct (MockBuyerAgent.respond_to_seller_offer llm2 _ _ _)
        as [[[st2 o2] t2]|x2]; cbn [bind] in Hb |- *; try discriminate;
      try (inversion Hb; subst; reflexivity).
    inversion Hb; subst st2 o2; clear Hb.
    destruct (DealStatus_eqb st1 ACCEPTED); [reflexivity|].
    pose proof (seller_respond_no_text seller o1 round t1 t2) as Hs.
    unfold seller_decision in Hs.
    destruct (Seller.respond_to_buyer_offer llm1 _ _ _ _)
      as [[[q1 u1] a1]|x1];
      destruct (Seller.respond_to_buyer_offer llm2 _ _ _ _)
        as [[[q2 u2] a2]|x2]; cbn [bind] in Hs |- *; try discriminate;
      try (inversion Hs; subst; reflexivity).
    inversion Hs; subst. destruct a2; reflexivity.
Qed.

Lemma for_rounds_no_text (seller : MockSellerAgent) (rounds : list Z) :
  forall s1 s2, no_text_state s1 = no_text_state s2 ->
  fmap no_text_control
    (for_rounds llm1 (MockBuyerAgent.agent llm1) seller rounds s1)
  = fmap no_text_control
      (for_rounds llm2 (MockBuyerAgent.agent llm2) seller rounds s2).
Proof.
  induction rounds as [|round rest IH]; intros s1 s2 H.
  - cbn. rewrite H. reflexivity.
  - cbn [for_rounds].
    pose proof (round_body_no_text seller round s1 s2 H) as Hr.
    destruct (round_body llm1 _ seller round s1) as [[e1|n1]|x1];
      destruct (round_body llm2 _ seller round s2) as [[e2|n2]|x2];
      cbn [fmap bind no_text_control] in Hr |- *; try discriminate;
      try (inversion Hr; subst; reflexivity).
    + congruence.
    + apply IH. congruence.
Qed.

Lemma negotiation_no_text (goods : Product) (buyer_budget seller_min : Z) :
  fmap no_text_exit
    (negotiation llm1 (MockBuyerAgent.agent llm1) goods buyer_budget seller_min)
  = fmap no_text_exit
      (negotiation llm2 (MockBuyerAgent.agent llm2) goods buyer_budget
         seller_min).
Proof.
  unfold negotiation.
  destruct (opening goods buyer_budget seller_min) as [s|x]; cbn [bind fmap];
    [|reflexivity].
  pose proof (for_rounds_no_text (Seller.init seller_min) (Py.range 10) s s
                eq_refl) as H.
  destruct (for_rounds llm1 _ _ _ s) as [c1|x1];
    destruct (for_rounds llm2 _ _ _ s) as [c2|x2];
    cbn [fmap bind] in H |- *; try discriminate;
    try (inversion H; subst; reflexivity).
  assert (Hc : no_text_control c1 = no_text_control c2) by congruence.
  destruct c1 as [e1|n1], c2 as [e2|n2];
    cbn [no_text_control after_loop] in Hc |- *; try discriminate.
  - congruence.
  - assert (Hn : no_text_state n1 = no_text_state n2) by congruence.
    unfold no_text_exit. cbn. unfold no_text_state in Hn. congruence.
Qed.

Lemma outcome_no_text (goods : Product) (buyer_budget : Z) (e1 e2 : LoopExit) :
  no_text_exit e1 = no_text_exit e2 ->
  fmap figures (outcome goods buyer_budget e1)
  = fmap figures (outcome goods buyer_budget e2).
Proof.
  intros H. destruct e1 as [[p1 b1 r1 so1 yo1 ms1] d1 f1].
  destruct e2 as [[p2 b2 r2 so2 yo2 ms2] d2 f2].
  unfold no_text_exit, with_messages in H. cbn in H.
  inversion H; subst; clear H.
  unfold outcome. cbn [exit_deal_made exit_final_price exit_context].
  destruct d2; [|reflexivity].
  destruct f2 as [price|]; [|reflexivity].
  destruct (percent_below buyer_budget price) as [sp|x]; cbn [bind fmap];
    [|reflexivity].
  destruct (percent_below (base_market_price goods) price) as [bp|x];
    reflexivity.
Qed.

Lemma run_no_text (goods : Product) (buyer_budget seller_min : Z) :
  fmap figures
    (run_negotiation_test llm1 (MockBuyerAgent.agent llm1) goods buyer_budget
       seller_min)
  = fmap figures
      (run_negotiation_test llm2 (MockBuyerAgent.agent llm2) goods
         buyer_budget seller_min).
Proof.
  unfold run_negotiation_test.
  pose proof (negotiation_no_text goods buyer_budget seller_min) as H.
  destruct (negotiation llm1 _ goods buyer_budget seller_min) as [e1|x1];
    destruct (negotiation llm2 _ goods buyer_budget seller_min) as [e2|x2];
    cbn [fmap bind] in H |- *; try discriminate;
    try (inversion H; subst; reflexivity).
  apply outcome_no_text. congruence.
Qed.

End Texts.

(** * Thresholds as rationals *)

Section Thresholds.
Local Open Scope Q_scope.

Lemma literal_bounds :
  F2Q f0_85 <= 86 # 100 /\ F2Q f0_95 <= 96 # 100 /\
  104 # 100 <= F2Q f1_05 /\ F2Q f1_05 <= 106 # 100 /\
  109 # 100 <= F2Q f1_1 /\ 114 # 100 <= F2Q f1_15.
Proof. repeat split; apply Qle_bool_iff; vm_compute; reflexivity. Qed.

Lemma delta_small : 0 < delta /\ delta <= 1 # 1000.
Proof. split; [reflexivity | apply Qle_bool_iff; vm_compute; reflexivity]. Qed.

(** An offer the seller accepts is at least a non-negative floor. *)
Lemma ge_product_true_ge (z a : Z) :
  (0 <= a)%Z -> Py.ge_product z a f1_1 = Ok true -> (a <= z)%Z.
Proof.
  intros Ha H. unfold Py.ge_product in H.
  destruct (Py.int_mul_float a f1_1) as [t|x] eqn:Ht; [|discriminate].
  simpl in H. inversion H as [Hb]; clear H.
  destruct (int_mul_float_value a f1_1 t eq_refl Ht) as [->|[(Hn & Hv & _) _]].
  - assert (Hs : (a <? 0)%Z = false) by (apply Z.ltb_ge; exact Ha).
    rewrite Hs in Hb. discriminate.
  - destruct (Hv Ha) as [Hlo _].
    apply (int_ge_float_spec z t Hn) in Hb.
    destruct literal_bounds as (_ & _ & _ & _ & H11 & _).
    destruct delta_small as [Hd0 Hd].
    assert (Hq : 0 <= inject_Z a)
      by (change 0 with (inject_Z 0); rewrite <- Zle_Qle; exact Ha).
    rewrite Zle_Qle.
    assert (inject_Z a <= (1 - delta) * (inject_Z a * F2Q f1_1)); [|lra].
    assert (1 <= (1 - delta) * F2Q f1_1) by nra.
    nra.
Qed.

End Thresholds.

(** * The shape of the context *)

Lemma turns_snoc (k : nat) :
  turns (S k) = turns k ++ ["seller"%string; "buyer"%string].
Proof.
  induction k as [|k IH]; [reflexivity|].
  cbn [turns app] in *. congruence.
Qed.

Lemma last_item_In {A : Type} (a x : A) (l : list A) :
  l <> [] -> Py.last_item (a :: l) = Ok x -> In x l.
Proof.
  intros Hl H. destruct l as [|b l] using rev_ind; [contradiction|].
  rewrite app_comm_cons, last_item_app in H. inversion H; subst.
  apply in_or_app. right. left. reflexivity.
Qed.

Section Shape.
Variable llm : NegotiationLLM.
Variables (goods : Product) (buyer_budget seller_min : Z).

Local Abbreviation buyer := (MockBuyerAgent.agent llm).
Local Abbreviation enters' := (enters llm buyer goods buyer_budget seller_min).

(** What one iteration leaves behind, case by case. *)
Lemma round_step (k : nat) (s : LoopState) (c : Control) :
  round_body llm buyer (Seller.init seller_min) (Z.of_nat k) s = Ok c ->
  exists status offer text,
    let ctx := append_message "buyer" text
                 (append_your_offer offer
                    (set_current_round (Z.of_nat k + 1) (context s))) in
    buyer_turn buyer (Z.of_nat k) s = Ok (status, offer, text, ctx) /\
    ((status = ACCEPTED /\ k <> 0%nat /\
      MockBuyerAgent.accept_test
        (set_current_round (Z.of_nat k + 1) (context s)) (seller_price s)
        = Ok true /\
      c = Break {| exit_context := ctx;
                   exit_deal_made := true;
                   exit_final_price := Some (seller_price s) |}) \/
     (exists reply,
        Py.ge_product offer seller_min f1_1 = Ok true /\
        c = Break {| exit_context := append_message "seller" reply ctx;
                     exit_deal_made := true;
                     exit_final_price := Some offer |}) \/
     (exists price reply,
        c = Next {| context := append_message "seller" reply
                                 (append_seller_offer price ctx);
                    seller_price := price;
                    seller_msg := reply |})).
Proof.
  intros H. apply round_body_cases in H.
  destruct H as (status & offer & text & ctx & Hb & H).
  pose proof (buyer_turn_cases llm _ _ _ _ _ _ Hb) as [-> Hturn].
  exists status, offer, text. cbv zeta. split; [exact Hb|].
  destruct H as [[-> ->]|(Hst & price & reply & accepted & Hsel & H)].
  - left. split; [reflexivity|].
    destruct Hturn as [(_ & Hon & _)|(Hk & Hr)]; [discriminate|].
    split; [lia|]. split; [|reflexivity].
    apply buyer_respond_cases in Hr.
    destruct Hr as [(Ha & _)|(_ & Hon & _)]; [exact Ha | discriminate].
  - right. destruct H as [[-> ->]|[-> ->]].
    + left. exists reply. split; [|reflexivity].
      apply seller_respond_cases in Hsel.
      destruct Hsel as [(Hge & _)|(_ & Hacc & _)]; [exact Hge | discriminate].
    + right. exists price, reply. reflexivity.
Qed.

Lemma enters_roles (k : nat) : forall s,
  enters' k s -> roles (context s) = turns k ++ ["seller"%string].
Proof.
  induction k as [|k IH]; intros s H.
  - unfold enters, state_at in H. apply bind_Ok in H.
    destruct H as (s0 & Hs0 & H). cbn in H. inversion H; subst; clear H.
    unfold opening in Hs0. apply bind_Ok in Hs0.
    destruct Hs0 as ([price text] & _ & H). inversion H; subst. reflexivity.
  - apply enters_succ_inv in H. destruct H as (s1 & Hs1 & Hr).
    specialize (IH s1 Hs1). apply round_step in Hr.
    destruct Hr as (status & offer & text & _ & [H|[H|H]]).
    + destruct H as (_ & _ & _ & H). discriminate.
    + destruct H as (reply & _ & H). discriminate.
    + destruct H as (price & reply & H). inversion H; subst; clear H.
      unfold roles in *.
      cbn [context messages append_message append_seller_offer
           append_your_offer set_current_round].
      rewrite !map_app, IH, turns_snoc. cbn [map role].
      rewrite <- !app_assoc. reflexivity.
Qed.

(** The exit of a run, with how it came about. *)
Lemma exit_shape (e : LoopExit) :
  negotiation llm buyer goods buyer_budget seller_min = Ok e ->
  exists r,
    current_round (exit_context e) = Z.of_nat r /\ (1 <= r <= 10)%nat /\
    List.length (your_offers (exit_context e)) = r /\
    ((exit_deal_made e = true /\ (2 <= r)%nat /\
      List.length (seller_offers (exit_context e)) = r /\
      roles (exit_context e) = turns r /\
      exists p, exit_final_price e = Some p /\
                Py.last_item (seller_offers (exit_context e)) = Ok p /\
                p < buyer_budget /\ seller_min <= p) \/
     (exit_deal_made e = true /\
      List.length (seller_offers (exit_context e)) = r /\
      roles (exit_context e) = turns r ++ ["seller"%string] /\
      exists p, exit_final_price e = Some p /\
                Py.last_item (your_offers (exit_context e)) = Ok p /\
                p <= buyer_budget /\
                Py.ge_product p seller_min f1_1 = Ok true) \/
     (exit_deal_made e = false /\ r = 10%nat /\
      List.length (seller_offers (exit_context e)) = 11%nat /\
      roles (exit_context e) = turns 10 ++ ["seller"%string] /\
      exit_final_price e = None)).
Proof.
  intros H. apply negotiation_cases in H.
  destruct H as [(k & s & Hk & Hs & Hb)|(s & Hs & ->)].
  - pose proof (enters_roles k s Hs) as Hroles.
    pose proof (enters_inv llm goods buyer_budget seller_min k s Hs)
      as (Hp & Hbud & Hr & Hl & Hall & Hlast & p0 & counters & Hso & Hcl & Hc).
    exists (S k). apply round_step in Hb.
    destruct Hb as (status & offer & text & Hturn & [H|[H|H]]).
    + destruct H as (_ & Hk0 & Hacc & He). inversion He; subst e; clear He.
      cbn [exit_context exit_deal_made exit_final_price current_round
           your_offers seller_offers append_message append_your_offer
           set_current_round].
      split; [lia|]. split; [lia|].
      split; [rewrite length_app, Hl; cbn; lia|]. left.
      split; [reflexivity|]. split; [lia|].
      split; [rewrite Hso; cbn; lia|].
      split.
      { unfold roles in *.
        cbn [messages append_message append_seller_offer
             append_your_offer set_current_round].
        rewrite map_app, Hroles, turns_snoc. cbn [map role].
        rewrite <- app_assoc. reflexivity. }
      exists (seller_price s). split; [reflexivity|]. split; [exact Hlast|].
      apply buyer_accept_test_true in Hacc. cbn in Hacc.
      split; [lia|].
      rewrite Forall_forall in Hc. apply Hc.
      apply (last_item_In p0). 
      { intros E. rewrite E in Hcl. cbn in Hcl. lia. }
      rewrite <- Hso. exact Hlast.
    + destruct H as (reply & Hge & He). inversion He; subst e; clear He.
      cbn [exit_context exit_deal_made exit_final_price current_round
           your_offers seller_offers append_message append_your_offer
           set_current_round].
      split; [lia|]. split; [lia|].
      split; [rewrite length_app, Hl; cbn; lia|]. right. left.
      split; [reflexivity|].
      split; [rewrite Hso; cbn; lia|].
      split.
      { unfold roles in *.
        cbn [messages append_message append_seller_offer
             append_your_offer set_current_round].
        rewrite !map_app, Hroles, turns_snoc. cbn [map role].
        rewrite <- !app_assoc. reflexivity. }
      exists offer. split; [reflexivity|]. split; [apply last_item_app|].
      split; [|exact Hge].
      eapply (buyer_turn_inv llm goods buyer_budget seller_min k s);
        [|exact Hturn].
      unfold run_inv. repeat split; auto. exists p0, counters. auto.
    + destruct H as (price & reply & H). discriminate.
  - pose proof (enters_roles 10 s Hs) as Hroles.
    pose proof (enters_inv llm goods buyer_budget seller_min 10 s Hs)
      as (Hp & Hbud & Hr & Hl & Hall & Hlast & p0 & counters & Hso & Hcl & Hc).
    exists 10%nat. cbn [after_loop exit_context exit_deal_made exit_final_price].
    split; [exact Hr|]. split; [lia|]. split; [exact Hl|].
    right. right. split; [reflexivity|]. split; [reflexivity|].
    split; [rewrite Hso; cbn; lia|]. split; [exact Hroles | reflexivity].
Qed.

End Shape.

(** * Exceptions *)

Lemma bind_Raise {A B : Type} (c : result A) (k : A -> result B) (x : py_exn) :
  bind c k = Raise x -> c = Raise x \/ exists a, c = Ok a /\ k a = Raise x.
Proof. destruct c as [a|e]; simpl; [eauto | intros H; left; congruence]. Qed.

Lemma float_of_int_raises (z : Z) (x : py_exn) :
  Py.float_of_int z = Raise x -> x = OverflowError.
Proof.
  unfold Py.float_of_int.
  destruct (binary_normalize Py.prec Py.emax z 0 false); congruence.
Qed.

Lemma int_mul_float_raises (z : Z) (c : Py.float) (x : py_exn) :
  Py.int_mul_float z c = Raise x -> x = OverflowError.
Proof.
  unfold Py.int_mul_float. intros H. apply bind_Raise in H.
  destruct H as [H|(f & _ & H)]; [|discriminate].
  apply float_of_int_raises in H. exact H.
Qed.

Lemma int_of_product_raises (z : Z) (c : Py.float) (x : py_exn) :
  literal_ok c = true -> Py.int_of_product z c = Raise x -> x = OverflowError.
Proof.
  intros Hc H. unfold Py.int_of_product in H. apply bind_Raise in H.
  destruct H as [H|(f & Hf & H)]; [apply int_mul_float_raises in H; exact H|].
  destruct (int_mul_float_value z c f Hc Hf) as [->|[(Hn & _) _]].
  - cbn in H. congruence.
  - destruct f; cbn in H, Hn; try discriminate; try contradiction.
Qed.

Lemma lt_product_raises (z a : Z) (c : Py.float) (x : py_exn) :
  Py.lt_product z a c = Raise x -> x = OverflowError.
Proof.
  unfold Py.lt_product. intros H. apply bind_Raise in H.
  destruct H as [H|(f & _ & H)]; [|discriminate].
  apply int_mul_float_raises in H. exact H.
Qed.

Lemma gt_product_raises (z a : Z) (c : Py.float) (x : py_exn) :
  Py.gt_product z a c = Raise x -> x = OverflowError.
Proof.
  unfold Py.gt_product. intros H. apply bind_Raise in H.
  destruct H as [H|(f & _ & H)]; [|discriminate].
  apply int_mul_float_raises in H. exact H.
Qed.

Lemma ge_product_raises (z a : Z) (c : Py.float) (x : py_exn) :
  Py.ge_product z a c = Raise x -> x = OverflowError.
Proof.
  unfold Py.ge_product. intros H. apply bind_Raise in H.
  destruct H as [H|(f & _ & H)]; [|discriminate].
  apply int_mul_float_raises in H. exact H.
Qed.

Lemma true_div_raises (a b : Z) (x : py_exn) :
  Py.true_div a b = Raise x ->
  x = OverflowError \/ (x = ZeroDivisionError /\ b = 0).
Proof.
  unfold Py.true_div. destruct b as [|b|b].
  - intros H. right. split; [congruence | reflexivity].
  - destruct a; [discriminate| |];
      match goal with
      | |- context [SFdiv ?p ?e ?u ?v] => destruct (SFdiv p e u v)
      end; intros H; try discriminate; left; congruence.
  - destruct a; [discriminate| |];
      match goal with
      | |- context [SFdiv ?p ?e ?u ?v] => destruct (SFdiv p e u v)
      end; intros H; try discriminate; left; congruence.
Qed.

Lemma percent_below_raises (a final_price : Z) (x : py_exn) :
  percent_below a final_price = Raise x ->
  x = OverflowError \/ (x = ZeroDivisionError /\ a = 0).
Proof.
  unfold percent_below. intros H. apply bind_Raise in H.
  destruct H as [H|(q & _ & H)]; [apply true_div_raises in H; exact H|].
  unfold Py.float_mul_int in H. apply bind_Raise in H.
  destruct H as [H|(g & _ & H)]; [|discriminate].
  apply float_of_int_raises in H. left. exact H.
Qed.

Section Raises.
Variable llm : NegotiationLLM.

Lemma buyer_opening_raises (context : NegotiationContext) (x : py_exn) :
  MockBuyerAgent.generate_opening_offer context = Raise x ->
  x = OverflowError.
Proof.
  unfold MockBuyerAgent.generate_opening_offer. intros H.
  apply bind_Raise in H. destruct H as [H|(i & _ & H)]; [|discriminate].
  apply int_of_product_raises in H; [exact H | reflexivity].
Qed.

Lemma buyer_respond_raises (context : NegotiationContext) (seller_price : Z)
    (seller_message : string) (x : py_exn) :
  MockBuyerAgent.respond_to_seller_offer llm context seller_price
    seller_message = Raise x ->
  x = OverflowError \/
  (x = IndexError /\ your_offers context = [] /\
   MockBuyerAgent.accept_test context seller_price = Ok false).
Proof.
  unfold MockBuyerAgent.respond_to_seller_offer. intros H.
  apply bind_Raise in H. destruct H as [H|(accept & Ha & H)].
  - left. unfold MockBuyerAgent.accept_test in H.
    destruct (seller_price <? your_budget context); [|discriminate].
    apply lt_product_raises in H. exact H.
  - destruct accept; [discriminate|].
    apply bind_Raise in H. destruct H as [H|(last & _ & H)].
    + right. unfold Py.last_item in H.
      destruct (rev (your_offers context)) as [|o l] eqn:E; [|discriminate].
      split; [congruence|]. split; [|exact Ha].
      apply (f_equal (@rev Z)) in E. rewrite rev_involutive in E. exact E.
    + left. apply bind_Raise in H. destruct H as [H|(i & _ & H)].
      * apply int_of_product_raises in H; [exact H | reflexivity].
      * apply bind_Raise in H. destruct H as [H|(near & _ & H)].
        -- apply gt_product_raises in H. exact H.
        -- destruct near; discriminate.
Qed.

Lemma seller_opening_raises (self : MockSellerAgent) (product : Product)
    (x : py_exn) :
  Seller.get_opening_price self product = Raise x -> x = OverflowError.
Proof.
  unfold Seller.get_opening_price. intros H.
  apply bind_Raise in H. destruct H as [H|(i & _ & H)]; [|discriminate].
  apply int_of_product_raises in H; [exact H | reflexivity].
Qed.

Lemma seller_respond_raises (self : MockSellerAgent) (buyer_offer round_num : Z)
    (buyer_message : string) (x : py_exn) :
  Seller.respond_to_buyer_offer llm self buyer_offer round_num buyer_message
    = Raise x -> x = OverflowError.
Proof.
  unfold Seller.respond_to_buyer_offer. intros H.
  apply bind_Raise in H. destruct H as [H|(accept & _ & H)].
  - apply ge_product_raises in H. exact H.
  - destruct accept; [discriminate|].
    apply bind_Raise in H. destruct H as [H|([counter text] & _ & H)];
      [|discriminate].
    destruct (round_num >=? 8); apply bind_Raise in H;
      destruct H as [H|(i & _ & H)]; try discriminate;
      (apply int_of_product_raises in H; [exact H | reflexivity]).
Qed.

Variables (goods : Product) (buyer_budget seller_min : Z).

Lemma round_body_raises (k : nat) (s : LoopState) (x : py_exn) :
  run_inv goods buyer_budget seller_min k s ->
  round_body llm (MockBuyerAgent.agent llm) (Seller.init seller_min)
    (Z.of_nat k) s = Raise x ->
  x = OverflowError.
Proof.
  intros (_ & _ & _ & Hl & _) H. unfold round_body in H.
  apply bind_Raise in H. destruct H as [H|([[[status offer] text] ctx] & _ & H)].
  - unfold buyer_turn in H.
    cbn [generate_opening_offer respond_to_seller_offer MockBuyerAgent.agent]
      in H.
    apply bind_Raise in H. destruct H as [H|([[status offer] text] & _ & H)];
      [|discriminate].
    destruct (Z.eqb_spec (Z.of_nat k) 0) as [E|E].
    + apply bind_Raise in H. destruct H as [H|([offer text] & _ & H)];
        [|discriminate].
      apply buyer_opening_raises in H. exact H.
    + apply buyer_respond_raises in H.
      destruct H as [H|(_ & Hnil & _)]; [exact H|].
      cbn [your_offers set_current_round] in Hnil.
      rewrite Hnil in Hl. cbn in Hl. lia.
  - destruct (DealStatus_eqb status ACCEPTED); [discriminate|].
    apply bind_Raise in H.
    destruct H as [H|([[price reply] accepted] & _ & H)].
    + apply seller_respond_raises in H. exact H.
    + destruct accepted; discriminate.
Qed.

Lemma state_at_raises (k : nat) (x : py_exn) :
  state_at llm (MockBuyerAgent.agent llm) goods buyer_budget seller_min k
    = Raise x -> x = OverflowError.
Proof.
  induction k as [|k IH]; intros H.
  - unfold state_at in H. apply bind_Raise in H.
    destruct H as [H|(s & _ & H)]; [|discriminate].
    unfold opening in H. apply bind_Raise in H.
    destruct H as [H|([price text] & _ & H)]; [|discriminate].
    apply seller_opening_raises in H. exact H.
  - rewrite state_at_succ in H. apply bind_Raise in H.
    destruct H as [H|(c & Hc & H)]; [apply IH; exact H|].
    destruct c as [e|s]; [discriminate|].
    apply (round_body_raises k s); [|exact H].
    apply (enters_inv llm goods buyer_budget seller_min k s). exact Hc.
Qed.

Lemma negotiation_raises (x : py_exn) :
  negotiation llm (MockBuyerAgent.agent llm) goods buyer_budget seller_min
    = Raise x -> x = OverflowError.
Proof.
  rewrite negotiation_state_at. intros H. apply bind_Raise in H.
  destruct H as [H|(c & _ & H)]; [|discriminate].
  apply state_at_raises in H. exact H.
Qed.

End Raises.

Section Comparisons.
Local Open Scope Q_scope.

Lemma inject_Z_nonneg (z : Z) : (0 <= z)%Z -> 0 <= inject_Z z.
Proof. intros H. change 0 with (inject_Z 0). rewrite <- Zle_Qle. exact H. Qed.

(** Five per cent on a non-negative offer never lowers it, and fifteen
    per cent gives at least as much. *)
Lemma markup_not_below (offer i : Z) (c : Py.float) :
  c = f1_05 \/ c = f1_15 -> (0 <= offer)%Z ->
  Py.int_of_product offer c = Ok i -> (offer <= i)%Z.
Proof.
  intros Hc Ho Hi.
  assert (Hok : literal_ok c = true) by (destruct Hc; subst; reflexivity).
  destruct (int_of_product_nonneg_bounds offer c i Hok Ho Hi) as [Hlo _].
  destruct literal_bounds as (_ & _ & H105 & _ & _ & H115).
  destruct delta_small as [Hd0 Hd].
  pose proof (inject_Z_nonneg offer Ho) as Hq.
  assert (Hc1 : 104 # 100 <= F2Q c) by (destruct Hc; subst; lra).
  apply inject_Z_lt_le.
  assert (inject_Z offer <= (1 - delta) * (inject_Z offer * F2Q c)); [|lra].
  assert (1 <= (1 - delta) * F2Q c) by nra. nra.
Qed.

Lemma pressure_markup_smaller (offer i j : Z) :
  (0 <= offer)%Z ->
  Py.int_of_product offer f1_05 = Ok i ->
  Py.int_of_product offer f1_15 = Ok j -> (i <= j)%Z.
Proof.
  intros Ho Hi Hj.
  destruct (int_of_product_nonneg_bounds offer f1_05 i eq_refl Ho Hi)
    as [_ Hhi].
  destruct (int_of_product_nonneg_bounds offer f1_15 j eq_refl Ho Hj)
    as [Hlo _].
  destruct literal_bounds as (_ & _ & _ & H105 & _ & H115).
  destruct delta_small as [Hd0 Hd].
  pose proof (inject_Z_nonneg offer Ho) as Hq.
  apply inject_Z_lt_le.
  assert ((1 + delta) * (inject_Z offer * F2Q f1_05)
          <= (1 - delta) * (inject_Z offer * F2Q f1_15)); [|lra].
  assert ((1 + delta) * F2Q f1_05 <= (1 - delta) * F2Q f1_15) by nra.
  nra.
Qed.

(** A candidate that is not near a non-negative asking price is below it. *)
Lemma not_near_below (candidate seller_price : Z) :
  (0 <= seller_price)%Z -> (seller_price < 2 ^ 960)%Z ->
  Py.gt_product candidate seller_price f0_95 = Ok false ->
  (candidate <= seller_price)%Z /\
  ((0 < seller_price)%Z -> (candidate < seller_price)%Z).
Proof.
  intros Hs Hr H. unfold Py.gt_product in H.
  destruct (int_mul_float_in_range seller_price f0_95 eq_refl)
    as (t & Ht & Hn); [lia|].
  rewrite Ht in H. cbn [bind] in H. inversion H as [Hb]; clear H.
  destruct (int_mul_float_value seller_price f0_95 t eq_refl Ht)
    as [->|[(_ & Hv & _) _]]; [contradiction|].
  destruct (Hv Hs) as [_ Hhi].
  assert (Hle : ~ F2Q t < inject_Z candidate).
  { intros Hlt. apply (int_gt_float_spec candidate t Hn) in Hlt. congruence. }
  apply Qnot_lt_le in Hle.
  destruct literal_bounds as (_ & H95 & _).
  destruct delta_small as [Hd0 Hd].
  pose proof (inject_Z_nonneg seller_price Hs) as Hq.
  assert (Hc : (1 + delta) * F2Q f0_95 <= 97 # 100) by nra.
  assert (Hub : inject_Z candidate <= (97 # 100) * inject_Z seller_price)
    by nra.
  split.
  - rewrite Zle_Qle. lra.
  - intros Hpos. rewrite Zlt_Qlt.
    assert (0 < inject_Z seller_price)
      by (change 0 with (inject_Z 0); rewrite <- Zlt_Qlt; exact Hpos).
    lra.
Qed.

Lemma int_ge_float_mono (z z' : Z) (t : Py.float) :
  (z <= z')%Z -> Py.int_ge_float z t = true -> Py.int_ge_float z' t = true.
Proof.
  intros Hz H. destruct t as [s|s| |s m e]; try (exact H).
  - apply (int_ge_float_spec z (S754_zero s) I) in H.
    apply (int_ge_float_spec z' (S754_zero s) I).
    rewrite Zle_Qle in Hz. lra.
  - apply (int_ge_float_spec z (S754_finite s m e) I) in H.
    apply (int_ge_float_spec z' (S754_finite s m e) I).
    rewrite Zle_Qle in Hz. lra.
Qed.

Lemma int_lt_float_mono (z z' : Z) (t : Py.float) :
  (z' <= z)%Z -> Py.int_lt_float z t = true -> Py.int_lt_float z' t = true.
Proof.
  intros Hz H. destruct t as [s|s| |s m e]; try (exact H).
  - apply (int_lt_float_spec z (S754_zero s) I) in H.
    apply (int_lt_float_spec z' (S754_zero s) I).
    rewrite Zle_Qle in Hz. lra.
  - apply (int_lt_float_spec z (S754_finite s m e) I) in H.
    apply (int_lt_float_spec z' (S754_finite s m e) I).
    rewrite Zle_Qle in Hz. lra.
Qed.

End Comparisons.

Section Openings.
Local Open Scope Q_scope.

Lemma opening_bounds : F2Q f0_6 <= 61 # 100 /\ 149 # 100 <= F2Q f1_5.
Proof. split; apply Qle_bool_iff; vm_compute; reflexivity. Qed.

(** Sixty per cent of a non-negative price is at most the price, and one
    hundred and fifty per cent at least. *)
Lemma opening_markups (b i j : Z) :
  (0 <= b)%Z ->
  Py.int_of_product b f0_6 = Ok i -> Py.int_of_product b f1_5 = Ok j ->
  (i <= b <= j)%Z.
Proof.
  intros Hb Hi Hj.
  destruct (int_of_product_nonneg_bounds b f0_6 i eq_refl Hb Hi) as [_ Hhi].
  destruct (int_of_product_nonneg_bounds b f1_5 j eq_refl Hb Hj) as [Hlo _].
  destruct opening_bounds as [H06 H15].
  destruct delta_small as [Hd0 Hd].
  pose proof (inject_Z_nonneg b Hb) as Hq.
  assert (H1 : (1 + delta) * F2Q f0_6 <= 1) by nra.
  assert (H2 : 1 <= (1 - delta) * F2Q f1_5) by nra.
  split.
  - rewrite Zle_Qle. nra.
  - apply inject_Z_lt_le. nra.
Qed.

End Openings.

(** * Further properties of the run *)

(** X1.  The bookkeeping of [run_negotiation_test]: the product and the
    budget of the context never change; when round k + 1 starts the round
    counter is k, k buyer offers and k + 1 seller prices are recorded, and
    the price the buyer reacts to is the last recorded seller price.  At
    the end the number of buyer offers is the round count, and the seller
    prices are as many when a deal was made and one more when not. *)
Theorem context_shape (llm : NegotiationLLM) (goods : Product)
    (buyer_budget seller_min : Z) :
  (forall k s,
     enters llm (MockBuyerAgent.agent llm) goods buyer_budget seller_min k s ->
     product (context s) = goods /\
     your_budget (context s) = buyer_budget /\
     current_round (context s) = Z.of_nat k /\
     List.length (your_offers (context s)) = k /\
     List.length (seller_offers (context s)) = S k /\
     Py.last_item (seller_offers (context s)) = Ok (seller_price s)) /\
  (forall e,
     negotiation llm (MockBuyerAgent.agent llm) goods buyer_budget seller_min
       = Ok e ->
     product (exit_context e) = goods /\
     your_budget (exit_context e) = buyer_budget /\
     Z.of_nat (List.length (your_offers (exit_context e)))
       = current_round (exit_context e) /\
     List.length (seller_offers (exit_context e))
       = if exit_deal_made e
         then List.length (your_offers (exit_context e))
         else S (List.length (your_offers (exit_context e)))).
Proof.
  split.
  - intros k s Hs.
    pose proof (enters_inv llm goods buyer_budget seller_min k s Hs)
      as (Hp & Hb & Hr & Hl & _ & Hlast & p0 & counters & Hso & Hcl & _).
    repeat split; auto. rewrite Hso. cbn. lia.
  - intros e He.
    pose proof (negotiation_exit_inv llm goods buyer_budget seller_min e He)
      as (Hp & Hb & _ & Hl & _).
    split; [exact Hp|]. split; [exact Hb|]. split; [exact Hl|].
    destruct (exit_shape llm goods buyer_budget seller_min e He)
      as (r & _ & _ & Hlen & [H|[H|H]]).
    + destruct H as (-> & _ & Hso & _). congruence.
    + destruct H as (-> & Hso & _). congruence.
    + destruct H as (-> & -> & Hso & _). congruence.
Qed.

Lemma context_shape_witness :
  exists e,
    negotiation canned_llm (MockBuyerAgent.agent canned_llm) alphonso 180000
      153000 = Ok e /\
    exit_deal_made e = true /\
    List.length (your_offers (exit_context e)) = 6%nat /\
    List.length (seller_offers (exit_context e)) = 6%nat.
Proof.
  eexists. split; [vm_compute; reflexivity|].
  destruct (context_shape canned_llm alphonso 180000 153000) as [_ H].
  edestruct H as (_ & _ & Hl & Hs); [vm_compute; reflexivity|].
  split; [reflexivity|]. split; [reflexivity | exact Hs].
Defined.

(** X2.  The conversation of a run alternates between the two parties,
    the seller first: when round k + 1 starts it holds k exchanges and the
    seller's latest message.  A run that the buyer closes in round r ends
    after r exchanges, on the buyer's message, at the last recorded seller
    price; a run that the seller closes, or that no one closes, ends on a
    seller's message after r exchanges, the deal (if any) at the buyer's
    last offer.  The report returns this conversation. *)
Theorem conversation_alternates (llm : NegotiationLLM) (goods : Product)
    (buyer_budget seller_min : Z) :
  (forall k s,
     enters llm (MockBuyerAgent.agent llm) goods buyer_budget seller_min k s ->
     roles (context s) = turns k ++ ["seller"%string]) /\
  (forall e,
     negotiation llm (MockBuyerAgent.agent llm) goods buyer_budget seller_min
       = Ok e ->
     exists r,
       current_round (exit_context e) = Z.of_nat r /\
       ((exit_deal_made e = true /\ (2 <= r)%nat /\
         roles (exit_context e) = turns r /\
         exists p, exit_final_price e = Some p /\
                   Py.last_item (seller_offers (exit_context e)) = Ok p) \/
        (exit_deal_made e = true /\
         roles (exit_context e) = turns r ++ ["seller"%string] /\
         exists p, exit_final_price e = Some p /\
                   Py.last_item (your_offers (exit_context e)) = Ok p) \/
        (exit_deal_made e = false /\ r = 10%nat /\
         roles (exit_context e) = turns 10 ++ ["seller"%string]))) /\
  (forall o,
     run_negotiation_test llm (MockBuyerAgent.agent llm) goods buyer_budget
       seller_min = Ok o ->
     exists r,
       rounds o = Z.of_nat r /\
       (map role (conversation o) = turns r \/
        map role (conversation o) = turns r ++ ["seller"%string])).
Proof.
  split; [|split].
  - intros k s Hs. apply (enters_roles llm goods buyer_budget seller_min k s Hs).
  - intros e He.
    destruct (exit_shape llm goods buyer_budget seller_min e He)
      as (r & Hr & _ & _ & [H|[H|H]]); exists r; (split; [exact Hr|]).
    + left. destruct H as (Hd & H2 & _ & Hro & p & Hp & Hlast & _).
      repeat split; auto. exists p. auto.
    + right. left. destruct H as (Hd & _ & Hro & p & Hp & Hlast & _).
      repeat split; auto. exists p. auto.
    + right. right. destruct H as (Hd & H10 & _ & Hro & _). auto.
  - intros o Ho. unfold run_negotiation_test in Ho. apply bind_Ok in Ho.
    destruct Ho as (e & He & Ho). apply outcome_fields in Ho.
    destruct Ho as (_ & _ & Hr & Hc).
    destruct (exit_shape llm goods buyer_budget seller_min e He)
      as (r & Hr' & _ & _ & H).
    exists r. split; [congruence|]. rewrite Hc. fold (roles (exit_context e)).
    destruct H as [H|[H|H]].
    + left. apply H.
    + right. apply H.
    + right. destruct H as (_ & -> & _ & Hro & _). exact Hro.
Qed.

Lemma conversation_alternates_witness :
  exists e,
    negotiation canned_llm (MockBuyerAgent.agent canned_llm) alphonso 216000
      144000 = Ok e /\
    map role (messages (exit_context e))
      = ["seller"; "buyer"; "seller"; "buyer"]%string /\
    exists r,
      current_round (exit_context e) = Z.of_nat r /\
      ((exit_deal_made e = true /\ (2 <= r)%nat /\
        roles (exit_context e) = turns r /\
        exists p, exit_final_price e = Some p /\
                  Py.last_item (seller_offers (exit_context e)) = Ok p) \/
       (exit_deal_made e = true /\
        roles (exit_context e) = turns r ++ ["seller"%string] /\
        exists p, exit_final_price e = Some p /\
                  Py.last_item (your_offers (exit_context e)) = Ok p) \/
       (exit_deal_made e = false /\ r = 10%nat /\
        roles (exit_context e) = turns 10 ++ ["seller"%string])).
Proof.
  eexists. split; [vm_compute; reflexivity|]. split; [reflexivity|].
  destruct (conversation_alternates canned_llm alphonso 216000 144000)
    as (_ & H & _).
  apply H. vm_compute. reflexivity.
Defined.

(** X3.  Every deal lies in the zone of agreement: the final price is never
    above the buyer's budget and, for a seller floor that is not negative,
    never below the floor; the reported savings are budget minus final
    price and are not negative. *)
Theorem deal_between_floor_and_budget (llm : NegotiationLLM) (goods : Product)
    (buyer_budget seller_min : Z) :
  0 <= seller_min ->
  (forall e p,
     negotiation llm (MockBuyerAgent.agent llm) goods buyer_budget seller_min
       = Ok e ->
     exit_final_price e = Some p -> seller_min <= p <= buyer_budget) /\
  (forall o,
     run_negotiation_test llm (MockBuyerAgent.agent llm) goods buyer_budget
       seller_min = Ok o ->
     deal_made o = true ->
     exists p, final_price o = Some p /\ seller_min <= p <= buyer_budget /\
               savings o = buyer_budget - p /\ 0 <= savings o).
Proof.
  intros Hmin.
  assert (Hexit : forall e p,
    negotiation llm (MockBuyerAgent.agent llm) goods buyer_budget seller_min
      = Ok e ->
    exit_final_price e = Some p -> seller_min <= p <= buyer_budget).
  { intros e p He Hp.
    destruct (exit_shape llm goods buyer_budget seller_min e He)
      as (r & _ & _ & _ & [H|[H|H]]).
    - destruct H as (_ & _ & _ & _ & q & Hq & _ & Hlt & Hge).
      assert (q = p) by congruence. subst q. lia.
    - destruct H as (_ & _ & _ & q & Hq & _ & Hle & Hge).
      assert (q = p) by congruence. subst q.
      pose proof (ge_product_true_ge p seller_min Hmin Hge). lia.
    - destruct H as (_ & _ & _ & _ & Hnone). congruence. }
  split; [exact Hexit|].
  intros o Ho Hd. unfold run_negotiation_test in Ho. apply bind_Ok in Ho.
  destruct Ho as (e & He & Ho). unfold outcome in Ho.
  destruct (exit_deal_made e).
  - destruct (exit_final_price e) as [p|] eqn:Hp; [|discriminate].
    apply bind_Ok in Ho. destruct Ho as (sp & _ & Ho).
    apply bind_Ok in Ho. destruct Ho as (bp & _ & Ho).
    inversion Ho; subst o; clear Ho. cbn.
    pose proof (Hexit e p He Hp). exists p. repeat split; lia.
  - inversion Ho; subst o. discriminate.
Qed.

Lemma deal_between_floor_and_budget_witness :
  0 <= 122999 /\
  exists o,
    run_negotiation_test canned_llm (MockBuyerAgent.agent canned_llm) kesar
      135000 122999 = Ok o /\
    deal_made o = true /\
    exists p, final_price o = Some p /\ 122999 <= p <= 135000 /\
              savings o = 135000 - p /\ 0 <= savings o.
Proof.
  split; [lia|].
  destruct (deal_between_floor_and_budget canned_llm kesar 135000 122999)
    as [_ H]; [lia|].
  eexists. split; [vm_compute; reflexivity|]. split; [reflexivity|].
  apply H; [vm_compute; reflexivity | reflexivity].
Defined.

(** X4.  Without a zone of agreement there is no deal: when the budget is
    below a seller floor that is not negative, every run goes through all
    ten rounds and reports no deal, no final price and no savings; on inputs
    below [2 ^ 900] in size the report is returned. *)
Theorem no_overlap_no_deal (llm : NegotiationLLM) (goods : Product)
    (buyer_budget seller_min : Z) :
  0 <= seller_min -> buyer_budget < seller_min ->
  (forall e,
     negotiation llm (MockBuyerAgent.agent llm) goods buyer_budget seller_min
       = Ok e ->
     exit_deal_made e = false /\ exit_final_price e = None /\
     current_round (exit_context e) = 10) /\
  (forall o,
     run_negotiation_test llm (MockBuyerAgent.agent llm) goods buyer_budget
       seller_min = Ok o ->
     deal_made o = false /\ final_price o = None /\ rounds o = 10 /\
     savings o = 0) /\
  (Z.abs (base_market_price goods) < 2 ^ 900 ->
   Z.abs buyer_budget < 2 ^ 900 -> Z.abs seller_min < 2 ^ 900 ->
   exists o,
     run_negotiation_test llm (MockBuyerAgent.agent llm) goods buyer_budget
       seller_min = Ok o).
Proof.
  intros Hmin Hlt.
  assert (Hexit : forall e,
    negotiation llm (MockBuyerAgent.agent llm) goods buyer_budget seller_min
      = Ok e ->
    exit_deal_made e = false /\ exit_final_price e = None /\
    current_round (exit_context e) = 10).
  { intros e He.
    destruct (exit_shape llm goods buyer_budget seller_min e He)
      as (r & Hr & _ & _ & [H|[H|H]]).
    - destruct H as (_ & _ & _ & _ & q & _ & _ & Hq & Hge). lia.
    - destruct H as (_ & _ & _ & q & _ & _ & Hle & Hge).
      pose proof (ge_product_true_ge q seller_min Hmin Hge). lia.
    - destruct H as (Hd & -> & _ & _ & Hnone). auto. }
  split; [exact Hexit|]. split.
  - intros o Ho. unfold run_negotiation_test in Ho. apply bind_Ok in Ho.
    destruct Ho as (e & He & Ho).
    destruct (Hexit e He) as (Hd & Hp & Hr).
    unfold outcome in Ho. rewrite Hd in Ho. inversion Ho; subst o. cbn. auto.
  - intros Hbase Hbud Hm.
    destruct (negotiation_total llm goods buyer_budget seller_min
                Hbase Hbud Hm) as (e & He & _).
    destruct (Hexit e He) as (Hd & _).
    unfold run_negotiation_test. rewrite He. cbn [bind].
    unfold outcome. rewrite Hd. eexists. reflexivity.
Qed.

Lemma no_overlap_no_deal_witness :
  0 <= 65000 /\ 60000 < 65000 /\
  exists o,
    run_negotiation_test canned_llm (MockBuyerAgent.agent canned_llm)
      (priced 100000 alphonso) 60000 65000 = Ok o /\
    deal_made o = false /\ final_price o = None /\ rounds o = 10 /\
    savings o = 0.
Proof.
  split; [lia|]. split; [lia|].
  destruct (no_overlap_no_deal canned_llm (priced 100000 alphonso) 60000 65000)
    as (_ & H & _); [lia | lia |].
  eexists. split; [vm_compute; reflexivity|].
  apply H. vm_compute. reflexivity.
Defined.

(** X13.  The bid never exceeds the ask.  In a run with a base market
    price and a seller floor that are not negative (and inputs below
    [2 ^ 900]), in every round the price the buyer reacts to is not
    negative and the offer the buyer records is at most that price. *)
Theorem bid_below_ask (llm : NegotiationLLM) (goods : Product)
    (buyer_budget seller_min : Z) (k : nat) (s : LoopState)
    (status : DealStatus) (offer : Z) (text : string)
    (ctx : NegotiationContext) :
  0 <= base_market_price goods < 2 ^ 900 ->
  Z.abs buyer_budget < 2 ^ 900 ->
  0 <= seller_min < 2 ^ 900 ->
  (k < 10)%nat ->
  enters llm (MockBuyerAgent.agent llm) goods buyer_budget seller_min k s ->
  buyer_turn (MockBuyerAgent.agent llm) (Z.of_nat k) s
    = Ok (status, offer, text, ctx) ->
  0 <= seller_price s /\ offer <= seller_price s.
Proof.
  intros Hbase Hbud Hmin Hk Hs Hb.
  pose proof (enters_inv llm goods buyer_budget seller_min k s Hs)
    as (Hp & Hbu & _ & _ & _ & Hlast & p0 & counters & Hso & Hcl & Hc).
  apply buyer_turn_cases in Hb. destruct Hb as [_ [(Hk0 & _ & Ho)|(Hk0 & Hr)]].
  - assert (k = 0%nat) by lia. clear Hcl Hc Hso Hlast. subst k.
    unfold enters, state_at in Hs. apply bind_Ok in Hs.
    destruct Hs as (s0 & Hs0 & Hs). cbn in Hs.
    assert (s0 = s) by congruence. subst s0. clear Hs.
    unfold opening in Hs0. apply bind_Ok in Hs0.
    destruct Hs0 as ([price reply] & Hopen & Hs0).
    assert (Hsp : seller_price s = price) by (inversion Hs0; reflexivity).
    unfold Seller.get_opening_price in Hopen. apply bind_Ok in Hopen.
    destruct Hopen as (j & Hj & Hopen).
    assert (price = j) by congruence. subst price.
    unfold MockBuyerAgent.generate_opening_offer in Ho. apply bind_Ok in Ho.
    destruct Ho as (i & Hi & Ho).
    cbn [product your_budget set_current_round] in Hi, Ho.
    rewrite Hp in Hi.
    assert (Hoffer : offer = Z.min i (your_budget (context s)))
      by congruence.
    pose proof (opening_markups (base_market_price goods) i j
                  (proj1 Hbase) Hi Hj).
    lia.
  - assert (Hge : seller_min <= seller_price s).
    { rewrite Forall_forall in Hc. apply Hc. apply (last_item_In p0).
      - intros E. rewrite E in Hcl. cbn in Hcl. lia.
      - rewrite <- Hso. exact Hlast. }
    assert (Hlt : seller_price s < 2 ^ 960).
    { destruct (state_total llm goods buyer_budget seller_min) with (k := k)
        as (c & Hc' & Hbd); try lia.
      unfold enters in Hs. rewrite Hs in Hc'. inversion Hc'; subst c.
      destruct Hbd as [Hsp _].
      assert (2 ^ 910 * 4 ^ Z.of_nat k <= 2 ^ 930).
      { change (2 ^ 930) with (2 ^ 910 * 4 ^ 10).
        apply Z.mul_le_mono_nonneg_l; [lia|]. apply Z.pow_le_mono_r; lia. }
      assert (2 ^ 930 < 2 ^ 960) by (apply Z.pow_lt_mono_r; lia).
      lia. }
    split; [lia|].
    apply buyer_respond_cases in Hr.
    destruct Hr as [(_ & _ & ->)|(_ & _ & l & i & near & _ & _ & Hn & ->)];
      [lia|].
    destruct near; [lia|].
    destruct (not_near_below _ _ (Z.le_trans _ _ _ (proj1 Hmin) Hge) Hlt Hn)
      as [Hle _].
    exact Hle.
Qed.

Lemma bid_below_ask_witness :
  exists s status text ctx,
    enters canned_llm (MockBuyerAgent.agent canned_llm) alphonso 180000 153000
      3 s /\
    seller_price s = 153000 /\
    buyer_turn (MockBuyerAgent.agent canned_llm) 3 s
      = Ok (status, 143748, text, ctx) /\
    0 <= seller_price s /\ 143748 <= seller_price s.
Proof.
  do 4 eexists. split; [vm_compute; reflexivity|]. split; [reflexivity|].
  split; [vm_compute; reflexivity|].
  eapply (bid_below_ask canned_llm alphonso 180000 153000 3);
    [ split; [discriminate | reflexivity]
    | reflexivity
    | split; [discriminate | reflexivity]
    | lia
    | vm_compute; reflexivity
    | vm_compute; reflexivity ].
Defined.

(** X5.  A whole run does not depend on the text generator: with any two
    generators the loop ends with the same prices, offers, round count and
    deal (or raises the same exception), and the report has the same
    figures; only the conversation differs. *)
Theorem run_text_independence (llm1 llm2 : NegotiationLLM) (goods : Product)
    (buyer_budget seller_min : Z) :
  fmap no_text_exit
    (negotiation llm1 (MockBuyerAgent.agent llm1) goods buyer_budget seller_min)
  = fmap no_text_exit
      (negotiation llm2 (MockBuyerAgent.agent llm2) goods buyer_budget
         seller_min) /\
  fmap figures
    (run_negotiation_test llm1 (MockBuyerAgent.agent llm1) goods buyer_budget
       seller_min)
  = fmap figures
      (run_negotiation_test llm2 (MockBuyerAgent.agent llm2) goods
         buyer_budget seller_min).
Proof. split; [apply negotiation_no_text | apply run_no_text]. Qed.

Lemma test_scenario_no_text (llm1 llm2 : NegotiationLLM) (p : Product)
    (scenario : Scenario) (totals : Z * Z) :
  test_scenario llm1 p scenario totals = test_scenario llm2 p scenario totals.
Proof.
  unfold test_scenario. destruct totals as [total_savings deals_made].
  destruct (scenario_inputs scenario p) as [[buyer_budget seller_min]|x];
    cbn [bind]; [|reflexivity].
  pose proof (run_no_text llm1 llm2 p buyer_budget seller_min) as H.
  destruct (run_negotiation_test llm1 _ p buyer_budget seller_min) as [o1|x1];
    destruct (run_negotiation_test llm2 _ p buyer_budget seller_min)
      as [o2|x2]; cbn [fmap bind] in H |- *; try discriminate;
    try (inversion H; subst; reflexivity).
Qed.

Lemma for_each_ext {A S : Type} (f g : A -> S -> result S) (l : list A) :
  (forall a s, f a s = g a s) -> forall s, for_each f l s = for_each g l s.
Proof.
  intros H. induction l as [|a l IH]; intros s; [reflexivity|].
  cbn [for_each]. rewrite H. destruct (g a s) as [s'|x]; cbn [bind];
    [apply IH | reflexivity].
Qed.

(** X6.  [test_agent]: whatever the text generator answers, all six
    scenarios end in a deal and the total savings are 158401; the hard
    scenario of the Kesar product closes at the seller's floor
    int(150000 * 0.82) = 122999. *)
Theorem test_agent_totals (llm : NegotiationLLM) :
  test_agent llm = Ok (158401, 6) /\
  map (fun '(scenario, p) => run_scenario llm scenario p)
      [(easy, alphonso); (medium, alphonso); (hard, alphonso);
       (easy, kesar); (medium, kesar); (hard, kesar)]
  = [Ok (true, Some 144000, 2); Ok (true, Some 180000, 6);
     Ok (true, Some 147600, 2);
     Ok (true, Some 120000, 2); Ok (true, Some 150000, 6);
     Ok (true, Some 122999, 2)].
Proof.
  split.
  - transitivity (test_agent canned_llm); [|vm_compute; reflexivity].
    unfold test_agent, test_agent_on. apply for_each_ext. intros p s.
    apply for_each_ext. intros scenario t. apply test_scenario_no_text.
  - assert (H : forall scenario p,
      run_scenario llm scenario p = run_scenario canned_llm scenario p).
    { intros scenario p. unfold run_scenario.
      destruct (scenario_inputs scenario p) as [[b m]|x]; cbn [bind];
        [|reflexivity].
      pose proof (negotiation_no_text llm canned_llm p b m) as Hn.
      unfold summary.
      destruct (negotiation llm _ p b m) as [e1|x1];
        destruct (negotiation canned_llm _ p b m) as [e2|x2];
        cbn [fmap bind] in Hn |- *; try discriminate;
        try (inversion Hn; subst; reflexivity). }
    cbn [map]. rewrite !H. vm_compute. reflexivity.
Qed.

(** X7.  The exceptions of a run, for a text generator that answers every
    request: [llm] is a function from requests to texts, so what
    [NegotiationLLM().call] or [print] may raise is outside this statement.
    The prices and tests of the negotiation loop then raise nothing but
    OverflowError (a price too large for a float); in particular the
    buyer's [your_offers[-1]] never fails inside a run.  The whole test
    raises OverflowError, or ZeroDivisionError when a deal was made and the
    budget or the base market price is zero.  A base market price of
    [2 ^ 1024] does raise OverflowError. *)
Theorem run_exceptions (llm : NegotiationLLM) (goods : Product)
    (buyer_budget seller_min : Z) (x : py_exn) :
  (negotiation llm (MockBuyerAgent.agent llm) goods buyer_budget seller_min
     = Raise x -> x = OverflowError) /\
  (run_negotiation_test llm (MockBuyerAgent.agent llm) goods buyer_budget
     seller_min = Raise x ->
   x = OverflowError \/
   (x = ZeroDivisionError /\
    (buyer_budget = 0 \/ base_market_price goods = 0) /\
    exists e,
      negotiation llm (MockBuyerAgent.agent llm) goods buyer_budget seller_min
        = Ok e /\ exit_deal_made e = true)) /\
  run_negotiation_test llm (MockBuyerAgent.agent llm)
    (priced (2 ^ 1024) goods) buyer_budget seller_min = Raise OverflowError.
Proof.
  split; [apply negotiation_raises|]. split.
  - intros H. unfold run_negotiation_test in H. apply bind_Raise in H.
    destruct H as [H|(e & He & H)];
      [left; apply negotiation_raises in H; exact H|].
    unfold outcome in H. destruct (exit_deal_made e) eqn:Hd; [|discriminate].
    destruct (exit_final_price e) as [p|] eqn:Hp.
    + apply bind_Raise in H. destruct H as [H|(sp & _ & H)].
      * apply percent_below_raises in H.
        destruct H as [H|[H1 H2]]; [left; exact H|].
        right. split; [exact H1|]. split; [left; exact H2|]. exists e. auto.
      * apply bind_Raise in H. destruct H as [H|(bp & _ & H)]; [|discriminate].
        apply percent_below_raises in H.
        destruct H as [H|[H1 H2]]; [left; exact H|].
        right. split; [exact H1|]. split; [right; exact H2|]. exists e. auto.
    + exfalso.
      destruct (exit_shape llm goods buyer_budget seller_min e He)
        as (r & _ & _ & _ & [H'|[H'|H']]).
      * destruct H' as (_ & _ & _ & _ & q & Hq & _). congruence.
      * destruct H' as (_ & _ & _ & q & Hq & _). congruence.
      * destruct H' as (Hd' & _). congruence.
  - unfold run_negotiation_test, negotiation, opening,
      Seller.get_opening_price, Py.int_of_product, Py.int_mul_float.
    cbn [base_market_price priced].
    replace (Py.float_of_int (2 ^ 1024)) with (@Raise Py.float OverflowError)
      by (vm_compute; reflexivity).
    reflexivity.
Qed.

(** X8.  The errors of [respond_to_seller_offer], for a text generator
    that answers every request: [llm] is a function from requests to texts,
    so what [NegotiationLLM().call] may raise is outside this statement.
    The decision itself raises nothing but OverflowError and IndexError,
    and it raises IndexError exactly when the buyer has made no offer yet
    and the seller's price fails the acceptance test (an acceptable price
    is accepted even with an empty history). *)
Theorem buyer_respond_errors (llm : NegotiationLLM)
    (context : NegotiationContext) (seller_price : Z)
    (seller_message : string) :
  (forall x,
     MockBuyerAgent.respond_to_seller_offer llm context seller_price
       seller_message = Raise x ->
     x = OverflowError \/ x = IndexError) /\
  (MockBuyerAgent.respond_to_seller_offer llm context seller_price
     seller_message = Raise IndexError <->
   your_offers context = [] /\
   MockBuyerAgent.accept_test context seller_price = Ok false) /\
  (your_offers context = [] ->
   MockBuyerAgent.accept_test context seller_price = Ok true ->
   exists text,
     MockBuyerAgent.respond_to_seller_offer llm context seller_price
       seller_message = Ok (ACCEPTED, seller_price, text)).
Proof.
  split; [|split].
  - intros x H. apply buyer_respond_raises in H.
    destruct H as [H|(H & _)]; auto.
  - split.
    + intros H. apply buyer_respond_raises in H.
      destruct H as [H|(_ & H)]; [discriminate | exact H].
    + intros [Hnil Hacc]. unfold MockBuyerAgent.respond_to_seller_offer.
      rewrite Hacc, Hnil. reflexivity.
  - intros _ Hacc. unfold MockBuyerAgent.respond_to_seller_offer.
    rewrite Hacc. cbn [bind]. eexists. reflexivity.
Qed.

Lemma buyer_respond_errors_witness :
  MockBuyerAgent.respond_to_seller_offer canned_llm
    {| product := alphonso; your_budget := 180000; current_round := 1;
       seller_offers := [270000]; your_offers := []; messages := [] |}
    270000 "ok" = Raise IndexError.
Proof.
  apply buyer_respond_errors. split; [reflexivity | vm_compute; reflexivity].
Defined.

(** * Further properties of the strategies *)

(** X9.  The seller never undercuts the buyer: for a buyer offer that is
    not negative the price the seller returns is at least the offer (the
    offer itself on acceptance), and a counter is at least [min_price]. *)
Theorem seller_never_undercuts (llm : NegotiationLLM) (self : MockSellerAgent)
    (buyer_offer round_num : Z) (buyer_message : string) (price : Z)
    (text : string) (accepted : bool) :
  0 <= buyer_offer ->
  Seller.respond_to_buyer_offer llm self buyer_offer round_num buyer_message
    = Ok (price, text, accepted) ->
  buyer_offer <= price /\
  (accepted = true -> price = buyer_offer) /\
  (accepted = false -> min_price self <= price).
Proof.
  intros Ho H. apply seller_respond_cases in H.
  destruct H as [(_ & -> & ->)|(_ & -> & i & Hi & ->)].
  - split; [lia|]. split; [reflexivity | discriminate].
  - assert (Hle : buyer_offer <= i).
    { apply (markup_not_below buyer_offer i
               (if round_num >=? 8 then f1_05 else f1_15));
        [destruct (round_num >=? 8); auto | exact Ho | exact Hi]. }
    split; [lia|]. split; [discriminate | lia].
Qed.

Lemma seller_never_undercuts_witness :
  0 <= 143748 /\
  exists text,
    Seller.respond_to_buyer_offer canned_llm (Seller.init 153000) 143748 3 "ok"
      = Ok (165310, text, false) /\
    143748 <= 165310.
Proof.
  split; [lia|]. eexists. split; [vm_compute; reflexivity|].
  eapply (seller_never_undercuts canned_llm (Seller.init 153000) 143748 3
            "ok"%string); [lia | vm_compute; reflexivity].
Defined.

(** X10.  The buyer never bids above the asking price: for a seller price
    from 0 to below [2 ^ 960], [respond_to_seller_offer] either accepts at
    exactly that price, which is then below the budget, or stays ONGOING
    with an offer that is at most the budget and at most the seller's price,
    and below it when the price is positive.  It never returns REJECTED or
    TIMEOUT. *)
Theorem buyer_never_overbids (llm : NegotiationLLM)
    (context : NegotiationContext) (seller_price : Z)
    (seller_message : string) (status : DealStatus) (price : Z)
    (text : string) :
  0 <= seller_price < 2 ^ 960 ->
  MockBuyerAgent.respond_to_seller_offer llm context seller_price
    seller_message = Ok (status, price, text) ->
  (status = ACCEPTED /\ price = seller_price /\
   seller_price < your_budget context) \/
  (status = ONGOING /\ price <= your_budget context /\
   price <= seller_price /\ (0 < seller_price -> price < seller_price)).
Proof.
  intros [Hs Hr] H. apply buyer_respond_cases in H.
  destruct H as [(Ha & -> & ->)|(_ & -> & l & i & near & _ & _ & Hn & ->)].
  - left. apply buyer_accept_test_true in Ha. destruct Ha as [Hlt _]. auto.
  - right. split; [reflexivity|]. destruct near.
    + split; [lia|]. split; lia.
    + destruct (not_near_below _ _ Hs Hr Hn) as [Hle Hlt].
      split; [lia|]. split; [exact Hle | exact Hlt].
Qed.

Lemma buyer_never_overbids_witness :
  0 <= 153000 < 2 ^ 960 /\
  exists text,
    MockBuyerAgent.respond_to_seller_offer canned_llm
      {| product := alphonso; your_budget := 180000; current_round := 2;
         seller_offers := [270000; 153000]; your_offers := [108000];
         messages := [] |} 153000 "ok" = Ok (ONGOING, 118800, text) /\
    118800 < 153000.
Proof.
  assert (Hr : 0 <= 153000 < 2 ^ 960).
  { split; [lia|]. apply Z.ltb_lt. vm_compute. reflexivity. }
  split; [exact Hr|]. eexists. split; [vm_compute; reflexivity|].
  edestruct (buyer_never_overbids canned_llm
               {| product := alphonso; your_budget := 180000;
                  current_round := 2; seller_offers := [270000; 153000];
                  your_offers := [108000]; messages := [] |}
               153000 "ok"%string ONGOING 118800)
    as [(H & _)|(_ & _ & _ & H)];
    [exact Hr | vm_compute; reflexivity | discriminate | apply H; lia].
Defined.

(** X11.  A better price is never refused.  If the buyer accepts a seller
    price, it accepts every lower one, whatever the message; if the seller
    accepts a buyer offer, it accepts every higher one, whatever the round
    and the message. *)
Theorem acceptance_monotone (llm : NegotiationLLM)
    (context : NegotiationContext) (self : MockSellerAgent) :
  (forall seller_price lower message message' text,
     lower <= seller_price ->
     MockBuyerAgent.respond_to_seller_offer llm context seller_price message
       = Ok (ACCEPTED, seller_price, text) ->
     exists text',
       MockBuyerAgent.respond_to_seller_offer llm context lower message'
         = Ok (ACCEPTED, lower, text')) /\
  (forall buyer_offer higher round_num round_num' message message' text,
     buyer_offer <= higher ->
     Seller.respond_to_buyer_offer llm self buyer_offer round_num message
       = Ok (buyer_offer, text, true) ->
     exists text',
       Seller.respond_to_buyer_offer llm self higher round_num' message'
         = Ok (higher, text', true)).
Proof.
  split.
  - intros seller_price lower message message' text Hle H.
    apply buyer_respond_cases in H.
    destruct H as [(Ha & _)|(_ & Hon & _)]; [|discriminate].
    assert (Ha' : MockBuyerAgent.accept_test context lower = Ok true).
    { unfold MockBuyerAgent.accept_test in *.
      destruct (Z.ltb_spec seller_price (your_budget context)) as [Hb|Hb];
        [|discriminate].
      destruct (Z.ltb_spec lower (your_budget context)) as [Hb'|Hb']; [|lia].
      unfold Py.lt_product in *.
      destruct (Py.int_mul_float (base_market_price (product context)) f0_85)
        as [t|x]; [|discriminate].
      cbn [bind] in *. f_equal.
      apply (int_lt_float_mono seller_price lower t Hle). congruence. }
    unfold MockBuyerAgent.respond_to_seller_offer. rewrite Ha'. cbn [bind].
    eexists. reflexivity.
  - intros buyer_offer higher round_num round_num' message message' text Hle H.
    apply seller_respond_cases in H.
    destruct H as [(Ha & _)|(_ & Hacc & _)]; [|discriminate].
    assert (Ha' : Seller.accept_test self higher = Ok true).
    { unfold Seller.accept_test, Py.ge_product in *.
      destruct (Py.int_mul_float (min_price self) f1_1) as [t|x];
        [|discriminate].
      cbn [bind] in *. f_equal.
      apply (int_ge_float_mono buyer_offer higher t Hle). congruence. }
    unfold Seller.respond_to_buyer_offer. rewrite Ha'. cbn [bind].
    eexists. reflexivity.
Qed.

Lemma acceptance_monotone_witness :
  exists text text',
    Seller.respond_to_buyer_offer canned_llm (Seller.init 153000) 180000 5 "ok"
      = Ok (180000, text, true) /\
    Seller.respond_to_buyer_offer canned_llm (Seller.init 153000) 190000 9
      "fine" = Ok (190000, text', true).
Proof.
  destruct (acceptance_monotone canned_llm
              {| product := alphonso; your_budget := 180000;
                 current_round := 0; seller_offers := []; your_offers := [];
                 messages := [] |} (Seller.init 153000)) as [_ H].
  destruct (H 180000 190000 5 9 "ok"%string "fine"%string "ok"%string)
    as [text' H']; [lia | vm_compute; reflexivity |].
  exists "ok"%string, text'. split; [vm_compute; reflexivity | exact H'].
Defined.

(** X12.  Time pressure never raises the seller's counter: for a buyer
    offer that is not negative, the seller's answer in a round with
    [round_num >= 8] accepts exactly when the answer in an earlier round
    does, and its price is at most the earlier round's price. *)
Theorem pressure_counter_not_higher (llm : NegotiationLLM)
    (self : MockSellerAgent) (buyer_offer late early : Z)
    (message message' : string) (price price' : Z) (text text' : string)
    (accepted accepted' : bool) :
  0 <= buyer_offer -> 8 <= late -> early < 8 ->
  Seller.respond_to_buyer_offer llm self buyer_offer late message
    = Ok (price, text, accepted) ->
  Seller.respond_to_buyer_offer llm self buyer_offer early message'
    = Ok (price', text', accepted') ->
  accepted = accepted' /\ price <= price'.
Proof.
  intros Ho Hl He H H'.
  apply seller_respond_cases in H. apply seller_respond_cases in H'.
  destruct (Z.geb_spec late 8) as [_|]; [|lia].
  destruct (Z.geb_spec early 8) as [|_]; [lia|].
  destruct H as [(Hge & -> & ->)|(Hge & -> & i & Hi & ->)];
    destruct H' as [(Hge' & -> & ->)|(Hge' & -> & j & Hj & ->)];
    try congruence.
  - split; [reflexivity | lia].
  - split; [reflexivity|].
    pose proof (pressure_markup_smaller buyer_offer i j Ho Hi Hj). lia.
Qed.

Lemma pressure_counter_not_higher_witness :
  exists text text',
    Seller.respond_to_buyer_offer canned_llm (Seller.init 60000) 60000 8 "ok"
      = Ok (63000, text, false) /\
    Seller.respond_to_buyer_offer canned_llm (Seller.init 60000) 60000 7 "ok"
      = Ok (69000, text', false) /\
    false = false /\ 63000 <= 69000.
Proof.
  do 2 eexists. split; [vm_compute; reflexivity|].
  split; [vm_compute; reflexivity|].
  eapply (pressure_counter_not_higher canned_llm (Seller.init 60000) 60000 8 7
            "ok"%string "ok"%string);
    [lia | lia | lia | vm_compute; reflexivity | vm_compute; reflexivity].
Defined.

(** * A deal in the second round *)

Section SecondRound.
Variable llm : NegotiationLLM.
Variables (goods : Product) (buyer_budget seller_min : Z).

(** The seller answers the opening offer with its floor and the buyer takes
    it. *)
Lemma second_round_deal (opening_price offer counter : Z) :
  Py.int_of_product (base_market_price goods) f1_5 = Ok opening_price ->
  Py.int_of_product (base_market_price goods) f0_6 = Ok offer ->
  offer <= buyer_budget ->
  Py.ge_product offer seller_min f1_1 = Ok false ->
  Py.int_of_product offer f1_15 = Ok counter ->
  counter <= seller_min ->
  seller_min < buyer_budget ->
  Py.lt_product seller_min (base_market_price goods) f0_85 = Ok true ->
  exists e,
    negotiation llm (MockBuyerAgent.agent llm) goods buyer_budget seller_min
      = Ok e /\
    exit_deal_made e = true /\ exit_final_price e = Some seller_min /\
    current_round (exit_context e) = 2.
Proof.
  intros H15 H06 Hob Hge H115 Hcm Hmb Hlt.
  assert (H0 : exists s0,
    opening goods buyer_budget seller_min = Ok s0 /\
    product (context s0) = goods /\ your_budget (context s0) = buyer_budget).
  { unfold opening, Seller.get_opening_price. rewrite H15. cbn [bind].
    eexists. split; [reflexivity|]. split; reflexivity. }
  destruct H0 as (s0 & Hs0 & Hp0 & Hb0).
  assert (He0 : enters llm (MockBuyerAgent.agent llm) goods buyer_budget
                  seller_min 0 s0).
  { unfold enters, state_at. rewrite Hs0. reflexivity. }
  assert (H1 : exists s1,
    round_body llm (MockBuyerAgent.agent llm) (Seller.init seller_min)
      (Z.of_nat 0) s0 = Ok (Next s1) /\
    product (context s1) = goods /\ your_budget (context s1) = buyer_budget /\
    seller_price s1 = seller_min).
  { unfold round_body, buyer_turn.
    cbn [generate_opening_offer respond_to_seller_offer MockBuyerAgent.agent].
    change (Z.of_nat 0 =? 0) with true. cbv iota.
    unfold MockBuyerAgent.generate_opening_offer.
    cbn [product your_budget set_current_round].
    rewrite Hp0, Hb0, H06. cbn [bind DealStatus_eqb].
    rewrite (Z.min_l offer buyer_budget Hob).
    unfold Seller.respond_to_buyer_offer, Seller.accept_test.
    cbn [min_price Seller.init]. rewrite Hge. cbn [bind].
    change (Z.of_nat 0 >=? 8) with false. cbv iota.
    rewrite H115. cbn [bind].
    rewrite (Z.max_l seller_min counter) by lia.
    eexists. split; [reflexivity|].
    cbn [context seller_price product your_budget append_message
         append_seller_offer append_your_offer set_current_round].
    auto. }
  destruct H1 as (s1 & Hr0 & Hp1 & Hb1 & Hsp1).
  assert (He1 : enters llm (MockBuyerAgent.agent llm) goods buyer_budget
                  seller_min 1 s1).
  { apply (enters_step llm (MockBuyerAgent.agent llm) goods buyer_budget
             seller_min 0%nat s0 (Next s1) He0 Hr0). }
  assert (H2 : exists e,
    round_body llm (MockBuyerAgent.agent llm) (Seller.init seller_min)
      (Z.of_nat 1) s1 = Ok (Break e) /\
    exit_deal_made e = true /\ exit_final_price e = Some seller_min /\
    current_round (exit_context e) = 2).
  { unfold round_body, buyer_turn.
    cbn [generate_opening_offer respond_to_seller_offer MockBuyerAgent.agent].
    change (Z.of_nat 1 =? 0) with false. cbv iota.
    unfold MockBuyerAgent.respond_to_seller_offer, MockBuyerAgent.accept_test.
    cbn [product your_budget set_current_round].
    rewrite Hp1, Hb1, Hsp1.
    destruct (Z.ltb_spec seller_min buyer_budget) as [_|]; [|lia].
    rewrite Hlt. cbn [bind DealStatus_eqb].
    eexists. split; [reflexivity|].
    cbn [exit_deal_made exit_final_price exit_context current_round
         append_message append_your_offer set_current_round].
    auto. }
  destruct H2 as (e & Hr1 & Hd & Hf & Hr).
  exists e. split; [|auto].
  apply (negotiation_break llm (MockBuyerAgent.agent llm) goods buyer_budget
           seller_min 1%nat s1 e); [lia | exact He1 | exact Hr1].
Qed.

End SecondRound.

Section EasyScenario.
Local Open Scope Q_scope.

Lemma scale_below (k d c x y : Q) :
  k <= d * c -> 0 <= x -> d * (x * c) < y -> k * x < y.
Proof. intros. nra. Qed.

Lemma scale_below_le (k d c x y : Q) :
  k <= d * c -> 0 <= x -> d * (x * c) <= y -> k * x <= y.
Proof. intros. nra. Qed.

Lemma scale_above (k d c x y : Q) :
  d * c <= k -> 0 <= x -> y <= d * (x * c) -> y <= k * x.
Proof. intros. nra. Qed.

Lemma easy_constants :
  11888 # 10000 <= (1 - delta) * F2Q f1_2 /\
  7892 # 10000 <= (1 - delta) * F2Q f0_8 /\
  (1 + delta) * F2Q f0_8 <= 8109 # 10000 /\
  (1 + delta) * F2Q f0_6 <= 6107 # 10000 /\
  0 <= (1 - delta) * F2Q f0_6 /\
  10889 # 10000 <= (1 - delta) * F2Q f1_1 /\
  (1 + delta) * F2Q f1_15 <= 11612 # 10000 /\
  8391 # 10000 <= (1 - delta) * F2Q f0_85.
Proof. repeat split; apply Qle_bool_iff; vm_compute; reflexivity. Qed.

Lemma easy_in_range (z : Z) (c : Py.float) :
  In c [f0_6; f1_2; f0_8; f1_15; f1_5] -> (Z.abs z < 2 ^ 960)%Z ->
  exists i, Py.int_of_product z c = Ok i /\ (Z.abs i <= 2 * Z.abs z)%Z.
Proof.
  intros Hin Hz. apply int_of_product_in_range; [| |exact Hz];
    simpl in Hin;
    repeat (destruct Hin as [<-|Hin];
            [first [reflexivity
                   | apply Qle_bool_iff; vm_compute; reflexivity]|]);
    contradiction.
Qed.

(** The figures of the easy scenario as rationals. *)
Lemma easy_figures_Q (b B M o : Z) :
  (0 <= b)%Z ->
  Py.int_of_product b f1_2 = Ok B ->
  Py.int_of_product b f0_8 = Ok M ->
  Py.int_of_product b f0_6 = Ok o ->
  (11888 # 10000) * inject_Z b < inject_Z B + 1 /\
  (7892 # 10000) * inject_Z b < inject_Z M + 1 /\
  inject_Z M <= (8109 # 10000) * inject_Z b /\
  inject_Z o <= (6107 # 10000) * inject_Z b /\
  0 < inject_Z o + 1.
Proof.
  intros Hb0 HB HM Ho.
  pose proof (inject_Z_nonneg b Hb0) as Hq.
  destruct easy_constants as (C12 & C08lo & C08hi & C06hi & C06lo & _).
  destruct (int_of_product_nonneg_bounds b f1_2 B eq_refl Hb0 HB) as [HBlo _].
  destruct (int_of_product_nonneg_bounds b f0_8 M eq_refl Hb0 HM)
    as [HMlo HMhi].
  destruct (int_of_product_nonneg_bounds b f0_6 o eq_refl Hb0 Ho)
    as [Holo Hohi].
  split; [exact (scale_below _ _ _ _ _ C12 Hq HBlo)|].
  split; [exact (scale_below _ _ _ _ _ C08lo Hq HMlo)|].
  split; [exact (scale_above _ _ _ _ _ C08hi Hq HMhi)|].
  split; [exact (scale_above _ _ _ _ _ C06hi Hq Hohi)|].
  pose proof (scale_below _ _ _ _ _ C06lo Hq Holo) as H. lra.
Qed.

End EasyScenario.

Section EasyFigures.
Local Open Scope Q_scope.

Lemma easy_offer_refused (b o M : Z) :
  (0 <= M < 2 ^ 960)%Z -> 5 <= inject_Z b ->
  inject_Z o <= (6107 # 10000) * inject_Z b ->
  (7892 # 10000) * inject_Z b < inject_Z M + 1 ->
  Py.ge_product o M f1_1 = Ok false.
Proof.
  intros [HM0 HMr] Hb Ho HM. unfold Py.ge_product.
  destruct (int_mul_float_in_range M f1_1 eq_refl) as (t & Ht & Hn); [lia|].
  rewrite Ht. cbn [bind]. f_equal.
  destruct (int_mul_float_value M f1_1 t eq_refl Ht)
    as [->|[(_ & Hv & _) _]]; [contradiction|].
  destruct (Hv HM0) as [Hlo _].
  destruct (Py.int_ge_float o t) eqn:E; [|reflexivity].
  apply (int_ge_float_spec o t Hn) in E.
  destruct easy_constants as (_ & _ & _ & _ & _ & C11 & _).
  pose proof (scale_below_le _ _ _ _ _ C11 (inject_Z_nonneg M HM0) Hlo).
  lra.
Qed.

Lemma easy_floor_accepted (b M : Z) :
  (0 <= b < 2 ^ 960)%Z ->
  inject_Z M < (8391 # 10000) * inject_Z b ->
  Py.lt_product M b f0_85 = Ok true.
Proof.
  intros [Hb0 Hbr] HM. unfold Py.lt_product.
  destruct (int_mul_float_in_range b f0_85 eq_refl) as (t & Ht & Hn); [lia|].
  rewrite Ht. cbn [bind]. f_equal.
  destruct (int_mul_float_value b f0_85 t eq_refl Ht)
    as [->|[(_ & Hv & _) _]]; [contradiction|].
  destruct (Hv Hb0) as [Hlo _].
  apply (int_lt_float_spec M t Hn).
  destruct easy_constants as (_ & _ & _ & _ & _ & _ & _ & C085).
  pose proof (scale_below_le _ _ _ _ _ C085 (inject_Z_nonneg b Hb0) Hlo).
  lra.
Qed.

(** The figures of the easy scenario for a base price of at least five. *)
Lemma easy_figures_large (b : Z) :
  (5 <= b < 2 ^ 900)%Z ->
  exists opening_price offer counter buyer_budget seller_min,
    Py.int_of_product b f1_2 = Ok buyer_budget /\
    Py.int_of_product b f0_8 = Ok seller_min /\
    Py.int_of_product b f1_5 = Ok opening_price /\
    Py.int_of_product b f0_6 = Ok offer /\
    (offer <= buyer_budget)%Z /\
    Py.ge_product offer seller_min f1_1 = Ok false /\
    Py.int_of_product offer f1_15 = Ok counter /\
    (counter <= seller_min)%Z /\
    (seller_min < buyer_budget)%Z /\
    Py.lt_product seller_min b f0_85 = Ok true /\
    (0 < buyer_budget)%Z /\ (Z.abs buyer_budget <= 2 * b)%Z /\
    (0 <= seller_min)%Z.
Proof.
  intros [Hb5 Hb].
  assert (H960 : (4 * 2 ^ 900 < 2 ^ 960)%Z).
  { change (4 * 2 ^ 900)%Z with (2 ^ 902)%Z. apply Z.pow_lt_mono_r; lia. }
  assert (Hb0 : (0 <= b)%Z) by lia.
  destruct (easy_in_range b f1_2) as (B & HB & HBr); [simpl; auto 10 | lia |].
  destruct (easy_in_range b f0_8) as (M & HM & HMr); [simpl; auto 10 | lia |].
  destruct (easy_in_range b f1_5) as (S0 & HS & _); [simpl; auto 10 | lia |].
  destruct (easy_in_range b f0_6) as (o & Ho & Hor); [simpl; auto 10 | lia |].
  destruct (easy_in_range o f1_15) as (c & Hc & _); [simpl; auto 10 | lia |].
  exists S0, o, c, B, M.
  destruct (easy_figures_Q b B M o Hb0 HB HM Ho)
    as (QB & QMlo & QMhi & Qohi & Qolo).
  assert (Hq5 : 5 <= inject_Z b)
    by (change 5 with (inject_Z 5); rewrite <- Zle_Qle; exact Hb5).
  assert (Ho0 : (0 <= o)%Z).
  { apply inject_Z_lt_le. change (inject_Z 0) with 0. lra. }
  assert (HM0 : (0 <= M)%Z).
  { apply inject_Z_lt_le. change (inject_Z 0) with 0. lra. }
  assert (HMB : (M < B)%Z) by (rewrite Zlt_Qlt; lra).
  assert (HoB : (o <= B)%Z) by (apply inject_Z_lt_le; lra).
  assert (HcM : (c <= M)%Z).
  { destruct (int_of_product_nonneg_bounds o f1_15 c eq_refl Ho0 Hc)
      as [_ Hchi].
    destruct easy_constants as (_ & _ & _ & _ & _ & _ & C115 & _).
    pose proof (scale_above _ _ _ _ _ C115 (inject_Z_nonneg o Ho0) Hchi).
    apply inject_Z_lt_le. lra. }
  assert (Hge : Py.ge_product o M f1_1 = Ok false).
  { apply (easy_offer_refused b o M); [lia | exact Hq5 | exact Qohi
                                      | exact QMlo]. }
  assert (Hlt : Py.lt_product M b f0_85 = Ok true).
  { apply easy_floor_accepted; [lia | lra]. }
  assert (HBabs : (Z.abs B <= 2 * b)%Z) by lia.
  repeat split; try assumption. lia.
Qed.

End EasyFigures.

Lemma easy_figures (b : Z) :
  2 <= b < 2 ^ 900 ->
  exists opening_price offer counter buyer_budget seller_min,
    Py.int_of_product b f1_2 = Ok buyer_budget /\
    Py.int_of_product b f0_8 = Ok seller_min /\
    Py.int_of_product b f1_5 = Ok opening_price /\
    Py.int_of_product b f0_6 = Ok offer /\
    offer <= buyer_budget /\
    Py.ge_product offer seller_min f1_1 = Ok false /\
    Py.int_of_product offer f1_15 = Ok counter /\
    counter <= seller_min /\
    seller_min < buyer_budget /\
    Py.lt_product seller_min b f0_85 = Ok true /\
    0 < buyer_budget /\ Z.abs buyer_budget <= 2 * b /\
    0 <= seller_min.
Proof.
  intros [H2 Hb]. destruct (Z_lt_le_dec b 5) as [Hs|Hl].
  - assert (Hcases : b = 2 \/ b = 3 \/ b = 4) by lia.
    destruct Hcases as [ E | [ E | E ] ]; subst b.
    + exists 3, 1, 1, 2, 1.
      repeat split; try (vm_compute; reflexivity); lia.
    + exists 4, 1, 1, 3, 2.
      repeat split; try (vm_compute; reflexivity); lia.
    + exists 6, 2, 2, 4, 3.
      repeat split; try (vm_compute; reflexivity); lia.
  - apply easy_figures_large. lia.
Qed.

(** * The hard scenario *)

Section HardScenario.
Local Open Scope Q_scope.

Lemma hard_constants :
  8999 # 10000 <= (1 - delta) * F2Q f0_9 /\
  8199 # 10000 <= (1 - delta) * F2Q f0_82 /\
  (1 + delta) * F2Q f0_82 <= 8201 # 10000.
Proof. repeat split; apply Qle_bool_iff; vm_compute; reflexivity. Qed.

Lemma hard_in_range (z : Z) (c : Py.float) :
  In c [f0_9; f0_82] -> (Z.abs z < 2 ^ 960)%Z ->
  exists i, Py.int_of_product z c = Ok i /\ (Z.abs i <= 2 * Z.abs z)%Z.
Proof.
  intros Hin Hz. apply int_of_product_in_range; [| |exact Hz];
    simpl in Hin;
    repeat (destruct Hin as [<-|Hin];
            [first [reflexivity
                   | apply Qle_bool_iff; vm_compute; reflexivity]|]);
    contradiction.
Qed.

Lemma hard_figures_Q (b B M : Z) :
  (0 <= b)%Z ->
  Py.int_of_product b f0_9 = Ok B ->
  Py.int_of_product b f0_82 = Ok M ->
  (8999 # 10000) * inject_Z b < inject_Z B + 1 /\
  (8199 # 10000) * inject_Z b < inject_Z M + 1 /\
  inject_Z M <= (8201 # 10000) * inject_Z b.
Proof.
  intros Hb0 HB HM.
  pose proof (inject_Z_nonneg b Hb0) as Hq.
  destruct hard_constants as (C09 & C082lo & C082hi).
  destruct (int_of_product_nonneg_bounds b f0_9 B eq_refl Hb0 HB) as [HBlo _].
  destruct (int_of_product_nonneg_bounds b f0_82 M eq_refl Hb0 HM)
    as [HMlo HMhi].
  split; [exact (scale_below _ _ _ _ _ C09 Hq HBlo)|].
  split; [exact (scale_below _ _ _ _ _ C082lo Hq HMlo)|].
  exact (scale_above _ _ _ _ _ C082hi Hq HMhi).
Qed.

Lemma hard_figures_large (b : Z) :
  (13 <= b < 2 ^ 900)%Z ->
  exists opening_price offer counter buyer_budget seller_min,
    Py.int_of_product b f0_9 = Ok buyer_budget /\
    Py.int_of_product b f0_82 = Ok seller_min /\
    Py.int_of_product b f1_5 = Ok opening_price /\
    Py.int_of_product b f0_6 = Ok offer /\
    (offer <= buyer_budget)%Z /\
    Py.ge_product offer seller_min f1_1 = Ok false /\
    Py.int_of_product offer f1_15 = Ok counter /\
    (counter <= seller_min)%Z /\
    (seller_min < buyer_budget)%Z /\
    Py.lt_product seller_min b f0_85 = Ok true /\
    (0 < buyer_budget)%Z /\ (Z.abs buyer_budget <= 2 * b)%Z /\
    (0 <= seller_min)%Z.
Proof.
  intros [Hb13 Hb].
  assert (H960 : (4 * 2 ^ 900 < 2 ^ 960)%Z).
  { change (4 * 2 ^ 900)%Z with (2 ^ 902)%Z. apply Z.pow_lt_mono_r; lia. }
  assert (Hb0 : (0 <= b)%Z) by lia.
  destruct (hard_in_range b f0_9) as (B & HB & HBr); [simpl; auto | lia |].
  destruct (hard_in_range b f0_82) as (M & HM & HMr); [simpl; auto | lia |].
  destruct (easy_in_range b f1_5) as (S0 & HS & _); [simpl; auto 10 | lia |].
  destruct (easy_in_range b f0_6) as (o & Ho & Hor); [simpl; auto 10 | lia |].
  destruct (easy_in_range o f1_15) as (c & Hc & _); [simpl; auto 10 | lia |].
  exists S0, o, c, B, M.
  destruct (hard_figures_Q b B M Hb0 HB HM) as (QB & QMlo & QMhi).
  assert (Qo : inject_Z o <= (6107 # 10000) * inject_Z b /\ 0 < inject_Z o + 1).
  { pose proof (inject_Z_nonneg b Hb0) as Hq.
    destruct easy_constants as (_ & _ & _ & C06hi & C06lo & _).
    destruct (int_of_product_nonneg_bounds b f0_6 o eq_refl Hb0 Ho)
      as [Holo Hohi].
    split; [exact (scale_above _ _ _ _ _ C06hi Hq Hohi)|].
    pose proof (scale_below _ _ _ _ _ C06lo Hq Holo) as H. lra. }
  destruct Qo as [Qohi Qolo].
  assert (Hq13 : 13 <= inject_Z b)
    by (change 13 with (inject_Z 13); rewrite <- Zle_Qle; exact Hb13).
  assert (Ho0 : (0 <= o)%Z).
  { apply inject_Z_lt_le. change (inject_Z 0) with 0. lra. }
  assert (HM0 : (0 <= M)%Z).
  { apply inject_Z_lt_le. change (inject_Z 0) with 0. lra. }
  assert (HMB : (M < B)%Z) by (rewrite Zlt_Qlt; lra).
  assert (HoB : (o <= B)%Z) by (apply inject_Z_lt_le; lra).
  assert (HcM : (c <= M)%Z).
  { destruct (int_of_product_nonneg_bounds o f1_15 c eq_refl Ho0 Hc)
      as [_ Hchi].
    destruct easy_constants as (_ & _ & _ & _ & _ & _ & C115 & _).
    pose proof (scale_above _ _ _ _ _ C115 (inject_Z_nonneg o Ho0) Hchi).
    apply inject_Z_lt_le. lra. }
  assert (Hge : Py.ge_product o M f1_1 = Ok false).
  { apply (easy_offer_refused b o M); [lia | lra | exact Qohi | lra]. }
  assert (Hlt : Py.lt_product M b f0_85 = Ok true).
  { apply easy_floor_accepted; [lia | lra]. }
  assert (HBabs : (Z.abs B <= 2 * b)%Z) by lia.
  repeat split; try assumption. lia.
Qed.

End HardScenario.

Lemma hard_figures (b : Z) :
  12 <= b < 2 ^ 900 ->
  exists opening_price offer counter buyer_budget seller_min,
    Py.int_of_product b f0_9 = Ok buyer_budget /\
    Py.int_of_product b f0_82 = Ok seller_min /\
    Py.int_of_product b f1_5 = Ok opening_price /\
    Py.int_of_product b f0_6 = Ok offer /\
    offer <= buyer_budget /\
    Py.ge_product offer seller_min f1_1 = Ok false /\
    Py.int_of_product offer f1_15 = Ok counter /\
    counter <= seller_min /\
    seller_min < buyer_budget /\
    Py.lt_product seller_min b f0_85 = Ok true /\
    0 < buyer_budget /\ Z.abs buyer_budget <= 2 * b /\
    0 <= seller_min.
Proof.
  intros [H2 Hb]. destruct (Z_lt_le_dec b 13) as [Hs|Hl].
  - assert (b = 12) by lia. subst b.
    exists 18, 7, 8, 10, 9.
    repeat split; try (vm_compute; reflexivity); lia.
  - apply hard_figures_large. lia.
Qed.

(** The report of a run that closes in the second round at the seller's
    floor. *)
Lemma second_round_report (llm : NegotiationLLM) (p : Product)
    (opening_price offer counter buyer_budget seller_min : Z) :
  0 < base_market_price p < 2 ^ 900 ->
  Py.int_of_product (base_market_price p) f1_5 = Ok opening_price ->
  Py.int_of_product (base_market_price p) f0_6 = Ok offer ->
  offer <= buyer_budget ->
  Py.ge_product offer seller_min f1_1 = Ok false ->
  Py.int_of_product offer f1_15 = Ok counter ->
  counter <= seller_min ->
  seller_min < buyer_budget ->
  Py.lt_product seller_min (base_market_price p) f0_85 = Ok true ->
  0 < buyer_budget -> Z.abs buyer_budget <= 2 * base_market_price p ->
  0 <= seller_min ->
  exists o,
    run_negotiation_test llm (MockBuyerAgent.agent llm) p buyer_budget
      seller_min = Ok o /\
    deal_made o = true /\ final_price o = Some seller_min /\ rounds o = 2 /\
    savings o = buyer_budget - seller_min.
Proof.
  intros Hb HS Ho HoB Hge Hc HcM HMB Hlt HB0 HBr HM0.
  destruct (second_round_deal llm p buyer_budget seller_min opening_price
              offer counter HS Ho HoB Hge Hc HcM HMB Hlt)
    as (e & He & Hd & Hf & Hr).
  assert (H960 : 4 * 2 ^ 900 < 2 ^ 960).
  { change (4 * 2 ^ 900) with (2 ^ 902). apply Z.pow_lt_mono_r; lia. }
  destruct (percent_below_total buyer_budget seller_min) as [sp Hsp];
    [lia | lia |].
  destruct (percent_below_total (base_market_price p) seller_min) as [bp Hbp];
    [lia | lia |].
  eexists. split.
  - unfold run_negotiation_test. rewrite He. cbn [bind]. unfold outcome.
    rewrite Hd, Hf, Hsp. cbn [bind]. rewrite Hbp. cbn [bind]. rewrite Hr.
    reflexivity.
  - cbn [deal_made final_price rounds savings]. auto.
Qed.

(** X15.  The easy scenario of [test_agent] is settled in the second
    round for every product: with a base market price from 2 to below
    [2 ^ 900], budget int(base * 1.2) and seller floor int(base * 0.8), the
    seller answers the opening offer with its floor, the buyer accepts, and
    the report shows a deal at the floor after 2 rounds with savings of
    budget minus floor, which the totals of [test_agent] take up. *)
Theorem easy_scenario_closes (llm : NegotiationLLM) (p : Product) :
  2 <= base_market_price p < 2 ^ 900 ->
  exists buyer_budget seller_min o,
    scenario_inputs easy p = Ok (buyer_budget, seller_min) /\
    seller_min < buyer_budget /\
    run_negotiation_test llm (MockBuyerAgent.agent llm) p buyer_budget
      seller_min = Ok o /\
    deal_made o = true /\ final_price o = Some seller_min /\ rounds o = 2 /\
    savings o = buyer_budget - seller_min /\
    forall total_savings deals_made,
      test_scenario llm p easy (total_savings, deals_made)
      = Ok (total_savings + (buyer_budget - seller_min), deals_made + 1).
Proof.
  intros Hb.
  destruct (easy_figures (base_market_price p) Hb)
    as (S0 & offer & c & B & M & HB & HM & HS & Ho & HoB & Hge & Hc & HcM
        & HMB & Hlt & HB0 & HBr & HM0).
  destruct (second_round_report llm p S0 offer c B M) as (o & Hrun & Hfields);
    try assumption; [lia|].
  assert (Hin : scenario_inputs easy p = Ok (B, M)).
  { unfold scenario_inputs. rewrite HB. cbn [bind]. rewrite HM. reflexivity. }
  exists B, M, o. split; [exact Hin|]. split; [exact HMB|].
  split; [exact Hrun|].
  destruct Hfields as (Hd & Hf & Hr & Hs).
  repeat split; try assumption.
  intros total_savings deals_made. unfold test_scenario.
  rewrite Hin. cbn [bind]. rewrite Hrun. cbn [bind]. rewrite Hd, Hs.
  reflexivity.
Qed.

Lemma easy_scenario_closes_witness :
  2 <= base_market_price alphonso < 2 ^ 900 /\
  exists o,
    run_negotiation_test canned_llm (MockBuyerAgent.agent canned_llm) alphonso
      216000 144000 = Ok o /\
    final_price o = Some 144000 /\ rounds o = 2 /\ savings o = 72000.
Proof.
  assert (Hb : 2 <= base_market_price alphonso < 2 ^ 900).
  { split; [discriminate | reflexivity]. }
  split; [exact Hb|].
  destruct (easy_scenario_closes canned_llm alphonso Hb)
    as (B & M & o & Hin & _ & Hrun & _ & Hf & Hr & Hs & _).
  assert (E : (B, M) = (216000, 144000)).
  { assert (Ok (B, M) = Ok (216000, 144000)); [|congruence].
    rewrite <- Hin. vm_compute. reflexivity. }
  inversion E; subst B M. exists o. auto.
Defined.

(** X16.  The hard scenario of [test_agent] is settled in the second round
    as well: with a base market price from 12 to below [2 ^ 900], budget
    int(base * 0.9) and seller floor int(base * 0.82), the report shows a
    deal at the seller's floor after 2 rounds, with savings of budget minus
    floor, which the totals of [test_agent] take up. *)
Theorem hard_scenario_closes (llm : NegotiationLLM) (p : Product) :
  12 <= base_market_price p < 2 ^ 900 ->
  exists buyer_budget seller_min o,
    scenario_inputs hard p = Ok (buyer_budget, seller_min) /\
    seller_min < buyer_budget /\
    run_negotiation_test llm (MockBuyerAgent.agent llm) p buyer_budget
      seller_min = Ok o /\
    deal_made o = true /\ final_price o = Some seller_min /\ rounds o = 2 /\
    savings o = buyer_budget - seller_min /\
    forall total_savings deals_made,
      test_scenario llm p hard (total_savings, deals_made)
      = Ok (total_savings + (buyer_budget - seller_min), deals_made + 1).
Proof.
  intros Hb.
  destruct (hard_figures (base_market_price p) Hb)
    as (S0 & offer & c & B & M & HB & HM & HS & Ho & HoB & Hge & Hc & HcM
        & HMB & Hlt & HB0 & HBr & HM0).
  destruct (second_round_report llm p S0 offer c B M) as (o & Hrun & Hfields);
    try assumption; [lia|].
  assert (Hin : scenario_inputs hard p = Ok (B, M)).
  { unfold scenario_inputs. rewrite HB. cbn [bind]. rewrite HM. reflexivity. }
  exists B, M, o. split; [exact Hin|]. split; [exact HMB|].
  split; [exact Hrun|].
  destruct Hfields as (Hd & Hf & Hr & Hs).
  repeat split; try assumption.
  intros total_savings deals_made. unfold test_scenario.
  rewrite Hin. cbn [bind]. rewrite Hrun. cbn [bind]. rewrite Hd, Hs.
  reflexivity.
Qed.

Lemma hard_scenario_closes_witness :
  12 <= base_market_price kesar < 2 ^ 900 /\
  exists o,
    run_negotiation_test canned_llm (MockBuyerAgent.agent canned_llm) kesar
      135000 122999 = Ok o /\
    final_price o = Some 122999 /\ rounds o = 2 /\ savings o = 12001.
Proof.
  assert (Hb : 12 <= base_market_price kesar < 2 ^ 900).
  { split; [discriminate | reflexivity]. }
  split; [exact Hb|].
  destruct (hard_scenario_closes canned_llm kesar Hb)
    as (B & M & o & Hin & _ & Hrun & _ & Hf & Hr & Hs & _).
  assert (E : (B, M) = (135000, 122999)).
  { assert (Ok (B, M) = Ok (135000, 122999)); [|congruence].
    rewrite <- Hin. vm_compute. reflexivity. }
  inversion E; subst B M. exists o. auto.
Defined.
